(** * Session layer of the organisation-management front end

    A shallow embedding of [src/services/api.ts] ([TokenManager],
    [HttpClient]) and of the authentication service built on it
    ([AuthService.login], [register], [logout], [getUserOrganization]),
    together with the parts of the JavaScript platform these functions call
    ([String.prototype.split], [atob], [JSON.parse], [JSON.stringify], the
    abstract operations ToNumber, ToString and ToBoolean, [localStorage],
    [Date.now] and [fetch]).

    Conventions of the embedding.
    - A JavaScript string is the list of its UTF-16 code units ([list N]).
    - A JavaScript number is an IEEE-754 binary64 value, written as the
      exact decimal [m * 10^e] that it is equal to (plus NaN and the two
      infinities; the two zeros are not told apart).  A numeric literal and
      a product are rounded to the nearest binary64 value, ties to even
      ([to_binary64]), and a number is printed with the fewest digits that
      read back as the same value.  [Date.now()] is an integral time
      value, at most 8.64e15 in magnitude, which binary64 holds exactly.
    - [console.log] and [console.error] have no effect on the program and
      are left out.
    - [localStorage] is a total finite map; quota and security exceptions
      of the browser are not modelled.
    - An [async] function is a computation over the state of the browser:
      it reads the clock, reads and writes storage, and obtains from the
      network the outcome of the one [fetch] it awaits.  Calls are followed
      one at a time; the interleaving of several pending calls is not
      modelled. *)

From Stdlib Require Import ZArith NArith QArith Qpower Ascii String List Lia Bool.
From stdpp Require Import gmap strings list.

Local Open Scope N_scope.

(** ** JavaScript strings *)

Abbreviation jsstring := (list N).

Fixpoint js (s : string) : jsstring :=
  match s with
  | EmptyString => []
  | String a r => N_of_ascii a :: js r
  end.

Fixpoint str_eqb (a b : jsstring) : bool :=
  match a, b with
  | [], [] => true
  | x :: a', y :: b' => (x =? y) && str_eqb a' b'
  | _, _ => false
  end.

Fixpoint starts_with (p s : jsstring) : bool :=
  match p, s with
  | [], _ => true
  | x :: p', y :: s' => (x =? y) && starts_with p' s'
  | _ :: _, [] => false
  end.

(** [String.prototype.includes]. *)
Fixpoint includes (s p : jsstring) : bool :=
  starts_with p s ||
  match s with
  | [] => false
  | _ :: s' => includes s' p
  end.

(** [String.prototype.split] with a one-unit separator: the result is never
    empty, and the empty string splits into one empty segment. *)
Fixpoint str_split (sep : N) (s : jsstring) : list jsstring :=
  match s with
  | [] => [[]]
  | c :: r =>
      if c =? sep then [] :: str_split sep r
      else match str_split sep r with
           | seg :: segs => (c :: seg) :: segs
           | [] => [[c]]
           end
  end.

Definition DOT : N := 46.

(** ** [atob]: the forgiving-base64 decode of the HTML standard *)

Definition is_ascii_whitespace (c : N) : bool :=
  (c =? 9) || (c =? 10) || (c =? 12) || (c =? 13) || (c =? 32).

Definition b64_value (c : N) : option N :=
  if (65 <=? c) && (c <=? 90) then Some (c - 65)
  else if (97 <=? c) && (c <=? 122) then Some (c - 71)
  else if (48 <=? c) && (c <=? 57) then Some (c + 4)
  else if c =? 43 then Some 62
  else if c =? 47 then Some 63
  else None.

(** The rest of [s] after the code unit [c], when [s] starts with it. *)
Definition expect (c : N) (s : jsstring) : option jsstring :=
  match s with
  | x :: r => if x =? c then Some r else None
  | [] => None
  end.

(** One or two [=] signs are removed from the end of a string whose length
    is a multiple of four. *)
Definition strip_padding (data : jsstring) : jsstring :=
  if (N.of_nat (length data) mod 4 =? 0) then
    match expect 61 (rev data) with
    | Some r1 =>
        match expect 61 r1 with
        | Some r2 => rev r2
        | None => rev r1
        end
    | None => data
    end
  else data.

Fixpoint sextets (data : jsstring) : option (list N) :=
  match data with
  | [] => Some []
  | c :: r =>
      match b64_value c, sextets r with
      | Some v, Some vs => Some (v :: vs)
      | _, _ => None
      end
  end.

(** Every four sextets give three bytes; a tail of three gives two bytes and
    a tail of two gives one, the unused low bits being dropped. *)
Fixpoint bytes_of_sextets (l : list N) : list N :=
  match l with
  | a :: b :: c :: d :: r =>
      let n := N.lor (N.lor (N.shiftl a 18) (N.shiftl b 12))
                     (N.lor (N.shiftl c 6) d) in
      N.shiftr n 16 :: N.land (N.shiftr n 8) 255 :: N.land n 255
        :: bytes_of_sextets r
  | [a; b; c] =>
      let n := N.shiftr (N.lor (N.lor (N.shiftl a 12) (N.shiftl b 6)) c) 2 in
      [N.shiftr n 8; N.land n 255]
  | [a; b] => [N.shiftr (N.lor (N.shiftl a 6) b) 4]
  | _ => []
  end.

(** [atob data]; [None] stands for the InvalidCharacterError it throws. *)
Definition atob (data : jsstring) : option jsstring :=
  let data := strip_padding (List.filter (fun c => negb (is_ascii_whitespace c)) data) in
  if N.of_nat (length data) mod 4 =? 1 then None
  else option_map bytes_of_sextets (sextets data).

(** ** JavaScript numbers *)

(** [Dec m e] is the number [m * 10^e].  The numbers of a program are the
    binary64 values among them: what [to_binary64] returns. *)
Inductive number : Type :=
| NaN
| PosInf
| NegInf
| Dec (m : Z) (e : Z).

Definition num_of_Z (z : Z) : number := Dec z 0.

(** Comparison of two finite numbers: both mantissas are brought to the
    smaller exponent. *)
Definition dec_compare (m1 e1 m2 e2 : Z) : comparison :=
  let e0 := Z.min e1 e2 in
  (m1 * 10 ^ (e1 - e0) ?= m2 * 10 ^ (e2 - e0))%Z.

(** The [<] operator on numbers; a comparison with NaN is false. *)
Definition num_ltb (a b : number) : bool :=
  match a, b with
  | NaN, _ | _, NaN => false
  | PosInf, _ => false
  | NegInf, NegInf => false
  | NegInf, _ => true
  | Dec _ _, PosInf => true
  | Dec _ _, NegInf => false
  | Dec m1 e1, Dec m2 e2 =>
      match dec_compare m1 e1 m2 e2 with Lt => true | _ => false end
  end.

(** Strict equality [===] on numbers. *)
Definition num_eqb (a b : number) : bool :=
  match a, b with
  | PosInf, PosInf | NegInf, NegInf => true
  | Dec m1 e1, Dec m2 e2 =>
      match dec_compare m1 e1 m2 e2 with Eq => true | _ => false end
  | _, _ => false
  end.

Definition num_sign (a : number) : comparison :=
  match a with
  | NaN => Eq
  | PosInf => Gt
  | NegInf => Lt
  | Dec m _ => (m ?= 0)%Z
  end.

(** *** Rounding to binary64 *)

(** The integer nearest to [num / den], for a positive [den]; a tie goes to
    the even neighbour. *)
Definition round_half_even (num den : Z) : Z :=
  let q := (num / den)%Z in
  match (2 * (num mod den) ?= den)%Z with
  | Lt => q
  | Gt => (q + 1)%Z
  | Eq => if Z.even q then q else (q + 1)%Z
  end.

(** The fraction [(a / b) / 2^E], numerator and denominator. *)
Definition scaled (a b E : Z) : Z * Z :=
  if (0 <=? E)%Z then (a, (b * 2 ^ E)%Z) else ((a * 2 ^ (- E))%Z, b).

(** The exponent of the last place of the binary64 values next to the
    positive rational [a / b]: the [E] with [2^52 <= (a / b) / 2^E < 2^53],
    and [-1074] where that falls below the subnormal numbers. *)
Definition binary64_exponent (a b : Z) : Z :=
  let e0 := (Z.log2 a - Z.log2 b - 53)%Z in
  let '(n, d) := scaled a b e0 in
  Z.max (if (2 ^ 53 <=? n / d)%Z then e0 + 1 else e0) (-1074).

(** The number of trailing zero bits. *)
Fixpoint trailing_zeros (p : positive) : Z :=
  match p with
  | xO q => (1 + trailing_zeros q)%Z
  | _ => 0%Z
  end.

(** The dyadic number [M * 2^E] as a decimal: an integer has exponent 0,
    another number a mantissa that does not end in 0. *)
Definition dyadic (M E : Z) : number :=
  match M with
  | Z0 => Dec 0 0
  | Zpos p | Zneg p =>
      if (0 <=? E)%Z then Dec (M * 2 ^ E) 0
      else
        let t := Z.min (trailing_zeros p) (- E) in
        Dec (M / 2 ^ t * 5 ^ (- E - t)) (E + t)
  end.

(** The binary64 value nearest to a number, ties to even; beyond the
    largest finite value it is an infinity. *)
Definition to_binary64 (n : number) : number :=
  match n with
  | Dec m e =>
      if (m =? 0)%Z then Dec 0 0
      else
        let a := if (0 <=? e)%Z then (Z.abs m * 10 ^ e)%Z else Z.abs m in
        let b := if (0 <=? e)%Z then 1%Z else (10 ^ (- e))%Z in
        let E := binary64_exponent a b in
        let '(num, den) := scaled a b E in
        let M := round_half_even num den in
        if (1024 <=? Z.log2 M + E)%Z then (if (m <? 0)%Z then NegInf else PosInf)
        else dyadic (Z.sgn m * M) E
  | _ => n
  end.

(** The [*] operator on numbers: the exact product, rounded. *)
Definition num_mul (a b : number) : number :=
  match a, b with
  | NaN, _ | _, NaN => NaN
  | Dec m1 e1, Dec m2 e2 => to_binary64 (Dec (m1 * m2) (e1 + e2))
  | _, _ =>
      match num_sign a, num_sign b with
      | Eq, _ | _, Eq => NaN
      | Gt, Gt | Lt, Lt => PosInf
      | _, _ => NegInf
      end
  end.

(** ** Decimal digits *)

Definition is_digit (c : N) : bool := (48 <=? c) && (c <=? 57).

(** The longest prefix of decimal digits, and what follows it. *)
Fixpoint take_digits (s : jsstring) : jsstring * jsstring :=
  match s with
  | c :: r =>
      if is_digit c then let '(d, r') := take_digits r in (c :: d, r')
      else ([], s)
  | [] => ([], [])
  end.

Definition digits_value (d : jsstring) : Z :=
  fold_left (fun acc c => (acc * 10 + Z.of_N (c - 48))%Z) d 0%Z.

Fixpoint digits_of_pos_fuel (fuel : nat) (n : N) (acc : jsstring) : jsstring :=
  match fuel with
  | O => acc
  | S fuel =>
      let acc := (48 + n mod 10) :: acc in
      if n / 10 =? 0 then acc else digits_of_pos_fuel fuel (n / 10) acc
  end.

(** The decimal digits of a natural number, most significant first. *)
Definition digits_of_N (n : N) : jsstring :=
  digits_of_pos_fuel (S (N.to_nat (N.size n))) n [].

(** ** JavaScript values *)

(** The values that JSON text and the object literals of the source can
    denote.  An object is the list of its own properties in creation
    order. *)
#[warnings="-register-all"]
Inductive value : Type :=
| VUndefined
| VNull
| VBool (b : bool)
| VNum (n : number)
| VStr (s : jsstring)
| VArr (items : list value)
| VObj (props : list (jsstring * value)).

Fixpoint lookup_prop (k : jsstring) (props : list (jsstring * value)) : option value :=
  match props with
  | [] => None
  | (k', v) :: rest => if str_eqb k k' then Some v else lookup_prop k rest
  end.

Definition has_prop (k : jsstring) (props : list (jsstring * value)) : bool :=
  match lookup_prop k props with Some _ => true | None => false end.

(** Defining a property: an existing key keeps its place and takes the new
    value, a new key goes to the end. *)
Fixpoint set_prop (k : jsstring) (v : value) (props : list (jsstring * value))
  : list (jsstring * value) :=
  match props with
  | [] => [(k, v)]
  | (k', v') :: rest =>
      if str_eqb k k' then (k', v) :: rest else (k', v') :: set_prop k v rest
  end.

(** ToBoolean. *)
Definition truthy (v : value) : bool :=
  match v with
  | VUndefined | VNull => false
  | VBool b => b
  | VNum NaN => false
  | VNum (Dec m _) => negb (m =? 0)%Z
  | VNum _ => true
  | VStr s => match s with [] => false | _ => true end
  | VArr _ | VObj _ => true
  end.

(** [v.k] for the property names the source reads ([exp], [message],
    [success], [data], [token], [refreshToken], [user], [first_time_login],
    [organisation_id], [email], [firstName], [lastName], [company]): none
    of them is an index, [length] or a name defined on a built-in
    prototype, so only an object can answer with something other than
    [undefined].  [None] is the TypeError raised on [null] and
    [undefined]. *)
Definition Get (v : value) (k : jsstring) : option value :=
  match v with
  | VUndefined | VNull => None
  | VObj props =>
      Some (match lookup_prop k props with Some x => x | None => VUndefined end)
  | _ => Some VUndefined
  end.

(** [v.hasOwnProperty(k)] for a name [k] that is not an index or [length].
    [None] is a TypeError: on [null], and on an object whose own
    [hasOwnProperty] property shadows the inherited method with a value that
    cannot be called. *)
Definition hasOwnProperty (v : value) (k : jsstring) : option bool :=
  match v with
  | VUndefined | VNull => None
  | VObj props =>
      if has_prop (js "hasOwnProperty") props then None
      else Some (has_prop k props)
  | _ => Some false
  end.

(** *** Number to string *)

Fixpoint strip_zeros_rev (r : jsstring) (z : Z) : jsstring * Z :=
  match r with
  | c :: r' => if c =? 48 then strip_zeros_rev r' (z + 1)%Z else (r, z)
  | [] => ([], z)
  end.

Definition zeros (n : Z) : jsstring := repeat 48 (Z.to_nat n).

(** Number::toString on a positive finite number [m * 10^e]: with [s] the
    digits of the mantissa without trailing zeros, [k] their count and [n]
    the position of the decimal point. *)
Definition pos_dec_to_string (m : N) (e : Z) : jsstring :=
  let '(r, z) := strip_zeros_rev (rev (digits_of_N m)) 0%Z in
  let s := rev r in
  let k := Z.of_nat (length s) in
  let n := (k + e + z)%Z in
  if ((k <=? n) && (n <=? 21))%Z then s ++ zeros (n - k)
  else if ((0 <? n) && (n <=? 21))%Z then
    take (Z.to_nat n) s ++ [46] ++ drop (Z.to_nat n) s
  else if ((-6 <? n) && (n <=? 0))%Z then [48; 46] ++ zeros (- n) ++ s
  else
    let ex := (if (0 <? n - 1)%Z then 43 else 45) :: digits_of_N (Z.abs_N (n - 1)) in
    match s with
    | [d] => [d; 101] ++ ex
    | d :: ds => [d; 46] ++ ds ++ [101] ++ ex
    | [] => []
    end.

(** The decimals of [k] digits next to [m * 10^e], which has more digits:
    the one that reads back as [v], and the nearer one when both do. *)
Definition shortest_try (m e : Z) (v : number) (k : Z) : option (Z * Z) :=
  let d := Z.of_nat (length (digits_of_N (Z.to_N m))) in
  if (d <=? k)%Z then Some (m, e)
  else
    let sh := (d - k)%Z in
    let lo := (m / 10 ^ sh)%Z in
    let hi := (lo + 1)%Z in
    match num_eqb (to_binary64 (Dec lo (e + sh))) v,
          num_eqb (to_binary64 (Dec hi (e + sh))) v with
    | true, true =>
        match (2 * (m mod 10 ^ sh) ?= 10 ^ sh)%Z with
        | Lt => Some (lo, (e + sh)%Z)
        | Gt => Some (hi, (e + sh)%Z)
        | Eq => Some (if Z.even lo then lo else hi, (e + sh)%Z)
        end
    | true, false => Some (lo, (e + sh)%Z)
    | false, true => Some (hi, (e + sh)%Z)
    | false, false => None
    end.

Fixpoint shortest_from (fuel : nat) (k : Z) (m e : Z) (v : number) : Z * Z :=
  match fuel with
  | O => (m, e)
  | S fuel' =>
      match shortest_try m e v k with
      | Some r => r
      | None => shortest_from fuel' (k + 1)%Z m e v
      end
  end.

(** The shortest decimal that reads back as the positive binary64 value
    [m * 10^e]; seventeen digits always do. *)
Definition shortest_decimal (m e : Z) : Z * Z := shortest_from 17 1%Z m e (Dec m e).

(** Number::toString.  The argument is a binary64 value; rounding it first
    makes the function defined on every decimal. *)
Definition num_to_string (n : number) : jsstring :=
  match to_binary64 n with
  | NaN => js "NaN"
  | PosInf => js "Infinity"
  | NegInf => js "-Infinity"
  | Dec m e =>
      if (m =? 0)%Z then [48]
      else
        let '(s, x) := shortest_decimal (Z.abs m) e in
        if (m <? 0)%Z then 45 :: pos_dec_to_string (Z.to_N s) x
        else pos_dec_to_string (Z.to_N s) x
  end.

(** *** String to number *)

(** WhiteSpace and LineTerminator code units. *)
Definition is_str_whitespace (c : N) : bool :=
  ((9 <=? c) && (c <=? 13)) || (c =? 32) || (c =? 160) || (c =? 5760)
  || ((8192 <=? c) && (c <=? 8202)) || (c =? 8232) || (c =? 8233)
  || (c =? 8239) || (c =? 8287) || (c =? 12288) || (c =? 65279).

Fixpoint drop_ws (s : jsstring) : jsstring :=
  match s with
  | c :: r => if is_str_whitespace c then drop_ws r else s
  | [] => []
  end.

Definition trim (s : jsstring) : jsstring := rev (drop_ws (rev (drop_ws s))).

(** An optional exponent part; [None] when an exponent indicator is not
    followed by digits. *)
Definition parse_exponent (s : jsstring) : option (Z * jsstring) :=
  match s with
  | c :: r =>
      if (c =? 101) || (c =? 69) then
        let '(sign, r1) :=
          match r with
          | x :: r' =>
              if x =? 43 then (1%Z, r') else if x =? 45 then ((-1)%Z, r') else (1%Z, r)
          | [] => (1%Z, r)
          end in
        match take_digits r1 with
        | ([], _) => None
        | (d, r2) => Some ((sign * digits_value d)%Z, r2)
        end
      else Some (0%Z, s)
  | [] => Some (0%Z, [])
  end.

Definition digit_in_radix (radix c : N) : option N :=
  let v := if is_digit c then Some (c - 48)
           else if (97 <=? c) && (c <=? 102) then Some (c - 87)
           else if (65 <=? c) && (c <=? 70) then Some (c - 55)
           else None in
  match v with
  | Some d => if d <? radix then Some d else None
  | None => None
  end.

Fixpoint radix_value (radix : N) (s : jsstring) (acc : N) : option N :=
  match s with
  | [] => Some acc
  | c :: r =>
      match digit_in_radix radix c with
      | Some d => radix_value radix r (acc * radix + d)
      | None => None
      end
  end.

(** StrUnsignedDecimalLiteral. *)
Definition unsigned_decimal (s : jsstring) : number :=
  if str_eqb s (js "Infinity") then PosInf
  else
    let '(d1, r1) := take_digits s in
    let '(d2, r2) :=
      match r1 with
      | c :: r => if c =? 46 then take_digits r else ([], r1)
      | [] => ([], r1)
      end in
    match d1 ++ d2 with
    | [] => NaN
    | ds =>
        match parse_exponent r2 with
        | Some (ex, []) =>
            to_binary64 (Dec (digits_value ds) (ex - Z.of_nat (length d2)))
        | _ => NaN
        end
    end.

Definition num_neg (n : number) : number :=
  match n with
  | NaN => NaN
  | PosInf => NegInf
  | NegInf => PosInf
  | Dec m e => Dec (- m) e
  end.

(** The radix announced by a prefix [0x], [0o] or [0b], in either case. *)
Definition radix_prefix (s : jsstring) : option N :=
  match s with
  | c :: x :: _ =>
      if c =? 48 then
        if (x =? 120) || (x =? 88) then Some 16
        else if (x =? 111) || (x =? 79) then Some 8
        else if (x =? 98) || (x =? 66) then Some 2
        else None
      else None
  | _ => None
  end.

(** StringToNumber: the whole trimmed string has to be a numeric literal.
    The empty string is zero; a literal with a radix prefix takes no sign. *)
Definition StringToNumber (s : jsstring) : number :=
  match trim s with
  | [] => Dec 0 0
  | c :: r =>
      match radix_prefix (c :: r) with
      | Some radix =>
          match drop 1 r with
          | [] => NaN
          | ds => match radix_value radix ds 0 with
                  | Some v => to_binary64 (Dec (Z.of_N v) 0)
                  | None => NaN
                  end
          end
      | None =>
          if c =? 43 then unsigned_decimal r
          else if c =? 45 then num_neg (unsigned_decimal r)
          else unsigned_decimal (c :: r)
      end
  end.

Fixpoint join (sep : jsstring) (l : list jsstring) : jsstring :=
  match l with
  | [] => []
  | [x] => x
  | x :: rest => x ++ sep ++ join sep rest
  end.

Fixpoint sequence {A} (l : list (option A)) : option (list A) :=
  match l with
  | [] => Some []
  | Some x :: rest => option_map (cons x) (sequence rest)
  | None :: _ => None
  end.

(** ToString.  An array is joined with commas, [null] and [undefined] items
    giving the empty string; a plain object gives ["[object Object]"].
    [None] is the TypeError raised when an object's own [toString] property
    shadows the inherited method with a value that cannot be called. *)
Fixpoint ToString (v : value) : option jsstring :=
  match v with
  | VUndefined => Some (js "undefined")
  | VNull => Some (js "null")
  | VBool true => Some (js "true")
  | VBool false => Some (js "false")
  | VNum n => Some (num_to_string n)
  | VStr s => Some s
  | VArr items =>
      option_map (join [44])
        (sequence (map (fun x => match x with
                                 | VUndefined | VNull => Some []
                                 | _ => ToString x
                                 end) items))
  | VObj props =>
      if has_prop (js "toString") props then None
      else Some (js "[object Object]")
  end.

(** ToNumber; [None] is the TypeError of [ToString]. *)
Definition ToNumber (v : value) : option number :=
  match v with
  | VUndefined => Some NaN
  | VNull => Some (Dec 0 0)
  | VBool true => Some (Dec 1 0)
  | VBool false => Some (Dec 0 0)
  | VNum n => Some n
  | VStr s => Some (StringToNumber s)
  | VArr _ | VObj _ => option_map StringToNumber (ToString v)
  end.

(** ** [JSON.parse] *)

Definition is_json_whitespace (c : N) : bool :=
  (c =? 9) || (c =? 10) || (c =? 13) || (c =? 32).

Fixpoint skip_ws (s : jsstring) : jsstring :=
  match s with
  | c :: r => if is_json_whitespace c then skip_ws r else s
  | [] => []
  end.

Definition hex4 (a b c d : N) : option N :=
  match digit_in_radix 16 a, digit_in_radix 16 b,
        digit_in_radix 16 c, digit_in_radix 16 d with
  | Some a, Some b, Some c, Some d =>
      Some (N.lor (N.lor (N.shiftl a 12) (N.shiftl b 8)) (N.lor (N.shiftl c 4) d))
  | _, _, _, _ => None
  end.

(** The characters of a JSON string after its opening quote, up to and
    including the closing quote. *)
Fixpoint parse_string (s : jsstring) : option (jsstring * jsstring) :=
  let push (c : N) (r : option (jsstring * jsstring)) :=
    match r with
    | Some (str, rest) => Some (c :: str, rest)
    | None => None
    end in
  match s with
  | [] => None
  | c :: r =>
      if c =? 34 then Some ([], r)
      else if c =? 92 then
        match r with
        | [] => None
        | e :: r1 =>
            if (e =? 34) || (e =? 92) || (e =? 47) then push e (parse_string r1)
            else if e =? 98 then push 8 (parse_string r1)
            else if e =? 102 then push 12 (parse_string r1)
            else if e =? 110 then push 10 (parse_string r1)
            else if e =? 114 then push 13 (parse_string r1)
            else if e =? 116 then push 9 (parse_string r1)
            else if e =? 117 then
              match r1 with
              | a :: b :: c' :: d :: r2 =>
                  match hex4 a b c' d with
                  | Some u => push u (parse_string r2)
                  | None => None
                  end
              | _ => None
              end
            else None
        end
      else if c <? 32 then None
      else push c (parse_string r)
  end.

(** A JSON number: an optional minus sign, an integer part without leading
    zeros, an optional fraction and an optional exponent; its value is the
    binary64 value nearest to the literal. *)
Definition parse_number (s : jsstring) : option (number * jsstring) :=
  let '(neg, s1) :=
    match s with
    | c :: r => if c =? 45 then (true, r) else (false, s)
    | [] => (false, s)
    end in
  let '(d1, r1) := take_digits s1 in
  match d1 with
  | [] => None
  | c0 :: more =>
      if (c0 =? 48) && negb (Nat.eqb (length more) 0) then None else
      let frac :=
        match r1 with
        | c :: r =>
            if c =? 46 then
              match take_digits r with
              | ([], _) => None
              | (d2, r2) => Some (d2, r2)
              end
            else Some ([], r1)
        | [] => Some ([], r1)
        end in
      match frac with
      | None => None
      | Some (d2, r2) =>
          match parse_exponent r2 with
          | None => None
          | Some (ex, r3) =>
              let m := digits_value (d1 ++ d2) in
              Some (to_binary64 (Dec (if neg then - m else m)
                                     (ex - Z.of_nat (length d2))), r3)
          end
      end
  end.

Definition parse_literal (s : jsstring) : option (value * jsstring) :=
  if starts_with (js "true") s then Some (VBool true, drop 4 s)
  else if starts_with (js "false") s then Some (VBool false, drop 5 s)
  else if starts_with (js "null") s then Some (VNull, drop 4 s)
  else None.

(** One JSON value and the text that follows it.  [fuel] bounds the depth of
    the calls; [parse_elements] reads the items of an array after its opening
    bracket and [parse_members] the members of an object after its opening
    brace.  A repeated key keeps its first place and takes the last value. *)
Fixpoint parse_value (fuel : nat) (s : jsstring) : option (value * jsstring) :=
  match fuel with
  | O => None
  | S fuel =>
      match skip_ws s with
      | [] => None
      | c :: r =>
          if c =? 123 then
            match expect 125 (skip_ws r) with
            | Some r' => Some (VObj [], r')
            | None => parse_members fuel [] r
            end
          else if c =? 91 then
            match expect 93 (skip_ws r) with
            | Some r' => Some (VArr [], r')
            | None => parse_elements fuel [] r
            end
          else if c =? 34 then
            match parse_string r with
            | Some (str, r') => Some (VStr str, r')
            | None => None
            end
          else if (c =? 45) || is_digit c then
            match parse_number (c :: r) with
            | Some (n, r') => Some (VNum n, r')
            | None => None
            end
          else parse_literal (c :: r)
      end
  end
with parse_elements (fuel : nat) (acc : list value) (s : jsstring)
  : option (value * jsstring) :=
  match fuel with
  | O => None
  | S fuel =>
      match parse_value fuel s with
      | None => None
      | Some (v, r) =>
          match skip_ws r with
          | c :: r' =>
              if c =? 44 then parse_elements fuel (v :: acc) r'
              else if c =? 93 then Some (VArr (rev (v :: acc)), r')
              else None
          | [] => None
          end
      end
  end
with parse_members (fuel : nat) (acc : list (jsstring * value)) (s : jsstring)
  : option (value * jsstring) :=
  match fuel with
  | O => None
  | S fuel =>
      match expect 34 (skip_ws s) with
      | Some r =>
          match parse_string r with
          | None => None
          | Some (k, r1) =>
              match expect 58 (skip_ws r1) with
              | Some r2 =>
                  match parse_value fuel r2 with
                  | None => None
                  | Some (v, r3) =>
                      match skip_ws r3 with
                      | c :: r4 =>
                          if c =? 44 then parse_members fuel (set_prop k v acc) r4
                          else if c =? 125 then Some (VObj (set_prop k v acc), r4)
                          else None
                      | [] => None
                      end
                  end
              | None => None
              end
          end
      | None => None
      end
  end.

(** [JSON.parse text]; [None] stands for the SyntaxError it throws.  Every
    call of the parser consumes a character or follows one that did, so
    twice the length of the text bounds the depth. *)
Definition JSON_parse (text : jsstring) : option value :=
  match parse_value (2 * length text + 2) text with
  | Some (v, r) => match skip_ws r with [] => Some v | _ => None end
  | None => None
  end.

(** ** [JSON.stringify] *)

Definition hex_digit (d : N) : N := if d <? 10 then 48 + d else 87 + d.

Definition unicode_escape (c : N) : jsstring :=
  [92; 117; hex_digit (N.land (N.shiftr c 12) 15); hex_digit (N.land (N.shiftr c 8) 15);
   hex_digit (N.land (N.shiftr c 4) 15); hex_digit (N.land c 15)].

Definition is_high_surrogate (c : N) : bool := (55296 <=? c) && (c <=? 56319).
Definition is_low_surrogate (c : N) : bool := (56320 <=? c) && (c <=? 57343).

(** The inside of QuoteJSONString: short escapes, [\u] escapes for the other
    control characters and for surrogates that are not part of a pair. *)
Fixpoint quote_chars (s : jsstring) : jsstring :=
  match s with
  | [] => []
  | c :: r =>
      if c =? 8 then [92; 98] ++ quote_chars r
      else if c =? 9 then [92; 116] ++ quote_chars r
      else if c =? 10 then [92; 110] ++ quote_chars r
      else if c =? 12 then [92; 102] ++ quote_chars r
      else if c =? 13 then [92; 114] ++ quote_chars r
      else if c =? 34 then [92; 34] ++ quote_chars r
      else if c =? 92 then [92; 92] ++ quote_chars r
      else if c <? 32 then unicode_escape c ++ quote_chars r
      else if is_high_surrogate c then
        match r with
        | d :: r' =>
            if is_low_surrogate d then c :: d :: quote_chars r'
            else unicode_escape c ++ quote_chars r
        | [] => unicode_escape c
        end
      else if is_low_surrogate c then unicode_escape c ++ quote_chars r
      else c :: quote_chars r
  end.

Definition quote (s : jsstring) : jsstring := [34] ++ quote_chars s ++ [34].

(** An array index is a canonical decimal numeral below 2^32 - 1. *)
Definition array_index (k : jsstring) : option N :=
  match k with
  | [] => None
  | _ =>
      if forallb is_digit k then
        let v := Z.to_N (digits_value k) in
        if str_eqb (digits_of_N v) k && (v <? 4294967295) then Some v else None
      else None
  end.

Fixpoint insert_by_index {A} (i : N) (x : A) (l : list (N * A)) : list (N * A) :=
  match l with
  | [] => [(i, x)]
  | (j, y) :: rest =>
      if i <? j then (i, x) :: l else (j, y) :: insert_by_index i x rest
  end.

(** Own property keys are visited with the array indices first, in
    ascending order, and then the other keys in creation order. *)
Definition ordered_props {A} (props : list (jsstring * A)) : list (jsstring * A) :=
  let indexed :=
    fold_left (fun acc p => match array_index (fst p) with
                            | Some i => insert_by_index i p acc
                            | None => acc
                            end) props [] in
  map snd indexed
    ++ List.filter (fun p => match array_index (fst p) with
                             | Some _ => false
                             | None => true
                             end) props.

(** [JSON.stringify v]; [None] is the [undefined] it returns for
    [undefined].  Inside an array [undefined] is written [null], inside an
    object the property is skipped. *)
Fixpoint JSON_stringify (v : value) : option jsstring :=
  match v with
  | VUndefined => None
  | VNull => Some (js "null")
  | VBool true => Some (js "true")
  | VBool false => Some (js "false")
  | VNum (Dec m e) => Some (num_to_string (Dec m e))
  | VNum _ => Some (js "null")
  | VStr s => Some (quote s)
  | VArr items =>
      Some ([91] ++ join [44]
                      (map (fun x => match JSON_stringify x with
                                     | Some t => t
                                     | None => js "null"
                                     end) items) ++ [93])
  | VObj props =>
      let rendered := map (fun p => let '(k, x) := p in (k, JSON_stringify x)) props in
      Some ([123] ++ join [44]
                       (omap (fun p => match snd p with
                                       | Some t => Some (quote (fst p) ++ [58] ++ t)
                                       | None => None
                                       end) (ordered_props rendered)) ++ [125])
  end.

(** ** The browser around the program *)

(** What a [throw] or a rejected promise carries.  [JsError m] is
    [new Error(m)]; the messages of the errors raised by the engine and by
    the platform are implementation-defined and are not represented. *)
Inductive thrown : Type :=
| JsError (message : jsstring)
| JsTypeError
| JsSyntaxError
| JsDOMException (name : jsstring)
| NotAnError (v : value).

Definition instanceof_Error (t : thrown) : bool :=
  match t with
  | NotAnError _ => false
  | _ => true
  end.

(** [error.name] of an [Error] instance. *)
Definition error_name (t : thrown) : jsstring :=
  match t with
  | JsError _ => js "Error"
  | JsTypeError => js "TypeError"
  | JsSyntaxError => js "SyntaxError"
  | JsDOMException name => name
  | NotAnError _ => []
  end.

(** [AbortSignal.timeout(ms)] aborts with a DOMException named
    [TimeoutError] (DOM Standard, "AbortSignal.timeout"), and [fetch]
    rejects with the abort reason of its signal; [AbortError] is the reason
    of an [AbortController.abort()] without argument. *)
Definition timeout_reason : thrown := JsDOMException (js "TimeoutError").
Definition abort_reason : thrown := JsDOMException (js "AbortError").

Inductive body_read : Type :=
| BodyText (text : jsstring)
| BodyFailed (t : thrown).

Record Response : Type := mkResponse {
  status : N;
  statusText : jsstring;
  content_type : option jsstring;
  body : body_read
}.

(** [response.ok]. *)
Definition ok (r : Response) : bool := (200 <=? status r) && (status r <=? 299).

Record File : Type := mkFile { file_name : jsstring; file_bytes : list N }.

Inductive form_entry : Type :=
| FileEntry (f : File)
| StringEntry (s : jsstring).

Inductive BodyInit : Type :=
| TextBody (s : jsstring)
| FormData (entries : list (jsstring * form_entry)).

(** The [options] argument of [request]; absent headers are the empty map. *)
Record RequestInit : Type := mkRequestInit {
  method : option jsstring;
  init_body : option BodyInit;
  init_headers : gmap jsstring jsstring
}.

(** What [fetch] is called with. *)
Record Request : Type := mkRequest {
  url : jsstring;
  req_method : option jsstring;
  req_body : option BodyInit;
  headers : gmap jsstring jsstring;
  signal_timeout : N
}.

Inductive fetch_outcome : Type :=
| Resolved (r : Response)
| Rejected (t : thrown).

(** The state the program runs in: the contents of [localStorage], the
    successive readings of [Date.now()] and how many were taken, the
    configured base URL, the answer of the network to each request, and the
    requests handed to [fetch], latest first. *)
Record World : Type := mkWorld {
  localStorage : gmap jsstring jsstring;
  clock : nat -> Z;
  reads : nat;
  VITE_API_BASE_URL : option jsstring;
  network : Request -> fetch_outcome;
  sent : list Request
}.

Definition with_storage (f : gmap jsstring jsstring -> gmap jsstring jsstring)
  (w : World) : World :=
  mkWorld (f (localStorage w)) (clock w) (reads w) (VITE_API_BASE_URL w)
          (network w) (sent w).

(** ** Computations that may throw *)

Inductive outcome (A : Type) : Type :=
| Return (a : A)
| Throw (t : thrown).
Arguments Return {A} a.
Arguments Throw {A} t.

Definition M (A : Type) : Type := World -> outcome A * World.

Definition ret {A} (a : A) : M A := fun w => (Return a, w).

Definition throw {A} (t : thrown) : M A := fun w => (Throw t, w).

Definition bind {A B} (m : M A) (k : A -> M B) : M B :=
  fun w =>
    match m w with
    | (Return a, w') => k a w'
    | (Throw t, w') => (Throw t, w')
    end.

Notation "x <- m ;; k" := (bind m (fun x => k))
  (at level 100, m at next level, right associativity).
Notation "m ;;; k" := (bind m (fun _ => k))
  (at level 100, right associativity).

(** [try { m } catch (error) { h error }]. *)
Definition try_catch {A} (m : M A) (h : thrown -> M A) : M A :=
  fun w =>
    match m w with
    | (Return a, w') => (Return a, w')
    | (Throw t, w') => h t w'
    end.

(** [try { m } finally { f }]: [f] runs whatever [m] did, and the outcome
    of [m] stands unless [f] throws. *)
Definition try_finally {A} (m : M A) (f : M unit) : M A :=
  fun w =>
    let '(r, w1) := m w in
    match f w1 with
    | (Return _, w2) => (r, w2)
    | (Throw t, w2) => (Throw t, w2)
    end.

(** A platform function that throws [t] where the model answers [None]. *)
Definition or_throw {A} (t : thrown) (o : option A) : M A :=
  match o with
  | Some a => ret a
  | None => throw t
  end.

(** [Date.now()]. *)
Definition Date_now : M Z :=
  fun w => (Return (clock w (reads w)),
            mkWorld (localStorage w) (clock w) (S (reads w)) (VITE_API_BASE_URL w)
                    (network w) (sent w)).

(** [fetch(url, init)]: the request is recorded and the network answers. *)
Definition fetch (req : Request) : M Response :=
  fun w =>
    let w' := mkWorld (localStorage w) (clock w) (reads w) (VITE_API_BASE_URL w)
                      (network w) (req :: sent w) in
    match network w req with
    | Resolved r => (Return r, w')
    | Rejected t => (Throw t, w')
    end.

(** [response.json()]. *)
Definition response_json (r : Response) : M value :=
  match body r with
  | BodyText text => or_throw JsSyntaxError (JSON_parse text)
  | BodyFailed t => throw t
  end.

Definition getItem (k : jsstring) : M (option jsstring) :=
  fun w => (Return (localStorage w !! k), w).

Definition setItem (k v : jsstring) : M unit :=
  fun w => (Return tt, with_storage (insert k v) w).

Definition removeItem (k : jsstring) : M unit :=
  fun w => (Return tt, with_storage (delete k) w).

(** ** [API_CONFIG] *)

Module API_CONFIG.

(** [import.meta.env.VITE_API_BASE_URL || 'http://127.0.0.1:8000/api']. *)
Definition BASE_URL (w : World) : jsstring :=
  match VITE_API_BASE_URL w with
  | Some (c :: s) => c :: s
  | _ => js "http://127.0.0.1:8000/api"
  end.

Definition TIMEOUT : N := 30000.

Definition DEFAULT_HEADERS : gmap jsstring jsstring :=
  <[js "Content-Type" := js "application/json"]>
    (<[js "Accept" := js "application/json"]> ∅).

End API_CONFIG.

(** ** [TokenManager] *)

Module TokenManager.

Definition TOKEN_KEY : jsstring := js "gdpilia-auth-token".
Definition REFRESH_TOKEN_KEY : jsstring := js "gdpilia-refresh-token".
Definition FIRST_TIME_LOGIN_KEY : jsstring := js "gdpilia-first-time-login".
Definition USER_KEY : jsstring := js "gdpilia-user".

Definition getToken : M (option jsstring) := getItem TOKEN_KEY.

(** [setItem] converts its argument to a string; the declared type of
    [token] is [string], the value comes from a server response. *)
Definition setToken (token : value) : M unit :=
  s <- or_throw JsTypeError (ToString token) ;;
  setItem TOKEN_KEY s.

Definition getRefreshToken : M (option jsstring) := getItem REFRESH_TOKEN_KEY.

Definition setRefreshToken (token : value) : M unit :=
  s <- or_throw JsTypeError (ToString token) ;;
  setItem REFRESH_TOKEN_KEY s.

Definition getFirstTimeLogin : M bool :=
  v <- getItem FIRST_TIME_LOGIN_KEY ;;
  ret (match v with Some s => str_eqb s (js "1") | None => false end).

Definition setFirstTimeLogin (isFirstTime : bool) : M unit :=
  setItem FIRST_TIME_LOGIN_KEY (if isFirstTime then js "1" else js "0").

(** [user ? JSON.parse(user) : null]. *)
Definition getUser : M value :=
  user <- getItem USER_KEY ;;
  match user with
  | Some (c :: s) => or_throw JsSyntaxError (JSON_parse (c :: s))
  | _ => ret VNull
  end.

(** [JSON.stringify] answers [undefined] for [undefined], which [setItem]
    stores as the string ["undefined"]. *)
Definition setUser (user : value) : M unit :=
  setItem USER_KEY (match JSON_stringify user with
                    | Some s => s
                    | None => js "undefined"
                    end).

Definition clearTokens : M unit :=
  removeItem TOKEN_KEY ;;;
  removeItem REFRESH_TOKEN_KEY ;;;
  removeItem FIRST_TIME_LOGIN_KEY ;;;
  removeItem USER_KEY.

(** [token.split('.')[1]] as [atob] receives it: a missing segment is
    [undefined], which [atob] converts to the string ["undefined"]. *)
Definition middle_segment (token : jsstring) : jsstring :=
  match nth_error (str_split DOT token) 1 with
  | Some seg => seg
  | None => js "undefined"
  end.

Definition isTokenExpired (token : jsstring) : M bool :=
  try_catch
    (decoded <- or_throw (JsDOMException (js "InvalidCharacterError"))
                         (atob (middle_segment token)) ;;
     payload <- or_throw JsSyntaxError (JSON_parse decoded) ;;
     exp <- or_throw JsTypeError (Get payload (js "exp")) ;;
     n <- or_throw JsTypeError (ToNumber exp) ;;
     now <- Date_now ;;
     let isExpired := num_ltb (num_mul n (Dec 1000 0)) (num_of_Z now) in
     ret isExpired)
    (fun error => ret true).

End TokenManager.

(** ** [HttpClient] *)

Module HttpClient.

Definition defaultHeaders : gmap jsstring jsstring := API_CONFIG.DEFAULT_HEADERS.

Definition baseURL : M jsstring := fun w => (Return (API_CONFIG.BASE_URL w), w).

Definition AUTHORIZATION : jsstring := js "Authorization".

Definition bearer (token : jsstring) : jsstring := js "Bearer " ++ token.

(** The envelope that stands for a body that is not declared as JSON. *)
Definition plain_envelope (response : Response) : value :=
  VObj [(js "success", VBool (ok response));
        (js "message", VStr (if ok response then js "Success" else js "Request failed"))].

Definition request (endpoint : jsstring) (options : RequestInit) : M value :=
  base <- baseURL ;;
  let url := base ++ endpoint in
  token <- TokenManager.getToken ;;
  (* { ...this.defaultHeaders, ...options.headers }: the later spread wins *)
  let headers := init_headers options ∪ defaultHeaders in
  headers <-
    match token with
    | Some (c :: t) =>
        let token := c :: t in
        expired <- TokenManager.isTokenExpired token ;;
        if negb expired then ret (<[AUTHORIZATION := bearer token]> headers)
        else
          expired <- TokenManager.isTokenExpired token ;;
          if expired then TokenManager.clearTokens ;;; ret headers
          else ret headers
    | _ => ret headers
    end ;;
  let requestOptions :=
    mkRequest url (method options) (init_body options) headers API_CONFIG.TIMEOUT in
  try_catch
    (response <- fetch requestOptions ;;
     data <-
       match content_type response with
       | Some (c :: ct) =>
           if includes (c :: ct) (js "application/json") then response_json response
           else ret (plain_envelope response)
       | _ => ret (plain_envelope response)
       end ;;
     if status response =? 401 then
       TokenManager.clearTokens ;;;
       throw (JsError (js "Authentication required"))
     else if negb (ok response) then
       message <- or_throw JsTypeError (Get data (js "message")) ;;
       let errorMessage :=
         if truthy message then message
         else VStr (js "HTTP " ++ digits_of_N (status response) ++ js ": "
                      ++ statusText response) in
       text <- or_throw JsTypeError (ToString errorMessage) ;;
       throw (JsError text)
     else
       wrapped <- or_throw JsTypeError (hasOwnProperty data (js "success")) ;;
       if negb wrapped then ret (VObj [(js "success", VBool true); (js "data", data)])
       else ret data)
    (fun error =>
       if instanceof_Error error then
         if str_eqb (error_name error) (js "AbortError") then
           throw (JsError (js "Request timeout"))
         else throw error
       else throw (JsError (js "Network error occurred"))).

(** [get]; [params], when given, is the text of
    [new URLSearchParams(params)]. *)
Definition get (endpoint : jsstring) (params : option jsstring) : M value :=
  let url := match params with
             | Some q => endpoint ++ [63] ++ q
             | None => endpoint
             end in
  request url (mkRequestInit (Some (js "GET")) None ∅).

(** [body: data ? JSON.stringify(data) : undefined]. *)
Definition json_body (data : value) : option BodyInit :=
  if truthy data then option_map TextBody (JSON_stringify data) else None.

Definition post (endpoint : jsstring) (data : value) : M value :=
  request endpoint (mkRequestInit (Some (js "POST")) (json_body data) ∅).

Definition put (endpoint : jsstring) (data : value) : M value :=
  request endpoint (mkRequestInit (Some (js "PUT")) (json_body data) ∅).

Definition patch (endpoint : jsstring) (data : value) : M value :=
  request endpoint (mkRequestInit (Some (js "PATCH")) (json_body data) ∅).

Definition delete (endpoint : jsstring) : M value :=
  request endpoint (mkRequestInit (Some (js "DELETE")) None ∅).

(** [upload]; [additionalData], when given, is an object whose entries
    are appended after the file as strings. *)
Definition upload (endpoint : jsstring) (file : File)
    (additionalData : option (list (jsstring * value))) : M value :=
  extra <-
    match additionalData with
    | Some props =>
        or_throw JsTypeError
          (sequence (map (fun p => option_map (fun s => (fst p, StringEntry s))
                                              (ToString (snd p)))
                         (ordered_props props)))
    | None => ret []
    end ;;
  let formData := (js "file", FileEntry file) :: extra in
  token <- TokenManager.getToken ;;
  headers <-
    match token with
    | Some (c :: t) =>
        let token := c :: t in
        expired <- TokenManager.isTokenExpired token ;;
        if negb expired then ret (<[AUTHORIZATION := bearer token]> ∅)
        else ret ∅
    | _ => ret ∅
    end ;;
  request endpoint (mkRequestInit (Some (js "POST")) (Some (FormData formData)) headers).

End HttpClient.

(** ** [AuthService] *)

Module AuthService.

(** [a === 1]. *)
Definition is_one (a : value) : bool :=
  match a with
  | VNum n => num_eqb n (Dec 1 0)
  | _ => false
  end.

(** [new Error(message || fallback)]. *)
Definition error_of (message : value) (fallback : jsstring) : M thrown :=
  if truthy message then
    text <- or_throw JsTypeError (ToString message) ;;
    ret (JsError text)
  else ret (JsError fallback).

(** The log line that opens the [try] block reads [credentials.email], a
    TypeError when [credentials] is [null] or [undefined]. *)
Definition login (credentials : value) : M value :=
  try_catch
    (email <- or_throw JsTypeError (Get credentials (js "email")) ;;
     response <- HttpClient.post (js "/login") credentials ;;
     success <- or_throw JsTypeError (Get response (js "success")) ;;
     data <- or_throw JsTypeError (Get response (js "data")) ;;
     if truthy success && truthy data then
       token <- or_throw JsTypeError (Get data (js "token")) ;;
       refreshToken <- or_throw JsTypeError (Get data (js "refreshToken")) ;;
       user <- or_throw JsTypeError (Get data (js "user")) ;;
       first_time_login <- or_throw JsTypeError (Get data (js "first_time_login")) ;;
       if negb (truthy token) then
         throw (JsError (js "No authentication token received from server"))
       else if negb (truthy user) then
         throw (JsError (js "No user data received from server"))
       else
         TokenManager.setToken token ;;;
         (if truthy refreshToken then TokenManager.setRefreshToken refreshToken
          else ret tt) ;;;
         TokenManager.setFirstTimeLogin (is_one first_time_login) ;;;
         TokenManager.setUser user ;;;
         storedToken <- TokenManager.getToken ;;
         storedUser <- TokenManager.getUser ;;
         match storedToken with
         | Some (_ :: _) => ret data
         | _ => throw (JsError (js "Failed to store authentication token"))
         end
     else
       message <- or_throw JsTypeError (Get response (js "message")) ;;
       e <- error_of message (js "Login failed") ;;
       throw e)
    (fun error =>
       (* Clear any partial data that might have been stored *)
       TokenManager.clearTokens ;;;
       throw error).

(** The log line that opens the [try] block reads four properties of
    [userData]. *)
Definition register (userData : value) : M value :=
  try_catch
    (email <- or_throw JsTypeError (Get userData (js "email")) ;;
     firstName <- or_throw JsTypeError (Get userData (js "firstName")) ;;
     lastName <- or_throw JsTypeError (Get userData (js "lastName")) ;;
     company <- or_throw JsTypeError (Get userData (js "company")) ;;
     response <- HttpClient.post (js "/register") userData ;;
     success <- or_throw JsTypeError (Get response (js "success")) ;;
     data <- or_throw JsTypeError (Get response (js "data")) ;;
     if truthy success && truthy data then
       token <- or_throw JsTypeError (Get data (js "token")) ;;
       refreshToken <- or_throw JsTypeError (Get data (js "refreshToken")) ;;
       user <- or_throw JsTypeError (Get data (js "user")) ;;
       first_time_login <- or_throw JsTypeError (Get data (js "first_time_login")) ;;
       if negb (truthy token) then
         throw (JsError (js "No authentication token received from server"))
       else if negb (truthy user) then
         throw (JsError (js "No user data received from server"))
       else
         TokenManager.setToken token ;;;
         (if truthy refreshToken then TokenManager.setRefreshToken refreshToken
          else ret tt) ;;;
         TokenManager.setFirstTimeLogin (is_one first_time_login) ;;;
         TokenManager.setUser user ;;;
         storedToken <- TokenManager.getToken ;;
         storedUser <- TokenManager.getUser ;;
         ret data
     else
       message <- or_throw JsTypeError (Get response (js "message")) ;;
       e <- error_of message (js "Registration failed") ;;
       throw e)
    (fun error =>
       (* Clear any partial data that might have been stored *)
       TokenManager.clearTokens ;;;
       throw error).

Definition logout : M unit :=
  try_finally
    (try_catch
       (* Call logout endpoint to invalidate token on server *)
       (HttpClient.post (js "/logout") VUndefined ;;; ret tt)
       (* Continue with local logout even if server call fails *)
       (fun error => ret tt))
    (* Clear local tokens *)
    TokenManager.clearTokens.

Definition getStoredUser : M value := TokenManager.getUser.

(** The result is an organisation or [null]. *)
Definition getUserOrganization : M value :=
  try_catch
    (user <- getStoredUser ;;
     organisation_id <-
       (if truthy user then or_throw JsTypeError (Get user (js "organisation_id"))
        else ret VUndefined) ;;
     if negb (truthy user) || negb (truthy organisation_id) then ret VNull
     else
       id <- or_throw JsTypeError (ToString organisation_id) ;;
       response <- HttpClient.get (js "/organisations/" ++ id) None ;;
       success <- or_throw JsTypeError (Get response (js "success")) ;;
       data <- or_throw JsTypeError (Get response (js "data")) ;;
       if truthy success && truthy data then ret data
       else ret VNull)
    (fun error => ret VNull).

Definition isAuthenticated : M bool :=
  token <- TokenManager.getToken ;;
  match token with
  | Some token =>
      expired <- TokenManager.isTokenExpired token ;;
      ret (negb expired)
  | None => ret false
  end.

(** The other operations of the service.  They read [name], [email] and
    [refresh_token] besides the properties listed at [Get]; these too are
    not defined on a built-in prototype. *)

Definition getCurrentUser : M value :=
  try_catch
    ((* First try to get from local storage *)
     localUser <- TokenManager.getUser ;;
     if truthy localUser then ret localUser
     else
       (* If not in local storage, fetch from server *)
       response <- HttpClient.get (js "/user") None ;;
       success <- or_throw JsTypeError (Get response (js "success")) ;;
       data <- or_throw JsTypeError (Get response (js "data")) ;;
       if truthy success && truthy data then
         TokenManager.setUser data ;;;
         ret data
       else
         message <- or_throw JsTypeError (Get response (js "message")) ;;
         e <- error_of message (js "Failed to get user profile") ;;
         throw e)
    (fun error => throw error).

Definition updateProfile (userData : value) : M value :=
  try_catch
    (response <- HttpClient.put (js "/user/profile") userData ;;
     success <- or_throw JsTypeError (Get response (js "success")) ;;
     data <- or_throw JsTypeError (Get response (js "data")) ;;
     if truthy success && truthy data then
       TokenManager.setUser data ;;;
       ret data
     else
       message <- or_throw JsTypeError (Get response (js "message")) ;;
       e <- error_of message (js "Failed to update profile") ;;
       throw e)
    (fun error => throw error).

(** The body shared by [changePassword], [resetPassword], [verifyEmail]
    and [resendEmailVerification]: one POST, and an error made of the
    message of the envelope, or of [fallback], unless the envelope reports
    success. *)
Definition post_and_check (endpoint : jsstring) (data : value) (fallback : jsstring)
  : M unit :=
  try_catch
    (response <- HttpClient.post endpoint data ;;
     success <- or_throw JsTypeError (Get response (js "success")) ;;
     if negb (truthy success) then
       message <- or_throw JsTypeError (Get response (js "message")) ;;
       e <- error_of message fallback ;;
       throw e
     else ret tt)
    (fun error => throw error).

Definition changePassword (passwordData : value) : M unit :=
  post_and_check (js "/user/change-password") passwordData
                 (js "Failed to change password").

(** The log line before the request reads [data.email], which is a
    TypeError when [data] is [null] or [undefined]. *)
Definition requestPasswordReset (data : value) : M unit :=
  try_catch
    (email <- or_throw JsTypeError (Get data (js "email")) ;;
     response <- HttpClient.post (js "/password/forgot") data ;;
     success <- or_throw JsTypeError (Get response (js "success")) ;;
     if negb (truthy success) then
       message <- or_throw JsTypeError (Get response (js "message")) ;;
       e <- error_of message (js "Failed to request password reset") ;;
       throw e
     else ret tt)
    (fun error => throw error).

Definition resetPassword (data : value) : M unit :=
  post_and_check (js "/password/reset") data (js "Failed to reset password").

Definition verifyEmail (token : value) : M unit :=
  post_and_check (js "/email/verify") (VObj [(js "token", token)])
                 (js "Failed to verify email").

Definition resendEmailVerification : M unit :=
  post_and_check (js "/email/resend") VUndefined
                 (js "Failed to resend verification email").

Definition refreshToken : M value :=
  try_catch
    (refreshToken <- TokenManager.getRefreshToken ;;
     match refreshToken with
     | Some (c :: t) =>
         response <- HttpClient.post (js "/token/refresh")
                       (VObj [(js "refresh_token", VStr (c :: t))]) ;;
         success <- or_throw JsTypeError (Get response (js "success")) ;;
         data <- or_throw JsTypeError (Get response (js "data")) ;;
         if truthy success && truthy data then
           (* Update stored tokens *)
           token <- or_throw JsTypeError (Get data (js "token")) ;;
           TokenManager.setToken token ;;;
           newRefreshToken <- or_throw JsTypeError (Get data (js "refreshToken")) ;;
           TokenManager.setRefreshToken newRefreshToken ;;;
           user <- or_throw JsTypeError (Get data (js "user")) ;;
           TokenManager.setUser user ;;;
           ret data
         else
           message <- or_throw JsTypeError (Get response (js "message")) ;;
           e <- error_of message (js "Token refresh failed") ;;
           throw e
     | _ => throw (JsError (js "No refresh token available"))
     end)
    (fun error =>
       (* Clear tokens on refresh failure *)
       TokenManager.clearTokens ;;;
       throw error).

Definition getToken : M (option jsstring) := TokenManager.getToken.

Definition isFirstTimeLogin : M bool := TokenManager.getFirstTimeLogin.

(** [user.name || user.email || 'User']. *)
Definition getUserDisplayName : M value :=
  user <- getStoredUser ;;
  if negb (truthy user) then ret (VStr (js "User"))
  else
    name <- or_throw JsTypeError (Get user (js "name")) ;;
    if truthy name then ret name
    else
      email <- or_throw JsTypeError (Get user (js "email")) ;;
      if truthy email then ret email else ret (VStr (js "User")).

(** [s.charAt(0)]. *)
Definition charAt0 (s : jsstring) : jsstring :=
  match s with
  | c :: _ => [c]
  | [] => []
  end.

(** The initials of the stored user.  [toUpperCase] stands for
    [String.prototype.toUpperCase], whose table of case mappings is not
    part of the source.  A [name] or an [email] that is not a string has no
    [split] or [charAt] method, and calling it is a TypeError. *)
Definition getUserInitials (toUpperCase : jsstring -> jsstring) : M jsstring :=
  user <- getStoredUser ;;
  if negb (truthy user) then ret (js "U")
  else
    name <- or_throw JsTypeError (Get user (js "name")) ;;
    if truthy name then
      match name with
      | VStr s => ret (take 2 (toUpperCase (join [] (map charAt0 (str_split 32 s)))))
      | _ => throw JsTypeError
      end
    else
      email <- or_throw JsTypeError (Get user (js "email")) ;;
      match email with
      | VStr s => ret (toUpperCase (charAt0 s))
      | _ => throw JsTypeError
      end.

Definition uploadAvatar (file : File) : M value :=
  try_catch
    (response <- HttpClient.upload (js "/user/avatar") file None ;;
     success <- or_throw JsTypeError (Get response (js "success")) ;;
     data <- or_throw JsTypeError (Get response (js "data")) ;;
     if truthy success && truthy data then
       TokenManager.setUser data ;;;
       ret data
     else
       message <- or_throw JsTypeError (Get response (js "message")) ;;
       e <- error_of message (js "Failed to upload avatar") ;;
       throw e)
    (fun error => throw error).

End AuthService.

(** ** [URLSearchParams]: the application/x-www-form-urlencoded serializer *)

(** The scalar values of a string: a surrogate pair is one code point, a
    surrogate on its own is replaced by U+FFFD. *)
Fixpoint scalar_values (s : jsstring) : list N :=
  match s with
  | [] => []
  | c :: r =>
      if is_high_surrogate c then
        match r with
        | d :: r' =>
            if is_low_surrogate d then
              (65536 + N.shiftl (c - 55296) 10 + (d - 56320)) :: scalar_values r'
            else 65533 :: scalar_values r
        | [] => [65533]
        end
      else if is_low_surrogate c then 65533 :: scalar_values r
      else c :: scalar_values r
  end.

(** The UTF-8 bytes of a code point. *)
Definition utf8_encode (cp : N) : list N :=
  if cp <? 128 then [cp]
  else if cp <? 2048 then
    [N.lor 192 (N.shiftr cp 6); N.lor 128 (N.land cp 63)]
  else if cp <? 65536 then
    [N.lor 224 (N.shiftr cp 12); N.lor 128 (N.land (N.shiftr cp 6) 63);
     N.lor 128 (N.land cp 63)]
  else
    [N.lor 240 (N.shiftr cp 18); N.lor 128 (N.land (N.shiftr cp 12) 63);
     N.lor 128 (N.land (N.shiftr cp 6) 63); N.lor 128 (N.land cp 63)].

(** The bytes that the serializer leaves as they are: the ASCII letters and
    digits and [*], [-], [.], [_]. *)
Definition is_url_safe (b : N) : bool :=
  ((48 <=? b) && (b <=? 57)) || ((65 <=? b) && (b <=? 90))
  || ((97 <=? b) && (b <=? 122))
  || (b =? 42) || (b =? 45) || (b =? 46) || (b =? 95).

Definition upper_hex_digit (d : N) : N := if d <? 10 then 48 + d else 55 + d.

(** A space becomes [+], any other byte outside the safe set becomes [%]
    and two upper-case hexadecimal digits. *)
Definition urlencode_byte (b : N) : jsstring :=
  if is_url_safe b then [b]
  else if b =? 32 then [43]
  else [37; upper_hex_digit (N.shiftr b 4); upper_hex_digit (N.land b 15)].

Definition urlencode (s : jsstring) : jsstring :=
  flat_map urlencode_byte (flat_map utf8_encode (scalar_values s)).

(** [`${new URLSearchParams(params)}`] for a plain object [params]: its own
    properties in key order, each value converted to a string. *)
Definition URLSearchParams_toString (params : list (jsstring * value)) : option jsstring :=
  option_map
    (fun entries =>
       join [38] (map (fun e => urlencode (fst e) ++ [61] ++ urlencode (snd e)) entries))
    (sequence (map (fun p => option_map (pair (fst p)) (ToString (snd p)))
                   (ordered_props params))).

(** ** [apiUtils] *)

Module apiUtils.

(** A parameter with a default value takes it when the argument is
    [undefined]. *)
Definition default_arg (d : value) (v : value) : value :=
  match v with
  | VUndefined => d
  | _ => v
  end.

(** [value !== null && value !== undefined && value !== '']. *)
Definition is_given (v : value) : bool :=
  match v with
  | VNull | VUndefined | VStr [] => false
  | _ => true
  end.

(** [formatted[key] = text]: the assignment defines the property, except
    for the key [__proto__], where it reaches the setter of the prototype,
    which ignores a string. *)
Definition assign (key text : jsstring) (formatted : list (jsstring * value))
  : list (jsstring * value) :=
  if str_eqb key (js "__proto__") then formatted
  else set_prop key (VStr text) formatted.

(** [formatParams]: the entries that are given, as strings.  [None] is the
    TypeError of [String(value)]. *)
Definition formatParams (params : list (jsstring * value))
  : option (list (jsstring * value)) :=
  fold_left
    (fun formatted p =>
       match formatted with
       | None => None
       | Some acc =>
           if is_given (snd p) then
             option_map (fun text => assign (fst p) text acc) (ToString (snd p))
           else Some acc
       end)
    (ordered_props params) (Some []).

(** [createPaginationParams(page = 1, limit = 10, search)]. *)
Definition createPaginationParams (page limit search : value)
  : list (jsstring * value) :=
  let page := default_arg (VNum (Dec 1 0)) page in
  let limit := default_arg (VNum (Dec 10 0)) limit in
  let params := [(js "page", page); (js "limit", limit)] in
  if truthy search then set_prop (js "search") search params else params.

End apiUtils.

(** ** [OrganizationService] *)

Module OrganizationService.

(** [response.success && response.data] gives the data, anything else an
    error made of the message of the envelope or of [fallback]. *)
Definition data_or_throw (response : value) (fallback : jsstring) : M value :=
  success <- or_throw JsTypeError (Get response (js "success")) ;;
  data <- or_throw JsTypeError (Get response (js "data")) ;;
  if truthy success && truthy data then ret data
  else
    message <- or_throw JsTypeError (Get response (js "message")) ;;
    e <- AuthService.error_of message fallback ;;
    throw e.

(** [getOrganizations(page = 1, limit = 20, filters)]; [filters] is an
    object or [undefined]. *)
Definition getOrganizations (page limit filters : value) : M value :=
  try_catch
    (let page := apiUtils.default_arg (VNum (Dec 1 0)) page in
     let limit := apiUtils.default_arg (VNum (Dec 20 0)) limit in
     let search := match Get filters (js "search") with
                   | Some v => v
                   | None => VUndefined
                   end in
     let params := apiUtils.createPaginationParams page limit search in
     (* Add filter parameters *)
     let params :=
       if truthy filters then
         let name := match Get filters (js "name") with Some v => v | None => VUndefined end in
         let params := if truthy name then set_prop (js "name") name params else params in
         let email := match Get filters (js "email") with Some v => v | None => VUndefined end in
         if truthy email then set_prop (js "email") email params else params
       else params in
     formatted <- or_throw JsTypeError (apiUtils.formatParams params) ;;
     query <- or_throw JsTypeError (URLSearchParams_toString formatted) ;;
     response <- HttpClient.get (js "/organisations") (Some query) ;;
     success <- or_throw JsTypeError (Get response (js "success")) ;;
     if truthy success then ret response
     else
       message <- or_throw JsTypeError (Get response (js "message")) ;;
       e <- AuthService.error_of message (js "Failed to fetch organizations") ;;
       throw e)
    (fun error => throw error).

Definition getOrganization (id : number) : M value :=
  try_catch
    (response <- HttpClient.get (js "/organisations/" ++ num_to_string id) None ;;
     data_or_throw response (js "Failed to fetch organization"))
    (fun error => throw error).

Definition createOrganization (organizationData : value) : M value :=
  try_catch
    (response <- HttpClient.post (js "/organisations") organizationData ;;
     data_or_throw response (js "Failed to create organization"))
    (fun error => throw error).

Definition updateOrganization (id : number) (organizationData : value) : M value :=
  try_catch
    (response <- HttpClient.put (js "/organisations/" ++ num_to_string id)
                                organizationData ;;
     data_or_throw response (js "Failed to update organization"))
    (fun error => throw error).

Definition deleteOrganization (id : number) : M unit :=
  try_catch
    (response <- HttpClient.delete (js "/organisations/" ++ num_to_string id) ;;
     success <- or_throw JsTypeError (Get response (js "success")) ;;
     if negb (truthy success) then
       message <- or_throw JsTypeError (Get response (js "message")) ;;
       e <- AuthService.error_of message (js "Failed to delete organization") ;;
       throw e
     else ret tt)
    (fun error => throw error).

(** [searchOrganizations(query, limit = 10)]. *)
Definition searchOrganizations (query : jsstring) (limit : option number) : M value :=
  try_catch
    (let limit := match limit with Some n => n | None => Dec 10 0 end in
     query <- or_throw JsTypeError
                (URLSearchParams_toString
                   [(js "q", VStr query); (js "limit", VStr (num_to_string limit))]) ;;
     response <- HttpClient.get (js "/organisations/search") (Some query) ;;
     data_or_throw response (js "Failed to search organizations"))
    (fun error => throw error).

(** The result is an organisation or [null]. *)
Definition getCurrentUserOrganization : M value :=
  try_catch
    (response <- HttpClient.get (js "/user/organisation") None ;;
     success <- or_throw JsTypeError (Get response (js "success")) ;;
     data <- or_throw JsTypeError (Get response (js "data")) ;;
     if truthy success && truthy data then ret data else ret VNull)
    (fun error => ret VNull).

End OrganizationService.

(** ** Notions used to state the properties *)

(** The payload that [isTokenExpired] reads from a token, when the middle
    segment decodes and parses. *)
Definition token_payload (token : jsstring) : option value :=
  match atob (TokenManager.middle_segment token) with
  | Some decoded => JSON_parse decoded
  | None => None
  end.

(** The value of [payload.exp * 1000], when its evaluation does not throw. *)
Definition expiry_ms (token : jsstring) : option number :=
  match token_payload token with
  | Some payload =>
      match Get payload (js "exp") with
      | Some exp => option_map (fun n => num_mul n (Dec 1000 0)) (ToNumber exp)
      | None => None
      end
  | None => None
  end.

(** The world after one more reading of the clock. *)
Definition tick (w : World) : World :=
  mkWorld (localStorage w) (clock w) (S (reads w)) (VITE_API_BASE_URL w)
          (network w) (sent w).

(** The current time, as the next call of [Date.now()] reports it. *)
Definition now (w : World) : Z := clock w (reads w).

(** The four entries of the session. *)
Definition session_keys : list jsstring :=
  [TokenManager.TOKEN_KEY; TokenManager.REFRESH_TOKEN_KEY;
   TokenManager.FIRST_TIME_LOGIN_KEY; TokenManager.USER_KEY].

(** No entry of the session is left in storage. *)
Definition session_empty (w : World) : Prop :=
  Forall (fun k => localStorage w !! k = None) session_keys.

(** The rational number that [Dec m e] stands for. *)
Definition Q_of_dec (m e : Z) : Q := (inject_Z m * (10 # 1) ^ e)%Q.


(** The session removed from storage. *)
Definition clear_session (w : World) : World :=
  with_storage
    (fun m => delete TokenManager.USER_KEY
                (delete TokenManager.FIRST_TIME_LOGIN_KEY
                   (delete TokenManager.REFRESH_TOKEN_KEY
                      (delete TokenManager.TOKEN_KEY m)))) w.

(** Storage without the four entries of the session. *)
Definition cleared (m : gmap jsstring jsstring) : gmap jsstring jsstring :=
  delete TokenManager.USER_KEY
    (delete TokenManager.FIRST_TIME_LOGIN_KEY
       (delete TokenManager.REFRESH_TOKEN_KEY
          (delete TokenManager.TOKEN_KEY m))).

(** The error that the services make of a failed envelope:
    [new Error(message || fallback)]. *)
Definition envelope_error (message : value) (fallback : jsstring) : thrown :=
  if truthy message then
    match ToString message with
    | Some text => JsError text
    | None => JsTypeError
    end
  else JsError fallback.

(** The text under which [setUser] stores a user. *)
Definition user_text (user : value) : jsstring :=
  match JSON_stringify user with
  | Some s => s
  | None => js "undefined"
  end.

(** The code units that delimit the parts of a URL and the parameters of
    its query: space, [#], [&], [/], [=] and [?]. *)
Definition is_url_delimiter (c : N) : bool :=
  (c =? 32) || (c =? 35) || (c =? 38) || (c =? 47) || (c =? 61) || (c =? 63).

(** The world after [fetch] was called with [req]. *)
Definition record_sent (req : Request) (w : World) : World :=
  mkWorld (localStorage w) (clock w) (reads w) (VITE_API_BASE_URL w)
          (network w) (req :: sent w).

(** The two halves of [HttpClient.request], named so that lemmas can speak
    of them: the choice of the headers, and the exchange with the server
    inside the [try] block. *)
Definition auth_headers (token : option jsstring) (headers : gmap jsstring jsstring)
  : M (gmap jsstring jsstring) :=
  match token with
  | Some (c :: t) =>
      let token := c :: t in
      expired <- TokenManager.isTokenExpired token ;;
      if negb expired then ret (<[HttpClient.AUTHORIZATION := HttpClient.bearer token]> headers)
      else
        expired <- TokenManager.isTokenExpired token ;;
        if expired then TokenManager.clearTokens ;;; ret headers
        else ret headers
  | _ => ret headers
  end.

Definition read_body (response : Response) : M value :=
  match content_type response with
  | Some (c :: ct) =>
      if includes (c :: ct) (js "application/json") then response_json response
      else ret (HttpClient.plain_envelope response)
  | _ => ret (HttpClient.plain_envelope response)
  end.

Definition on_error (error : thrown) : M value :=
  if instanceof_Error error then
    if str_eqb (error_name error) (js "AbortError") then
      throw (JsError (js "Request timeout"))
    else throw error
  else throw (JsError (js "Network error occurred")).

Definition exchange (req : Request) : M value :=
  try_catch
    (response <- fetch req ;;
     data <- read_body response ;;
     if status response =? 401 then
       TokenManager.clearTokens ;;;
       throw (JsError (js "Authentication required"))
     else if negb (ok response) then
       message <- or_throw JsTypeError (Get data (js "message")) ;;
       let errorMessage :=
         if truthy message then message
         else VStr (js "HTTP " ++ digits_of_N (status response) ++ js ": "
                      ++ statusText response) in
       text <- or_throw JsTypeError (ToString errorMessage) ;;
       throw (JsError text)
     else
       wrapped <- or_throw JsTypeError (hasOwnProperty data (js "success")) ;;
       if negb wrapped then ret (VObj [(js "success", VBool true); (js "data", data)])
       else ret data)
    on_error.

(** The message synthesized for a failed response without one. *)
Definition http_message (response : Response) : jsstring :=
  js "HTTP " ++ digits_of_N (status response) ++ js ": " ++ statusText response.

(** What [isTokenExpired] reports for [token] when the clock reads [t]. *)
Definition expired_at (token : jsstring) (t : Z) : bool :=
  match expiry_ms token with
  | Some ms => num_ltb ms (num_of_Z t)
  | None => true
  end.

(** What the [catch] block of [request] throws for a caught [error]. *)
Definition rethrown (error : thrown) : thrown :=
  if instanceof_Error error then
    if str_eqb (error_name error) (js "AbortError") then JsError (js "Request timeout")
    else error
  else JsError (js "Network error occurred").

(** The response declares a JSON body. *)
Definition declares_json (response : Response) : bool :=
  match content_type response with
  | Some (c :: ct) => includes (c :: ct) (js "application/json")
  | _ => false
  end.

(** What reading the body of a response gives: the parsed JSON when the
    response declares JSON, the plain envelope otherwise. *)
Definition body_value (response : Response) : outcome value :=
  if declares_json response then
    match body response with
    | BodyText text =>
        match JSON_parse text with
        | Some data => Return data
        | None => Throw JsSyntaxError
        end
    | BodyFailed t => Throw t
    end
  else Return (HttpClient.plain_envelope response).

(** *** Worlds and tokens for the examples *)

(** JSON text written with apostrophes in place of the double quotes. *)
Definition jsq (s : string) : jsstring :=
  map (fun c => if c =? 39 then 34 else c) (js s).

(** A clock that starts at [t0] and advances by one millisecond between two
    readings. *)
Definition clock_from (t0 : Z) : nat -> Z := fun n => (t0 + Z.of_nat n)%Z.

(** A clock that stands still. *)
Definition clock_at (t0 : Z) : nat -> Z := fun _ => t0.

Definition world_of (storage : gmap jsstring jsstring) (clk : nat -> Z)
  (net : Request -> fetch_outcome) : World :=
  mkWorld storage clk 0 None net [].

Definition offline : Request -> fetch_outcome := fun _ => Rejected JsTypeError.

Definition answering (r : Response) : Request -> fetch_outcome := fun _ => Resolved r.

(** A token whose payload is [{"exp":1700000000}]. *)
Definition token_exp_1700000000 : jsstring := js "h.eyJleHAiOjE3MDAwMDAwMDB9.s".


(** Two segments only; the payload is [{"exp":9999999999}]. *)
Definition token_two_segments : jsstring := js "h.eyJleHAiOjk5OTk5OTk5OTl9".

(** Three segments; the payload is the JSON number [5]. *)
Definition token_payload_5 : jsstring := js "h.NQ==.s".

(** Three segments; the payload is [{"exp":null}]. *)
Definition token_exp_null : jsstring := js "h.eyJleHAiOm51bGx9.s".

(** Three segments; the payload is [{}]. *)
Definition token_no_exp : jsstring := js "h.e30=.s".

(** The payload is [{"sub":"a?b>c","exp":9999999999}] in the URL-safe
    alphabet that JSON Web Tokens use ([-] where base64 has [+]). *)
Definition token_base64url : jsstring :=
  js "h.eyJzdWIiOiJhP2I-YyIsImV4cCI6OTk5OTk5OTk5OX0.s".

(** A session as a successful login leaves it. *)
Definition stored_session (token : jsstring) : gmap jsstring jsstring :=
  <[TokenManager.TOKEN_KEY := token]>
    (<[TokenManager.REFRESH_TOKEN_KEY := js "r1"]>
       (<[TokenManager.FIRST_TIME_LOGIN_KEY := js "0"]>
          (<[TokenManager.USER_KEY := jsq "{'id':7,'organisation_id':42}"]> ∅))).

(** A 401 response that declares JSON and has an empty body. *)
Definition unauthorized_empty_body : Response :=
  mkResponse 401 (js "Unauthorized") (Some (js "application/json")) (BodyText []).

(** A 500 response with an HTML body. *)
Definition server_error_html : Response :=
  mkResponse 500 (js "Internal Server Error") (Some (js "text/html"))
             (BodyText (js "<h1>Server Error</h1>")).

(** A 422 response with a JSON body that carries a message. *)
Definition validation_error_json : Response :=
  mkResponse 422 (js "Unprocessable Content") (Some (js "application/json"))
             (BodyText (jsq "{'message':'The email has already been taken.'}")).

(** A clock that reads 1700000000000 once and 1700000000001 from then on:
    one millisecond passes between the first reading and the second. *)
Definition race_clock : nat -> Z :=
  fun n => match n with
           | O => 1700000000000%Z
           | S _ => 1700000000001%Z
           end.

Definition avatar : File := mkFile (js "me.png") [137; 80; 78; 71].


Definition credentials_example : value :=
  VObj [(js "email", VStr (js "a@b.com")); (js "password", VStr (js "x"))].



(** A world with a session in storage and no network. *)
Definition world_offline : World :=
  world_of (stored_session token_exp_1700000000) (clock_at 1600000000000) offline.

(** A world with a session in storage in which every request is answered by
    an envelope that has [success] and [data] but, in [data], only a user. *)
Definition world_refresh_without_token : World :=
  world_of (stored_session token_exp_1700000000) (clock_at 1600000000000)
           (answering (mkResponse 200 (js "OK") (Some (js "application/json"))
                         (BodyText (jsq "{'success':true,'data':{'user':{'id':7}}}")))).

(** A world without a session in which every request is answered by an
    envelope whose data is a user. *)
Definition world_user_response : World :=
  world_of ∅ (clock_at 1600000000000)
           (answering (mkResponse 200 (js "OK") (Some (js "application/json"))
                         (BodyText (jsq "{'success':true,'data':{'id':7,'name':'Ann Lee'}}")))).

(** A world with a session in storage in which every request is answered by
    an envelope with a token, a user and the first-time-login mark, but no
    refresh token. *)
Definition world_login_ok : World :=
  world_of (stored_session token_exp_1700000000) (clock_at 1600000000000)
           (answering
              (mkResponse 200 (js "OK") (Some (js "application/json"))
                 (BodyText (jsq "{'success':true,'data':{'token':'t2','user':{'id':8},'first_time_login':1}}")))).

(** A world without a session in which every request is answered by an
    envelope whose token is the empty array. *)
Definition world_empty_array_token : World :=
  world_of ∅ (clock_at 1600000000000)
           (answering
              (mkResponse 200 (js "OK") (Some (js "application/json"))
                 (BodyText (jsq "{'success':true,'data':{'token':[],'user':{'id':8}}}")))).


(** Upper case for the ASCII letters, other code units unchanged: what
    [toUpperCase] does on ASCII text. *)
Definition ascii_upper (s : jsstring) : jsstring :=
  map (fun c => if (97 <=? c) && (c <=? 122) then c - 32 else c) s.

(** ** Properties of the platform model *)

Lemma str_eqb_eq (a b : jsstring) : str_eqb a b = true <-> a = b.
Proof.
  revert b. induction a as [|x a IH]; intros [|y b]; simpl; try easy.
  rewrite andb_true_iff, N.eqb_eq, IH. split.
  - intros [-> ->]. reflexivity.
  - intros [= -> ->]. split; reflexivity.
Qed.

Lemma str_eqb_refl (a : jsstring) : str_eqb a a = true.
Proof. apply str_eqb_eq. reflexivity. Qed.

(** [split] never answers the empty list. *)
Lemma str_split_nonempty (sep : N) (s : jsstring) : str_split sep s <> [].
Proof.
  destruct s as [|c r]; simpl; [easy|].
  destruct (c =? sep); [easy|]. destruct (str_split sep r); easy.
Qed.

(** A string without the separator is its own single segment. *)
Lemma str_split_no_sep (sep : N) (s : jsstring) :
  forallb (fun c => negb (c =? sep)) s = true -> str_split sep s = [s].
Proof.
  induction s as [|c r IH]; simpl; [reflexivity|].
  rewrite andb_true_iff. intros [Hc Hr].
  destruct (c =? sep); [discriminate|]. rewrite (IH Hr). reflexivity.
Qed.

(** *** [atob] *)

(** Padding is optional and white space is skipped; a length of one more
    than a multiple of four, a padding sign in the middle and a character
    outside the alphabet are rejected, as is the string ["undefined"]. *)
Example atob_examples :
  atob (js "YWJj") = Some (js "abc") /\
  atob (js "YWI=") = Some (js "ab") /\
  atob (js "YQ") = Some (js "a") /\
  atob (js " Y W I ") = Some (js "ab") /\
  atob (js "eyJleHAiOjE3MDAwMDAwMDB9") = Some (jsq "{'exp':1700000000}") /\
  atob [] = Some [] /\
  atob (js "YWJjZ") = None /\
  atob (js "YQ==YQ==") = None /\
  atob (js "a-b_") = None /\
  atob (js "undefined") = None.
Proof. repeat split; vm_compute; reflexivity. Qed.

Lemma sextets_rejects (data : jsstring) (c : N) :
  In c data -> b64_value c = None -> sextets data = None.
Proof.
  intros Hin Hc. induction data as [|x data IH]; [destruct Hin|].
  simpl. destruct Hin as [->|Hin].
  - rewrite Hc. reflexivity.
  - rewrite (IH Hin). destruct (b64_value x); reflexivity.
Qed.

Lemma expect_In (c x : N) (s r : jsstring) :
  expect c s = Some r -> In x s -> x <> c -> In x r.
Proof.
  destruct s as [|y s]; [discriminate|]. simpl.
  destruct (N.eqb_spec y c) as [->|]; [|discriminate].
  intros [= ->] [->|H] Hne; [congruence | exact H].
Qed.

Lemma strip_padding_In (data : jsstring) (c : N) :
  In c data -> c <> 61 -> In c (strip_padding data).
Proof.
  intros Hin Hc. unfold strip_padding.
  destruct (N.of_nat (length data) mod 4 =? 0); [|exact Hin].
  destruct (expect 61 (rev data)) as [r1|] eqn:E1; [|exact Hin].
  assert (H1 : In c r1) by (apply (expect_In 61 c (rev data)); auto; apply in_rev; rewrite rev_involutive; exact Hin).
  destruct (expect 61 r1) as [r2|] eqn:E2.
  - apply in_rev. rewrite rev_involutive. apply (expect_In 61 c r1); auto.
  - apply in_rev. rewrite rev_involutive. exact H1.
Qed.

(** [atob] rejects a string that contains a character outside the base64
    alphabet, other than white space and the padding sign. *)
Lemma atob_rejects (data : jsstring) (c : N) :
  In c data -> b64_value c = None -> is_ascii_whitespace c = false -> c <> 61 ->
  atob data = None.
Proof.
  intros Hin Hv Hw Hc. unfold atob.
  destruct (_ =? 1); [reflexivity|].
  rewrite (sextets_rejects _ c); [reflexivity| |exact Hv].
  apply strip_padding_In; [|exact Hc].
  apply filter_In. split; [exact Hin|]. rewrite Hw. reflexivity.
Qed.

(** In particular the two characters that the URL-safe alphabet of JSON Web
    Tokens puts in the place of [+] and [/]. *)
Corollary atob_rejects_url_safe (data : jsstring) :
  In 45 data \/ In 95 data -> atob data = None.
Proof.
  intros [H|H]; [apply (atob_rejects data 45) | apply (atob_rejects data 95)];
    auto; easy.
Qed.

(** *** [JSON.parse]: examples, progress and fuel *)

Example JSON_parse_examples :
  JSON_parse (jsq "{'exp':1700000000}") = Some (VObj [(js "exp", VNum (Dec 1700000000 0))]) /\
  JSON_parse (jsq " { 'a' : [1, 2.5e1, true, null], 'a' : 'x' } ")
    = Some (VObj [(js "a", VStr (js "x"))]) /\
  JSON_parse (jsq "[[], {}, -0.5]")
    = Some (VArr [VArr []; VObj []; VNum (Dec (-5) (-1))]) /\
  JSON_parse (js "null") = Some VNull /\
  JSON_parse [] = None /\
  JSON_parse (js "[1,]") = None /\
  JSON_parse (js "01") = None /\
  JSON_parse (js "{} x") = None /\
  JSON_parse (js "undefined") = None.
Proof. repeat split; vm_compute; reflexivity. Qed.

Example ToNumber_examples :
  ToNumber VNull = Some (Dec 0 0) /\
  ToNumber VUndefined = Some NaN /\
  ToNumber (VStr (js " 12 ")) = Some (Dec 12 0) /\
  ToNumber (VStr (js "0x1F")) = Some (Dec 31 0) /\
  ToNumber (VStr (js "12px")) = Some NaN /\
  ToNumber (VArr []) = Some (Dec 0 0) /\
  ToNumber (VArr [VNum (Dec 5 0)]) = Some (Dec 5 0) /\
  ToNumber (VArr [VNum (Dec 1 0); VNum (Dec 2 0)]) = Some NaN /\
  ToNumber (VObj []) = Some NaN /\
  ToNumber (VObj [(js "toString", VNum (Dec 1 0))]) = None.
Proof. repeat split; vm_compute; reflexivity. Qed.

(** Numbers are binary64 values: a literal is rounded when it is read, a
    product when it is computed, and a number prints with the fewest digits
    that read back as the same value. *)
Example binary64_examples :
  JSON_parse (js "1e-400") = Some (VNum (Dec 0 0)) /\
  JSON_parse (js "1.00000000000000001") = Some (VNum (Dec 1 0)) /\
  JSON_parse (js "9007199254740993") = Some (VNum (Dec 9007199254740992 0)) /\
  JSON_parse (js "1e400") = Some (VNum PosInf) /\
  JSON_parse (js "0.1")
    = Some (VNum (Dec 1000000000000000055511151231257827021181583404541015625 (-55))) /\
  JSON_stringify (VNum (Dec 1000000000000000055511151231257827021181583404541015625 (-55)))
    = Some (js "0.1") /\
  num_to_string (num_mul (to_binary64 (Dec 1 (-1))) (Dec 3 0)) = js "0.30000000000000004" /\
  num_to_string (Dec 9007199254740993 0) = js "9007199254740992" /\
  num_to_string (Dec 1 21) = js "1e+21" /\
  num_to_string (Dec 123456 (-12)) = js "1.23456e-7".
Proof. repeat split; vm_compute; reflexivity. Qed.

Example JSON_stringify_examples :
  JSON_stringify (VObj [(js "b", VNum (Dec 15 (-1))); (js "10", VNull); (js "2", VBool true)])
    = Some (jsq "{'2':true,'10':null,'b':1.5}") /\
  JSON_stringify (VArr [VUndefined; VStr [10; 34]; VNum PosInf])
    = Some (js "[null," ++ [34; 92; 110; 92; 34; 34] ++ js ",null]") /\
  JSON_stringify VUndefined = None.
Proof. repeat split; vm_compute; reflexivity. Qed.

Lemma skip_ws_length (s : jsstring) : (length (skip_ws s) <= length s)%nat.
Proof.
  induction s as [|c r IH]; simpl; [lia|].
  destruct (is_json_whitespace c); simpl; lia.
Qed.

Lemma take_digits_length (s d r : jsstring) :
  take_digits s = (d, r) -> length s = (length d + length r)%nat.
Proof.
  revert d r. induction s as [|c s IH]; simpl; intros d r.
  - intros [= <- <-]. reflexivity.
  - destruct (is_digit c).
    + destruct (take_digits s) as [d' r']. intros [= <- <-].
      simpl. rewrite (IH d' r' eq_refl). reflexivity.
    + intros [= <- <-]. reflexivity.
Qed.

Lemma parse_exponent_length (s r : jsstring) (z : Z) :
  parse_exponent s = Some (z, r) -> (length r <= length s)%nat.
Proof.
  unfold parse_exponent. destruct s as [|c s]; [intros [= <- <-]; lia|].
  destruct ((c =? 101) || (c =? 69)).
  - destruct s as [|x s']; [discriminate|].
    destruct (x =? 43); [|destruct (x =? 45)];
      match goal with |- context [take_digits ?l] => destruct (take_digits l) as [[|d0 d] r2] eqn:E end;
      try discriminate; intros [= <- <-]; apply take_digits_length in E; simpl in *; lia.
  - intros [= <- <-]. lia.
Qed.

Lemma parse_string_length_bounded (n : nat) :
  forall s str r, (length s <= n)%nat ->
    parse_string s = Some (str, r) -> (length r < length s)%nat.
Proof.
  induction n as [|n IH]; intros s str r Hn.
  - destruct s; [discriminate | simpl in Hn; lia].
  - destruct s as [|c s]; [discriminate|].
    assert (Hrec : forall x (s' : jsstring) str r,
               (length s' <= n)%nat ->
               match parse_string s' with
               | Some (str0, rest) => Some (x :: str0, rest)
               | None => None
               end = Some (str, r) -> (length r < length s')%nat).
    { intros x s' str0 r0 Hs'. destruct (parse_string s') as [[a b]|] eqn:E; [|discriminate].
      intros [= <- <-]. exact (IH s' a b Hs' E). }
    simpl in Hn. cbn [parse_string]. cbv zeta.
    destruct (c =? 34); [intros [= <- <-]; simpl; lia|].
    destruct (c =? 92).
    + destruct s as [|e r1]; [discriminate|]. simpl in Hn.
      repeat match goal with
      | |- (if ?b then _ else _) = _ -> _ => destruct b
      | |- match parse_string r1 with _ => _ end = _ -> _ =>
          intros H; apply Hrec in H; [simpl; lia | lia]
      end.
      * destruct r1 as [|a [|b [|c' [|d r2]]]]; try discriminate.
        destruct (hex4 a b c' d); [|discriminate].
        simpl in Hn. intros H; apply Hrec in H; [simpl; lia | lia].
      * discriminate.
    + destruct (c <? 32); [discriminate|].
      intros H; apply Hrec in H; [simpl; lia | lia].
Qed.

Lemma parse_string_length (s str r : jsstring) :
  parse_string s = Some (str, r) -> (length r < length s)%nat.
Proof. apply (parse_string_length_bounded (length s)). lia. Qed.

Lemma parse_number_length (s r : jsstring) (n : number) :
  parse_number s = Some (n, r) -> (length r < length s)%nat.
Proof.
  unfold parse_number.
  assert (Hs1 : exists neg s1, (match s with
            | c :: r0 => if c =? 45 then (true, r0) else (false, s)
            | [] => (false, s) end) = (neg, s1) /\ (length s1 <= length s)%nat).
  { destruct s as [|c r0]; [eauto|]. destruct (c =? 45); eexists _, _; split; eauto; simpl; lia. }
  destruct Hs1 as (neg & s1 & -> & Hl1).
  destruct (take_digits s1) as [d1 r1] eqn:E1. apply take_digits_length in E1.
  destruct d1 as [|x d1]; [discriminate|].
  destruct ((x =? 48) && negb (Nat.eqb (length d1) 0)); [discriminate|].
  cbv zeta.
  match goal with |- match ?fr with _ => _ end = _ -> _ =>
    assert (Hfr : forall d2 r2, fr = Some (d2, r2) -> (length r2 <= length r1)%nat);
    [|destruct fr as [[d2 r2]|]; [|discriminate]] end.
  { intros d2 r2. destruct r1 as [|c r0]; [intros [= <- <-]; lia|].
    destruct (c =? 46); [|intros [= <- <-]; lia].
    destruct (take_digits r0) as [[|y d] r'] eqn:E; [discriminate|].
    intros [= <- <-]. apply take_digits_length in E. simpl in *. lia. }
  specialize (Hfr d2 r2 eq_refl).
  destruct (parse_exponent r2) as [[ex r3]|] eqn:E3; [|discriminate].
  apply parse_exponent_length in E3. intros [= _ <-]. simpl in E1. lia.
Qed.

Lemma parse_literal_length (s r : jsstring) (v : value) :
  parse_literal s = Some (v, r) -> (length r < length s)%nat.
Proof.
  unfold parse_literal.
  assert (H : forall p, starts_with p s = true -> p <> [] ->
                        (length (drop (length p) s) < length s)%nat).
  { intros p. revert s. induction p as [|x p IH]; intros s Hp Hne; [easy|].
    destruct s as [|y s]; [discriminate|]. simpl in Hp.
    apply andb_true_iff in Hp as [_ Hp]. simpl.
    destruct p as [|x' p]; [rewrite drop_0; lia|].
    specialize (IH s Hp ltac:(easy)). simpl in IH. simpl. lia. }
  destruct (starts_with (js "true") s) eqn:E1.
  { intros [= _ <-]. apply (H (js "true")); easy. }
  destruct (starts_with (js "false") s) eqn:E2.
  { intros [= _ <-]. apply (H (js "false")); easy. }
  destruct (starts_with (js "null") s) eqn:E3; [|discriminate].
  intros [= _ <-]. apply (H (js "null")); easy.
Qed.

Lemma expect_length (c : N) (s r : jsstring) :
  expect c s = Some r -> length s = S (length r).
Proof.
  destruct s as [|x s]; [discriminate|]. simpl.
  destruct (x =? c); [intros [= ->]; reflexivity | discriminate].
Qed.

Lemma parse_value_S (fuel : nat) (s : jsstring) :
  parse_value (S fuel) s =
  match skip_ws s with
  | [] => None
  | c :: r =>
      if c =? 123 then
        match expect 125 (skip_ws r) with
        | Some r' => Some (VObj [], r')
        | None => parse_members fuel [] r
        end
      else if c =? 91 then
        match expect 93 (skip_ws r) with
        | Some r' => Some (VArr [], r')
        | None => parse_elements fuel [] r
        end
      else if c =? 34 then
        match parse_string r with
        | Some (str, r') => Some (VStr str, r')
        | None => None
        end
      else if (c =? 45) || is_digit c then
        match parse_number (c :: r) with
        | Some (n, r') => Some (VNum n, r')
        | None => None
        end
      else parse_literal (c :: r)
  end.
Proof. reflexivity. Qed.

Lemma parse_elements_S (fuel : nat) (acc : list value) (s : jsstring) :
  parse_elements (S fuel) acc s =
  match parse_value fuel s with
  | None => None
  | Some (v, r) =>
      match skip_ws r with
      | c :: r' =>
          if c =? 44 then parse_elements fuel (v :: acc) r'
          else if c =? 93 then Some (VArr (rev (v :: acc)), r')
          else None
      | [] => None
      end
  end.
Proof. reflexivity. Qed.

Lemma parse_members_S (fuel : nat) (acc : list (jsstring * value)) (s : jsstring) :
  parse_members (S fuel) acc s =
  match expect 34 (skip_ws s) with
  | Some r =>
      match parse_string r with
      | None => None
      | Some (k, r1) =>
          match expect 58 (skip_ws r1) with
          | Some r2 =>
              match parse_value fuel r2 with
              | None => None
              | Some (v, r3) =>
                  match skip_ws r3 with
                  | c :: r4 =>
                      if c =? 44 then parse_members fuel (set_prop k v acc) r4
                      else if c =? 125 then Some (VObj (set_prop k v acc), r4)
                      else None
                  | [] => None
                  end
              end
          | None => None
          end
      end
  | None => None
  end.
Proof. reflexivity. Qed.

(** Each of the three parsers consumes at least one character. *)
Lemma parse_progress (fuel : nat) :
  (forall s v r, parse_value fuel s = Some (v, r) -> (length r < length s)%nat) /\
  (forall acc s v r, parse_elements fuel acc s = Some (v, r) -> (length r < length s)%nat) /\
  (forall acc s v r, parse_members fuel acc s = Some (v, r) -> (length r < length s)%nat).
Proof.
  induction fuel as [|fuel (IHv & IHe & IHm)]; [repeat split; discriminate|].
  repeat split.
  - intros s v r. rewrite parse_value_S.
    pose proof (skip_ws_length s) as Hs.
    destruct (skip_ws s) as [|c r0]; [discriminate|]. simpl in Hs.
    pose proof (skip_ws_length r0) as Hr0.
    destruct (c =? 123).
    { destruct (expect 125 (skip_ws r0)) as [r'|] eqn:E.
      - apply expect_length in E. intros [= _ <-]. lia.
      - intros H. apply IHm in H. lia. }
    destruct (c =? 91).
    { destruct (expect 93 (skip_ws r0)) as [r'|] eqn:E.
      - apply expect_length in E. intros [= _ <-]. lia.
      - intros H. apply IHe in H. lia. }
    destruct (c =? 34).
    { destruct (parse_string r0) as [[str r']|] eqn:E; [|discriminate].
      apply parse_string_length in E. intros [= _ <-]. lia. }
    destruct ((c =? 45) || is_digit c).
    { destruct (parse_number (c :: r0)) as [[n r']|] eqn:E; [|discriminate].
      apply parse_number_length in E. simpl in E. intros [= _ <-]. lia. }
    intros H. apply parse_literal_length in H. simpl in H. lia.
  - intros acc s v r. rewrite parse_elements_S.
    destruct (parse_value fuel s) as [[v0 r0]|] eqn:E; [|discriminate].
    apply IHv in E. pose proof (skip_ws_length r0) as Hr0.
    destruct (skip_ws r0) as [|c r']; [discriminate|]. simpl in Hr0.
    destruct (c =? 44).
    { intros H. apply IHe in H. lia. }
    destruct (c =? 93); [|discriminate]. intros [= _ <-]. lia.
  - intros acc s v r. rewrite parse_members_S.
    pose proof (skip_ws_length s) as Hs.
    destruct (expect 34 (skip_ws s)) as [r0|] eqn:E0; [|discriminate].
    apply expect_length in E0.
    destruct (parse_string r0) as [[k r1]|] eqn:E1; [|discriminate].
    apply parse_string_length in E1. pose proof (skip_ws_length r1) as Hr1.
    destruct (expect 58 (skip_ws r1)) as [r2|] eqn:E2; [|discriminate].
    apply expect_length in E2.
    destruct (parse_value fuel r2) as [[v0 r3]|] eqn:E3; [|discriminate].
    apply IHv in E3. pose proof (skip_ws_length r3) as Hr3.
    destruct (skip_ws r3) as [|c r4]; [discriminate|]. simpl in Hr3.
    destruct (c =? 44).
    { intros H. apply IHm in H. lia. }
    destruct (c =? 125); [|discriminate]. intros [= _ <-]. lia.
Qed.

(** Beyond twice the length of the text, more fuel changes nothing. *)
Lemma parse_fuel_stable (fuel : nat) :
  (forall s, (2 * length s + 2 <= fuel)%nat ->
             parse_value (S fuel) s = parse_value fuel s) /\
  (forall acc s, (2 * length s + 3 <= fuel)%nat ->
                 parse_elements (S fuel) acc s = parse_elements fuel acc s) /\
  (forall acc s, (2 * length s + 3 <= fuel)%nat ->
                 parse_members (S fuel) acc s = parse_members fuel acc s).
Proof.
  induction fuel as [|fuel (IHv & IHe & IHm)]; [repeat split; intros; lia|].
  repeat split.
  - intros s Hf. rewrite (parse_value_S (S fuel)), (parse_value_S fuel).
    pose proof (skip_ws_length s) as Hs.
    destruct (skip_ws s) as [|c r0]; [reflexivity|]. simpl in Hs.
    destruct (c =? 123).
    { destruct (expect 125 (skip_ws r0)); [reflexivity|]. apply IHm. lia. }
    destruct (c =? 91).
    { destruct (expect 93 (skip_ws r0)); [reflexivity|]. apply IHe. lia. }
    reflexivity.
  - intros acc s Hf. rewrite (parse_elements_S (S fuel)), (parse_elements_S fuel).
    rewrite IHv by lia.
    destruct (parse_value fuel s) as [[v0 r0]|] eqn:E; [|reflexivity].
    apply (proj1 (parse_progress fuel)) in E. pose proof (skip_ws_length r0) as Hr0.
    destruct (skip_ws r0) as [|c r']; [reflexivity|]. simpl in Hr0.
    destruct (c =? 44); [|reflexivity]. apply IHe. lia.
  - intros acc s Hf. rewrite (parse_members_S (S fuel)), (parse_members_S fuel).
    pose proof (skip_ws_length s) as Hs.
    destruct (expect 34 (skip_ws s)) as [r0|] eqn:E0; [|reflexivity].
    apply expect_length in E0.
    destruct (parse_string r0) as [[k r1]|] eqn:E1; [|reflexivity].
    apply parse_string_length in E1. pose proof (skip_ws_length r1) as Hr1.
    destruct (expect 58 (skip_ws r1)) as [r2|] eqn:E2; [|reflexivity].
    apply expect_length in E2.
    rewrite IHv by lia.
    destruct (parse_value fuel r2) as [[v0 r3]|] eqn:E3; [|reflexivity].
    apply (proj1 (parse_progress fuel)) in E3. pose proof (skip_ws_length r3) as Hr3.
    destruct (skip_ws r3) as [|c r4]; [reflexivity|]. simpl in Hr3.
    destruct (c =? 44); [|reflexivity]. apply IHm. lia.
Qed.

(** The fuel that [JSON_parse] gives to the parser is enough: any larger
    amount gives the same answer. *)
Theorem JSON_parse_fuel (text : jsstring) (fuel : nat) :
  (2 * length text + 2 <= fuel)%nat ->
  parse_value fuel text = parse_value (2 * length text + 2) text.
Proof.
  intros H. induction H as [|fuel H IH]; [reflexivity|].
  rewrite <- IH. apply (proj1 (parse_fuel_stable fuel)). exact H.
Qed.

(** An answer of the parser stands with more fuel. *)
Lemma parse_fuel_monotone (fuel : nat) :
  (forall s x, parse_value fuel s = Some x -> parse_value (S fuel) s = Some x) /\
  (forall acc s x, parse_elements fuel acc s = Some x ->
                   parse_elements (S fuel) acc s = Some x) /\
  (forall acc s x, parse_members fuel acc s = Some x ->
                   parse_members (S fuel) acc s = Some x).
Proof.
  induction fuel as [|fuel (IHv & IHe & IHm)]; [repeat split; discriminate|].
  repeat split.
  - intros s x. rewrite (parse_value_S (S fuel)), (parse_value_S fuel).
    destruct (skip_ws s) as [|c r0]; [discriminate|].
    destruct (c =? 123).
    { destruct (expect 125 (skip_ws r0)); [trivial|]. apply IHm. }
    destruct (c =? 91).
    { destruct (expect 93 (skip_ws r0)); [trivial|]. apply IHe. }
    trivial.
  - intros acc s x. rewrite (parse_elements_S (S fuel)), (parse_elements_S fuel).
    destruct (parse_value fuel s) as [[v0 r0]|] eqn:E; [|discriminate].
    rewrite (IHv _ _ E).
    destruct (skip_ws r0) as [|c r']; [discriminate|].
    destruct (c =? 44); [|trivial]. apply IHe.
  - intros acc s x. rewrite (parse_members_S (S fuel)), (parse_members_S fuel).
    destruct (expect 34 (skip_ws s)) as [r0|]; [|discriminate].
    destruct (parse_string r0) as [[k r1]|]; [|discriminate].
    destruct (expect 58 (skip_ws r1)) as [r2|]; [|discriminate].
    destruct (parse_value fuel r2) as [[v0 r3]|] eqn:E3; [|discriminate].
    rewrite (IHv _ _ E3).
    destruct (skip_ws r3) as [|c r4]; [discriminate|].
    destruct (c =? 44); [|trivial]. apply IHm.
Qed.

(** Whatever some amount of fuel parses, [JSON_parse] parses: it never
    fails for want of fuel. *)
Theorem JSON_parse_enough_fuel (text : jsstring) (fuel : nat) (x : value * jsstring) :
  parse_value fuel text = Some x ->
  parse_value (2 * length text + 2) text = Some x.
Proof.
  intros H.
  destruct (Nat.le_ge_cases fuel (2 * length text + 2)) as [Hle|Hge].
  - induction Hle as [|m Hle IH]; [exact H|].
    apply (proj1 (parse_fuel_monotone m)). exact IH.
  - rewrite <- (JSON_parse_fuel text fuel Hge). exact H.
Qed.

(** *** Numbers *)

(** The comparison of decimals is the comparison of the rationals they
    denote. *)
Lemma Q_of_dec_shift (m e e0 : Z) :
  (e0 <= e)%Z ->
  (Q_of_dec m e == inject_Z (m * 10 ^ (e - e0)) * (10 # 1) ^ e0)%Q.
Proof.
  intros He. unfold Q_of_dec.
  replace e with ((e - e0) + e0)%Z at 1 by lia.
  rewrite Qpower_plus by easy.
  rewrite inject_Z_mult, (Zpower_Qpower 10 (e - e0)) by lia.
  change (inject_Z 10) with (10 # 1)%Q. ring.
Qed.

Lemma ten_power_pos (e : Z) : (0 < (10 # 1) ^ e)%Q.
Proof. apply Qpower_0_lt. reflexivity. Qed.

Lemma dec_compare_Q (m1 e1 m2 e2 : Z) :
  dec_compare m1 e1 m2 e2 = (Q_of_dec m1 e1 ?= Q_of_dec m2 e2)%Q.
Proof.
  unfold dec_compare.
  set (e0 := Z.min e1 e2).
  assert (H1 : (e0 <= e1)%Z) by (unfold e0; lia).
  assert (H2 : (e0 <= e2)%Z) by (unfold e0; lia).
  rewrite (Qcompare_comp _ _ (Q_of_dec_shift m1 e1 e0 H1) _ _ (Q_of_dec_shift m2 e2 e0 H2)).
  set (a := (m1 * 10 ^ (e1 - e0))%Z). set (b := (m2 * 10 ^ (e2 - e0))%Z).
  pose proof (ten_power_pos e0) as Hp.
  symmetry. destruct (Z.compare_spec a b) as [Hab|Hab|Hab].
  - apply Qeq_alt. rewrite Hab. reflexivity.
  - apply Qlt_alt. apply Qmult_lt_r; [exact Hp|]. rewrite <- Zlt_Qlt. exact Hab.
  - apply Qgt_alt. apply Qmult_lt_r; [exact Hp|]. rewrite <- Zlt_Qlt. exact Hab.
Qed.

(** *** Rounding to binary64 does not step over an integer *)
















(** ** [TokenManager.isTokenExpired] *)

(** The function reads the clock only when the payload gave a number to
    compare, and otherwise answers [true]. *)
Lemma isTokenExpired_eq (token : jsstring) (w : World) :
  TokenManager.isTokenExpired token w =
  match expiry_ms token with
  | Some ms => (Return (num_ltb ms (num_of_Z (now w))), tick w)
  | None => (Return true, w)
  end.
Proof.
  unfold TokenManager.isTokenExpired, expiry_ms, token_payload, try_catch, bind.
  destruct (atob (TokenManager.middle_segment token)) as [decoded|]; [|reflexivity].
  cbn [or_throw ret].
  destruct (JSON_parse decoded) as [payload|]; [|reflexivity].
  cbn [or_throw ret].
  destruct (Get payload (js "exp")) as [exp|]; [|reflexivity].
  cbn [or_throw ret].
  destruct (ToNumber exp) as [n|]; reflexivity.
Qed.

(** It never throws. *)
Lemma isTokenExpired_returns (token : jsstring) (w : World) :
  exists b w', TokenManager.isTokenExpired token w = (Return b, w')
               /\ localStorage w' = localStorage w.
Proof.
  rewrite isTokenExpired_eq. destruct (expiry_ms token); eauto.
Qed.

(** A token without a dot has no middle segment, and [atob] rejects the
    string ["undefined"] that it is given in its place. *)
Lemma middle_segment_missing (token : jsstring) :
  nth_error (str_split DOT token) 1 = None ->
  atob (TokenManager.middle_segment token) = None.
Proof.
  intros H. unfold TokenManager.middle_segment. rewrite H. reflexivity.
Qed.

Lemma num_ltb_dec (m1 e1 m2 e2 : Z) :
  num_ltb (Dec m1 e1) (Dec m2 e2) = true <-> (Q_of_dec m1 e1 < Q_of_dec m2 e2)%Q.
Proof.
  simpl. rewrite dec_compare_Q, Qlt_alt.
  destruct (Q_of_dec m1 e1 ?= Q_of_dec m2 e2)%Q; easy.
Qed.

Lemma Q_of_dec_Z (z : Z) : (Q_of_dec z 0 == inject_Z z)%Q.
Proof. unfold Q_of_dec. simpl. ring. Qed.





(** C2 fails as stated: a token of two segments whose second segment is a
    payload with an [exp] in the future is reported valid. *)
Lemma C2_counterexample :
  length (str_split DOT token_two_segments) = 2%nat /\
  TokenManager.isTokenExpired token_two_segments
      (world_of ∅ (clock_at 1700000000000) offline)
    = (Return false, tick (world_of ∅ (clock_at 1700000000000) offline)).
Proof. split; vm_compute; reflexivity. Qed.

(** So is a token of three segments whose payload is JSON but not an
    object. *)
Example isTokenExpired_payload_5 :
  length (str_split DOT token_payload_5) = 3%nat /\
  token_payload token_payload_5 = Some (VNum (Dec 5 0)) /\
  TokenManager.isTokenExpired token_payload_5
      (world_of ∅ (clock_at 1700000000000) offline)
    = (Return false, tick (world_of ∅ (clock_at 1700000000000) offline)).
Proof. repeat split; vm_compute; reflexivity. Qed.

(** C2, amended. A token is reported expired, without the clock being
    read, when it has no second dot-delimited segment, when [atob] rejects
    the second segment, when the decoded text is not JSON, or when it is the
    JSON text [null]. *)
Theorem C2_isTokenExpired_fails_closed (token : jsstring) (w : World) :
  nth_error (str_split DOT token) 1 = None \/
  atob (TokenManager.middle_segment token) = None \/
  (exists decoded, atob (TokenManager.middle_segment token) = Some decoded
                   /\ JSON_parse decoded = None) \/
  token_payload token = Some VNull ->
  TokenManager.isTokenExpired token w = (Return true, w).
Proof.
  intros H. rewrite isTokenExpired_eq.
  assert (Hms : expiry_ms token = None); [|rewrite Hms; reflexivity].
  unfold expiry_ms, token_payload.
  destruct H as [H|[H|[(decoded & Ha & Hp)|H]]].
  - rewrite (middle_segment_missing token H). reflexivity.
  - rewrite H. reflexivity.
  - rewrite Ha, Hp. reflexivity.
  - unfold token_payload in H. rewrite H. reflexivity.
Qed.

(** Every string without a dot is reported expired. *)
Corollary isTokenExpired_no_dot (token : jsstring) (w : World) :
  forallb (fun c => negb (c =? DOT)) token = true ->
  TokenManager.isTokenExpired token w = (Return true, w).
Proof.
  intros H. rewrite isTokenExpired_eq. unfold expiry_ms, token_payload.
  rewrite middle_segment_missing; [reflexivity|].
  rewrite (str_split_no_sep DOT token H). reflexivity.
Qed.

(** So is every token whose middle segment uses the two characters that
    the URL-safe alphabet puts in the place of [+] and [/]. *)
Corollary isTokenExpired_url_safe (token : jsstring) (w : World) :
  In 45 (TokenManager.middle_segment token) \/
  In 95 (TokenManager.middle_segment token) ->
  TokenManager.isTokenExpired token w = (Return true, w).
Proof.
  intros H. rewrite isTokenExpired_eq. unfold expiry_ms, token_payload.
  rewrite (atob_rejects_url_safe _ H). reflexivity.
Qed.

(** C2, amended, at a token without a dot. *)
Lemma C2_witness :
  TokenManager.isTokenExpired (js "not-a-token")
      (world_of ∅ (clock_at 1700000000000) offline)
    = (Return true, world_of ∅ (clock_at 1700000000000) offline).
Proof.
  apply (C2_isTokenExpired_fails_closed (js "not-a-token")
           (world_of ∅ (clock_at 1700000000000) offline)).
  left. vm_compute. reflexivity.
Defined.

(** The alphabet of [atob] is that of base64: a payload written with the
    URL-safe alphabet is rejected when it contains [-] or [_], and the
    token is reported expired whatever its [exp]. *)
Example isTokenExpired_base64url :
  atob (TokenManager.middle_segment token_base64url) = None /\
  TokenManager.isTokenExpired token_base64url
      (world_of ∅ (clock_at 1700000000000) offline)
    = (Return true, world_of ∅ (clock_at 1700000000000) offline).
Proof. split; vm_compute; reflexivity. Qed.

(** C9 fails as stated: a payload object whose [exp] is [null] has no
    numeric [exp], and the token is reported expired, [null * 1000] being
    [0]. *)
Lemma C9_counterexample :
  token_payload token_exp_null = Some (VObj [(js "exp", VNull)]) /\
  TokenManager.isTokenExpired token_exp_null
      (world_of ∅ (clock_at 1700000000000) offline)
    = (Return true, tick (world_of ∅ (clock_at 1700000000000) offline)).
Proof. split; vm_compute; reflexivity. Qed.

(** C9, amended. A token whose payload is a JSON object without an [exp]
    field, or with an [exp] that converts to NaN, is reported valid at any
    time. *)
Theorem C9_isTokenExpired_without_exp
    (token : jsstring) (props : list (jsstring * value)) (w : World) :
  token_payload token = Some (VObj props) ->
  lookup_prop (js "exp") props = None \/
  (exists exp, lookup_prop (js "exp") props = Some exp /\ ToNumber exp = Some NaN) ->
  TokenManager.isTokenExpired token w = (Return false, tick w).
Proof.
  intros Hp H. rewrite isTokenExpired_eq. unfold expiry_ms. rewrite Hp.
  cbn [Get]. destruct H as [H|(exp & H & Hn)]; rewrite H.
  - reflexivity.
  - rewrite Hn. reflexivity.
Qed.

(** C9, amended, at the payload [{}]. *)
Lemma C9_witness :
  TokenManager.isTokenExpired token_no_exp
      (world_of ∅ (clock_at 1700000000000) offline)
    = (Return false, tick (world_of ∅ (clock_at 1700000000000) offline)).
Proof.
  apply (C9_isTokenExpired_without_exp token_no_exp []
           (world_of ∅ (clock_at 1700000000000) offline)).
  - vm_compute. reflexivity.
  - left. reflexivity.
Defined.

(** ** [TokenManager.clearTokens] *)

Lemma clearTokens_eq (w : World) :
  TokenManager.clearTokens w = (Return tt, clear_session w).
Proof. reflexivity. Qed.

Lemma session_empty_clear (w : World) : session_empty (clear_session w).
Proof.
  unfold session_empty, session_keys, clear_session, with_storage. cbn [localStorage].
  repeat (apply List.Forall_cons; [|]); try apply List.Forall_nil;
    rewrite !lookup_delete; repeat case_decide; try reflexivity;
    match goal with H : ?a <> ?a |- _ => destruct (H eq_refl) end.
Qed.

(** Clearing touches nothing but the four entries. *)
Lemma clear_session_other (w : World) (k : jsstring) :
  k ∉ session_keys -> localStorage (clear_session w) !! k = localStorage w !! k.
Proof.
  unfold session_keys, clear_session, with_storage. cbn [localStorage].
  intros Hk. rewrite !lookup_delete_ne; [reflexivity|..];
    intros E; apply Hk; subst k; apply list_elem_of_In; simpl; tauto.
Qed.

(** ** [HttpClient.request] *)

Lemma request_eq (endpoint : jsstring) (options : RequestInit) :
  HttpClient.request endpoint options =
  (base <- HttpClient.baseURL ;;
   token <- TokenManager.getToken ;;
   headers <- auth_headers token (init_headers options ∪ HttpClient.defaultHeaders) ;;
   exchange (mkRequest (base ++ endpoint) (method options) (init_body options)
                       headers API_CONFIG.TIMEOUT)).
Proof. reflexivity. Qed.

Lemma isTokenExpired_expired_at (token : jsstring) (w : World) :
  exists w', TokenManager.isTokenExpired token w = (Return (expired_at token (now w)), w')
             /\ localStorage w' = localStorage w /\ network w' = network w
             /\ sent w' = sent w /\ clock w' = clock w
             /\ VITE_API_BASE_URL w' = VITE_API_BASE_URL w
             /\ (reads w' = reads w \/ reads w' = S (reads w)).
Proof.
  rewrite isTokenExpired_eq. unfold expired_at.
  destruct (expiry_ms token); eexists; repeat split; auto.
Qed.

(** A token that is reported expired stays so while the clock does not run
    backwards. *)
Lemma expired_at_mono (token : jsstring) (t t' : Z) :
  (t <= t')%Z -> expired_at token t = true -> expired_at token t' = true.
Proof.
  intros Hle. unfold expired_at, num_of_Z.
  destruct (expiry_ms token) as [[| | |m e]|]; try easy.
  rewrite !num_ltb_dec, !Q_of_dec_Z. intros H.
  apply (Qlt_le_trans _ _ _ H). rewrite <- Zle_Qle. exact Hle.
Qed.

(** Steps of symbolic execution: the monad is unfolded and the scrutinee of
    the first pending match is analysed. *)
Ltac unfold_monad :=
  cbv beta delta [bind try_catch try_finally ret throw or_throw] in *.

Ltac destruct_match :=
  match goal with
  | |- context [match ?x with _ => _ end] =>
      lazymatch x with
      | context [match _ with _ => _ end] => fail
      | _ => destruct x eqn:?; cbv beta iota
      end
  end.

Lemma read_body_world (response : Response) (w : World) :
  snd (read_body response w) = w.
Proof.
  unfold read_body, response_json. unfold_monad.
  repeat destruct_match; reflexivity.
Qed.

(** The exchange records the request, and touches storage only to clear the
    session. *)
Lemma exchange_world (req : Request) (w : World) :
  snd (exchange req w) = record_sent req w \/
  snd (exchange req w) = clear_session (record_sent req w).
Proof.
  unfold exchange, fetch, on_error. unfold_monad.
  destruct (network w req) as [response|t]; cbn [fst snd].
  - fold (record_sent req w).
    pose proof (read_body_world response (record_sent req w)) as Hb.
    destruct (read_body response (record_sent req w)) as [[data|t] w1];
      cbn [snd] in Hb; subst w1.
    + destruct (status response =? 401).
      * rewrite clearTokens_eq. right. repeat destruct_match; reflexivity.
      * left. repeat destruct_match; reflexivity.
    + left. repeat destruct_match; reflexivity.
  - fold (record_sent req w). left. repeat destruct_match; reflexivity.
Qed.

Lemma exchange_sent (req : Request) (w : World) :
  sent (snd (exchange req w)) = req :: sent w.
Proof. destruct (exchange_world req w) as [-> | ->]; reflexivity. Qed.

Lemma exchange_keeps_session_empty (req : Request) (w : World) :
  session_empty w -> session_empty (snd (exchange req w)).
Proof.
  intros H. destruct (exchange_world req w) as [-> | ->].
  - exact H.
  - apply session_empty_clear.
Qed.

Lemma on_error_eq (error : thrown) (w : World) :
  on_error error w = (Throw (rethrown error), w).
Proof.
  unfold on_error, rethrown, throw.
  destruct (instanceof_Error error); [|reflexivity].
  destruct (str_eqb (error_name error) (js "AbortError")); reflexivity.
Qed.

(** The choice of the headers never throws; it leaves the network and the
    record of requests alone, and either leaves storage alone or clears the
    session. *)
Lemma auth_headers_world (token : option jsstring)
    (headers : gmap jsstring jsstring) (w : World) :
  exists h w1,
    auth_headers token headers w = (Return h, w1)
    /\ network w1 = network w /\ sent w1 = sent w
    /\ VITE_API_BASE_URL w1 = VITE_API_BASE_URL w
    /\ (localStorage w1 = localStorage w
        \/ localStorage w1 = localStorage (clear_session w)).
Proof.
  unfold auth_headers.
  destruct token as [[|c t]|]; try (exists headers, w; repeat split; auto; fail).
  unfold_monad.
  destruct (isTokenExpired_expired_at (c :: t) w)
    as (w1 & -> & Hs1 & Hn1 & Hl1 & Hc1 & Hb1 & _).
  destruct (expired_at (c :: t) (now w)); cbn [negb].
  - destruct (isTokenExpired_expired_at (c :: t) w1)
      as (w2 & -> & Hs2 & Hn2 & Hl2 & Hc2 & Hb2 & _).
    destruct (expired_at (c :: t) (now w1)).
    + rewrite clearTokens_eq. eexists _, _. split; [reflexivity|].
      cbn. rewrite Hs2, Hs1. repeat split; try congruence. right. reflexivity.
    + eexists _, _. split; [reflexivity|]. repeat split; try congruence.
      left. congruence.
  - eexists _, _. split; [reflexivity|]. repeat split; auto.
Qed.

(** A request is the exchange of one [Request], built from the configured
    base URL, after the headers were chosen. *)
Lemma request_run (endpoint : jsstring) (options : RequestInit) (w : World) :
  exists h w1,
    HttpClient.request endpoint options w =
      exchange (mkRequest (API_CONFIG.BASE_URL w ++ endpoint) (method options)
                          (init_body options) h API_CONFIG.TIMEOUT) w1
    /\ auth_headers (localStorage w !! TokenManager.TOKEN_KEY)
                    (init_headers options ∪ HttpClient.defaultHeaders) w = (Return h, w1)
    /\ network w1 = network w /\ sent w1 = sent w.
Proof.
  rewrite request_eq.
  destruct (auth_headers_world (localStorage w !! TokenManager.TOKEN_KEY)
              (init_headers options ∪ HttpClient.defaultHeaders) w)
    as (h & w1 & Ha & Hn & Hl & _).
  exists h, w1. repeat split; auto.
  unfold bind at 1. cbn [HttpClient.baseURL].
  unfold bind at 1. unfold TokenManager.getToken, getItem.
  unfold bind at 1. rewrite Ha. reflexivity.
Qed.

(** What a rejected [fetch] becomes. *)
Lemma exchange_rejected (req : Request) (w : World) (t : thrown) :
  network w req = Rejected t ->
  exchange req w = (Throw (rethrown t), record_sent req w).
Proof.
  intros H. unfold exchange, fetch. unfold_monad. rewrite H.
  apply on_error_eq.
Qed.

Lemma request_rejected (endpoint : jsstring) (options : RequestInit)
    (w : World) (t : thrown) :
  (forall req, network w req = Rejected t) ->
  exists w', HttpClient.request endpoint options w = (Throw (rethrown t), w').
Proof.
  intros H. destruct (request_run endpoint options w) as (h & w1 & -> & _ & Hn & _).
  eexists. apply exchange_rejected. rewrite Hn. apply H.
Qed.

Lemma read_body_eq (response : Response) (w : World) :
  read_body response w = (body_value response, w).
Proof.
  unfold read_body, body_value, declares_json, response_json. unfold_monad.
  repeat destruct_match; reflexivity.
Qed.

(** A body that cannot be read ends the exchange before the status is looked
    at. *)
Lemma exchange_body_unreadable (req : Request) (w : World)
    (response : Response) (t : thrown) :
  network w req = Resolved response ->
  body_value response = Throw t ->
  exchange req w = (Throw (rethrown t), record_sent req w).
Proof.
  intros Hn Hb. unfold exchange, fetch. unfold_monad. rewrite Hn.
  fold (record_sent req w). rewrite read_body_eq, Hb. apply on_error_eq.
Qed.

Lemma exchange_401 (req : Request) (w : World) (response : Response) (data : value) :
  network w req = Resolved response ->
  body_value response = Return data ->
  status response = 401 ->
  exchange req w = (Throw (JsError (js "Authentication required")),
                    clear_session (record_sent req w)).
Proof.
  intros Hn Hb Hs. unfold exchange, fetch. unfold_monad. rewrite Hn.
  fold (record_sent req w). rewrite read_body_eq, Hb, Hs. cbn [N.eqb Pos.eqb].
  rewrite clearTokens_eq. apply on_error_eq.
Qed.

Lemma exchange_http_error (req : Request) (w : World) (response : Response)
    (data message : value) :
  network w req = Resolved response ->
  body_value response = Return data ->
  status response <> 401 ->
  ok response = false ->
  Get data (js "message") = Some message ->
  exchange req w =
    (Throw (if truthy message then
              match ToString message with
              | Some text => JsError text
              | None => JsTypeError
              end
            else JsError (http_message response)),
     record_sent req w).
Proof.
  intros Hn Hb Hs Hok Hm. unfold exchange, fetch. unfold_monad. rewrite Hn.
  fold (record_sent req w). rewrite read_body_eq, Hb.
  apply N.eqb_neq in Hs. rewrite Hs, Hok, Hm. cbn [negb].
  fold (http_message response).
  destruct (truthy message).
  - destruct (ToString message); apply on_error_eq.
  - cbn [ToString]. apply on_error_eq.
Qed.

Lemma request_401 (endpoint : jsstring) (options : RequestInit) (w : World)
    (response : Response) (data : value) :
  (forall req, network w req = Resolved response) ->
  body_value response = Return data ->
  status response = 401 ->
  exists w', HttpClient.request endpoint options w
             = (Throw (JsError (js "Authentication required")), w')
             /\ session_empty w'.
Proof.
  intros Hn Hb Hs.
  destruct (request_run endpoint options w) as (h & w1 & -> & _ & Hn1 & _).
  eexists. split.
  - apply (exchange_401 _ _ response data); auto. rewrite Hn1. apply Hn.
  - apply session_empty_clear.
Qed.

Lemma request_body_unreadable (endpoint : jsstring) (options : RequestInit)
    (w : World) (response : Response) (t : thrown) :
  (forall req, network w req = Resolved response) ->
  body_value response = Throw t ->
  exists h w1,
    auth_headers (localStorage w !! TokenManager.TOKEN_KEY)
                 (init_headers options ∪ HttpClient.defaultHeaders) w = (Return h, w1)
    /\ exists req, HttpClient.request endpoint options w
                   = (Throw (rethrown t), record_sent req w1).
Proof.
  intros Hn Hb.
  destruct (request_run endpoint options w) as (h & w1 & -> & Ha & Hn1 & _).
  exists h, w1. split; [exact Ha|]. eexists.
  apply (exchange_body_unreadable _ _ response t); auto. rewrite Hn1. apply Hn.
Qed.

(** Every request is handed to [fetch] with a signal that times out after
    30000 milliseconds, and with the endpoint appended to the base URL. *)
Lemma request_signal (endpoint : jsstring) (options : RequestInit) (w : World) :
  exists req,
    sent (snd (HttpClient.request endpoint options w)) = req :: sent w
    /\ signal_timeout req = 30000
    /\ url req = API_CONFIG.BASE_URL w ++ endpoint.
Proof.
  destruct (request_run endpoint options w) as (h & w1 & -> & _ & _ & Hl).
  eexists. rewrite exchange_sent, Hl. repeat split; reflexivity.
Qed.

(** C7. A request that runs into the timeout is rejected by [fetch] with the
    reason of [AbortSignal.timeout], a DOMException named [TimeoutError].
    The [catch] block looks for the name [AbortError], so the exception
    passes through as it is: the error of the call is not
    [Error("Request timeout")]. *)
Theorem C7_timeout_passes_through
    (storage : gmap jsstring jsstring) (clk : nat -> Z) (n : nat)
    (base : option jsstring) (log : list Request)
    (endpoint : jsstring) (options : RequestInit) :
  exists w',
    HttpClient.request endpoint options
        (mkWorld storage clk n base (fun _ => Rejected timeout_reason) log)
      = (Throw (JsDOMException (js "TimeoutError")), w')
    /\ JsDOMException (js "TimeoutError") <> JsError (js "Request timeout").
Proof.
  destruct (request_rejected endpoint options
              (mkWorld storage clk n base (fun _ => Rejected timeout_reason) log)
              timeout_reason) as (w' & H).
  - intros req. reflexivity.
  - exists w'. split; [exact H | discriminate].
Qed.

(** The mapping to [Error("Request timeout")] applies to a request that was
    aborted with the reason [AbortError]. *)
Example request_aborted
    (storage : gmap jsstring jsstring) (clk : nat -> Z) (n : nat)
    (base : option jsstring) (log : list Request)
    (endpoint : jsstring) (options : RequestInit) :
  exists w',
    HttpClient.request endpoint options
        (mkWorld storage clk n base (fun _ => Rejected abort_reason) log)
      = (Throw (JsError (js "Request timeout")), w').
Proof.
  apply (request_rejected endpoint options _ abort_reason). intros req. reflexivity.
Qed.

(** A failure of the network (a TypeError of [fetch]) passes through too. *)
Example request_network_failure (endpoint : jsstring) (options : RequestInit)
    (storage : gmap jsstring jsstring) (clk : nat -> Z) :
  exists w',
    HttpClient.request endpoint options (world_of storage clk offline)
      = (Throw JsTypeError, w').
Proof.
  apply (request_rejected endpoint options _ JsTypeError). intros req. reflexivity.
Qed.

(** C4. A 401 response that declares JSON and whose body is empty: reading
    the body throws before the status is looked at, so the call is rejected
    with a SyntaxError and the session stays in storage. *)
Theorem C4_unauthorized_with_unreadable_body :
  let w := world_of (stored_session token_exp_1700000000)
                    (clock_at 1600000000000) (answering unauthorized_empty_body) in
  fst (HttpClient.get (js "/user") None w) = Throw JsSyntaxError /\
  localStorage (snd (HttpClient.get (js "/user") None w))
    = stored_session token_exp_1700000000.
Proof. split; vm_compute; reflexivity. Qed.

(** C8 fails as stated: for a 500 response with an HTML body the error
    message is the fixed text of the plain envelope, not the text
    synthesized from the status. *)
Lemma C8_counterexample :
  let w := world_of ∅ (clock_at 1700000000000) (answering server_error_html) in
  fst (HttpClient.get (js "/user") None w) = Throw (JsError (js "Request failed")) /\
  http_message server_error_html = js "HTTP 500: Internal Server Error".
Proof. split; vm_compute; reflexivity. Qed.

(** The error of a response with a status outside 200..299 other than 401:
    by the plain envelope when the response does not declare JSON, by the
    parsed body when it does. *)
Lemma request_http_error
    (endpoint : jsstring) (options : RequestInit) (w : World) (response : Response)
    (data message : value) :
  (forall req, network w req = Resolved response) ->
  ok response = false ->
  status response <> 401 ->
  body_value response = Return data ->
  Get data (js "message") = Some message ->
  exists w', HttpClient.request endpoint options w
             = (Throw (if truthy message then
                         match ToString message with
                         | Some s => JsError s
                         | None => JsTypeError
                         end
                       else JsError (http_message response)), w').
Proof.
  intros Hn Hok Hs Hb Hm.
  destruct (request_run endpoint options w) as (h & w1 & -> & _ & Hn1 & _).
  eexists. apply (exchange_http_error _ _ response data message); auto.
  rewrite Hn1. apply Hn.
Qed.

(** C8, amended. For a response with a status outside 200..299 other than
    401: when the response does not declare JSON the error message is
    ["Request failed"]; when it declares JSON and the body parses to a value
    other than [null], the message is the string form of the body's
    [message] field if that field is truthy, and the synthesized
    ["HTTP <status>: <statusText>"] if it is absent, empty or otherwise
    falsy. *)
Theorem C8_http_error_message
    (endpoint : jsstring) (options : RequestInit) (w : World) (response : Response) :
  (forall req, network w req = Resolved response) ->
  ok response = false ->
  status response <> 401 ->
  (declares_json response = false ->
   exists w', HttpClient.request endpoint options w
              = (Throw (JsError (js "Request failed")), w')) /\
  (forall text data message,
     declares_json response = true ->
     body response = BodyText text ->
     JSON_parse text = Some data ->
     Get data (js "message") = Some message ->
     exists w', HttpClient.request endpoint options w
                = (Throw (if truthy message then
                            match ToString message with
                            | Some s => JsError s
                            | None => JsTypeError
                            end
                          else JsError (http_message response)), w')).
Proof.
  intros Hn Hok Hs. split.
  - intros Hj.
    apply (request_http_error endpoint options w response
             (HttpClient.plain_envelope response) (VStr (js "Request failed")));
      auto.
    + unfold body_value. rewrite Hj. reflexivity.
    + unfold HttpClient.plain_envelope. rewrite Hok. reflexivity.
  - intros text data message Hj Hb Hp Hm.
    apply (request_http_error endpoint options w response data message); auto.
    unfold body_value. rewrite Hj, Hb, Hp. reflexivity.
Qed.

(** C8, amended, at a 422 response whose JSON body carries a message. *)
Lemma C8_witness :
  exists w',
    HttpClient.get (js "/user") None
        (world_of ∅ (clock_at 1700000000000) (answering validation_error_json))
      = (Throw (JsError (js "The email has already been taken.")), w').
Proof.
  destruct (C8_http_error_message (js "/user")
              (mkRequestInit (Some (js "GET")) None ∅)
              (world_of ∅ (clock_at 1700000000000) (answering validation_error_json))
              validation_error_json) as [_ H].
  - intros req. reflexivity.
  - reflexivity.
  - intros E. vm_compute in E. discriminate E.
  - apply (H (jsq "{'message':'The email has already been taken.'}")
             (VObj [(js "message", VStr (js "The email has already been taken."))])
             (VStr (js "The email has already been taken.")));
      vm_compute; reflexivity.
Defined.

(** A message that is a non-empty string is the message of the error. *)
Corollary request_error_message_string
    (endpoint : jsstring) (options : RequestInit) (w : World) (response : Response)
    (data : value) (c : N) (m : jsstring) :
  (forall req, network w req = Resolved response) ->
  ok response = false ->
  status response <> 401 ->
  body_value response = Return data ->
  Get data (js "message") = Some (VStr (c :: m)) ->
  exists w', HttpClient.request endpoint options w = (Throw (JsError (c :: m)), w').
Proof.
  intros Hn Hok Hs Hb Hm.
  exact (request_http_error endpoint options w response data (VStr (c :: m))
           Hn Hok Hs Hb Hm).
Qed.

(** *** Requests made with a valid token *)

(** When the stored token is not empty and is reported valid, the request
    carries it in the Authorization header, over the headers of the caller
    and the default ones. *)
Lemma request_with_valid_token (endpoint : jsstring) (options : RequestInit)
    (w : World) (c : N) (t : jsstring) :
  localStorage w !! TokenManager.TOKEN_KEY = Some (c :: t) ->
  expired_at (c :: t) (now w) = false ->
  exists req,
    sent (snd (HttpClient.request endpoint options w)) = req :: sent w
    /\ headers req = <[HttpClient.AUTHORIZATION := HttpClient.bearer (c :: t)]>
                       (init_headers options ∪ HttpClient.defaultHeaders).
Proof.
  intros Ht Hv.
  destruct (request_run endpoint options w) as (h & w1 & Hr & Ha & _ & Hl).
  rewrite Ht in Ha. unfold auth_headers in Ha. unfold_monad.
  destruct (isTokenExpired_expired_at (c :: t) w) as (w2 & He & _).
  rewrite He, Hv in Ha. cbn [negb] in Ha. injection Ha as <- <-.
  eexists. rewrite Hr, exchange_sent, Hl. split; reflexivity.
Qed.

(** *** Requests made with an expired token *)

Lemma default_headers_no_authorization :
  HttpClient.defaultHeaders !! HttpClient.AUTHORIZATION = None.
Proof. vm_compute. reflexivity. Qed.

(** When the stored token is not empty and is reported expired from now on,
    the headers chosen by [request] are the default headers under those of
    the caller, and the session is cleared before [fetch] is called. *)
Lemma auth_headers_expired (c : N) (t : jsstring)
    (headers : gmap jsstring jsstring) (w : World) :
  (forall n, (reads w <= n)%nat -> expired_at (c :: t) (clock w n) = true) ->
  exists w1, auth_headers (Some (c :: t)) headers w = (Return headers, w1)
             /\ session_empty w1 /\ sent w1 = sent w /\ network w1 = network w.
Proof.
  intros Hexp. unfold auth_headers. unfold_monad.
  destruct (isTokenExpired_expired_at (c :: t) w)
    as (w1 & -> & Hs1 & Hn1 & Hl1 & Hc1 & _ & Hr1).
  unfold now. rewrite (Hexp (reads w)) by lia. cbn [negb].
  destruct (isTokenExpired_expired_at (c :: t) w1)
    as (w2 & -> & Hs2 & Hn2 & Hl2 & Hc2 & _ & Hr2).
  unfold now. rewrite Hc1, (Hexp (reads w1)) by (destruct Hr1; lia).
  rewrite clearTokens_eq. eexists. split; [reflexivity|].
  split; [apply session_empty_clear|]. cbn. split; congruence.
Qed.

Lemma request_with_expired_token (endpoint : jsstring) (options : RequestInit)
    (w : World) (c : N) (t : jsstring) :
  localStorage w !! TokenManager.TOKEN_KEY = Some (c :: t) ->
  (forall n, (reads w <= n)%nat -> expired_at (c :: t) (clock w n) = true) ->
  exists req w1,
    HttpClient.request endpoint options w = exchange req w1
    /\ session_empty w1
    /\ headers req = init_headers options ∪ HttpClient.defaultHeaders
    /\ sent (snd (HttpClient.request endpoint options w)) = req :: sent w
    /\ session_empty (snd (HttpClient.request endpoint options w)).
Proof.
  intros Ht Hexp.
  destruct (request_run endpoint options w) as (h & w1 & Hr & Ha & _ & _).
  rewrite Ht in Ha.
  destruct (auth_headers_expired c t (init_headers options ∪ HttpClient.defaultHeaders)
              w Hexp) as (w1' & Ha' & He & Hl & _).
  rewrite Ha' in Ha. injection Ha as <- <-.
  eexists _, w1'. rewrite Hr. split; [reflexivity|].
  split; [exact He|]. split; [reflexivity|]. split.
  - rewrite exchange_sent. congruence.
  - apply exchange_keeps_session_empty. exact He.
Qed.

(** In particular a caller that supplies no Authorization header, as [get],
    [post], [put], [patch] and [delete] do, sends none. *)
Corollary request_with_expired_token_unauthenticated
    (endpoint : jsstring) (options : RequestInit) (w : World) (c : N) (t : jsstring) :
  localStorage w !! TokenManager.TOKEN_KEY = Some (c :: t) ->
  (forall n, (reads w <= n)%nat -> expired_at (c :: t) (clock w n) = true) ->
  init_headers options !! HttpClient.AUTHORIZATION = None ->
  exists req,
    sent (snd (HttpClient.request endpoint options w)) = req :: sent w
    /\ headers req !! HttpClient.AUTHORIZATION = None
    /\ session_empty (snd (HttpClient.request endpoint options w)).
Proof.
  intros Ht Hexp Hh.
  destruct (request_with_expired_token endpoint options w c t Ht Hexp)
    as (req & w1 & _ & _ & Hreq & Hs & He).
  exists req. repeat split; auto.
  rewrite Hreq. apply lookup_union_None. split; [exact Hh|].
  apply default_headers_no_authorization.
Qed.

(** The same, for a token that is reported expired now and a clock that does
    not run backwards. *)
Corollary request_after_expiry
    (endpoint : jsstring) (options : RequestInit) (w : World) (c : N) (t : jsstring) :
  localStorage w !! TokenManager.TOKEN_KEY = Some (c :: t) ->
  expired_at (c :: t) (now w) = true ->
  (forall n n', (n <= n')%nat -> (clock w n <= clock w n')%Z) ->
  init_headers options !! HttpClient.AUTHORIZATION = None ->
  exists req,
    sent (snd (HttpClient.request endpoint options w)) = req :: sent w
    /\ headers req !! HttpClient.AUTHORIZATION = None
    /\ session_empty (snd (HttpClient.request endpoint options w)).
Proof.
  intros Ht Hexp Hmono Hh.
  apply (request_with_expired_token_unauthenticated endpoint options w c t); auto.
  intros n Hn. apply (expired_at_mono (c :: t) (now w)); [|exact Hexp].
  apply Hmono. exact Hn.
Qed.

(** C1. [upload] decides on the Authorization header with a reading of the
    clock of its own and hands the header to [request].  When the token
    expires between that reading and the one [request] takes, [request] is
    called while the stored token is reported expired: it clears the
    session, and the request that goes out still carries the expired token
    in its Authorization header. *)
Theorem C1_expired_token_sent_by_upload :
  let w := world_of (stored_session token_exp_1700000000) race_clock offline in
  let options :=
    mkRequestInit (Some (js "POST")) (Some (FormData [(js "file", FileEntry avatar)]))
      (<[HttpClient.AUTHORIZATION := HttpClient.bearer token_exp_1700000000]> ∅) in
  let after := snd (HttpClient.request (js "/user/avatar") options (tick w)) in
  HttpClient.upload (js "/user/avatar") avatar None w
    = HttpClient.request (js "/user/avatar") options (tick w)
  /\ localStorage (tick w) !! TokenManager.TOKEN_KEY = Some token_exp_1700000000
  /\ TokenManager.isTokenExpired token_exp_1700000000 (tick w)
     = (Return true, tick (tick w))
  /\ session_empty after
  /\ exists req,
       sent after = [req]
       /\ headers req !! HttpClient.AUTHORIZATION
          = Some (HttpClient.bearer token_exp_1700000000).
Proof.
  cbv zeta. split; [vm_compute; reflexivity|].
  split; [vm_compute; reflexivity|].
  split; [vm_compute; reflexivity|].
  split.
  - unfold session_empty, session_keys.
    repeat (apply List.Forall_cons; [vm_compute; reflexivity|]). apply List.Forall_nil.
  - eexists. split; vm_compute; reflexivity.
Qed.

(** ** [AuthService] *)

(** C6. Whatever the answer to the [/logout] request, [logout] returns
    normally and the session is gone from storage: the clearing in the
    [finally] block is the last thing it does, on the world that the remote
    call left. *)
Theorem C6_logout_always_clears (w : World) :
  AuthService.logout w
    = (Return tt, clear_session (snd (HttpClient.post (js "/logout") VUndefined w)))
  /\ session_empty (snd (AuthService.logout w)).
Proof.
  assert (H : AuthService.logout w
              = (Return tt,
                 clear_session (snd (HttpClient.post (js "/logout") VUndefined w)))).
  { unfold AuthService.logout, try_finally, try_catch, bind.
    destruct (HttpClient.post (js "/logout") VUndefined w) as [[v|t] w1];
      cbn [ret snd]; rewrite clearTokens_eq; reflexivity. }
  split; [exact H|]. rewrite H. apply session_empty_clear.
Qed.

(** The remote call may fail, as here where the network is down. *)
Example logout_offline :
  AuthService.logout (world_of (stored_session token_exp_1700000000)
                               (clock_at 1600000000000) offline)
  = (Return tt,
     clear_session
       (snd (HttpClient.post (js "/logout") VUndefined
               (world_of (stored_session token_exp_1700000000)
                         (clock_at 1600000000000) offline)))).
Proof. vm_compute. reflexivity. Qed.





(** A value that answers one property read answers them all. *)
Lemma Get_defined (v x : value) (k k' : jsstring) :
  Get v k = Some x -> exists y, Get v k' = Some y.
Proof. destruct v; try discriminate; cbn; eauto. Qed.










(** The scenario of a successful login: the token, the refresh token, the
    first-time-login marker and the user are stored. *)
Example login_success :
  let w := world_of ∅ (clock_at 1700000000000)
             (answering
                (mkResponse 200 (js "OK") (Some (js "application/json"))
                   (BodyText (jsq "{'success':true,'data':{'token':'t1','refreshToken':'r1','user':{'id':7},'first_time_login':1}}")))) in
  let after := snd (AuthService.login credentials_example w) in
  localStorage after !! TokenManager.TOKEN_KEY = Some (js "t1") /\
  localStorage after !! TokenManager.REFRESH_TOKEN_KEY = Some (js "r1") /\
  localStorage after !! TokenManager.FIRST_TIME_LOGIN_KEY = Some (js "1") /\
  localStorage after !! TokenManager.USER_KEY = Some (jsq "{'id':7}").
Proof. repeat split; vm_compute; reflexivity. Qed.

(** [isAuthenticated] holds when a token is stored and is not reported
    expired; no request is made. *)
Lemma isAuthenticated_eq (w : World) :
  fst (AuthService.isAuthenticated w) =
  Return (match localStorage w !! TokenManager.TOKEN_KEY with
          | Some token => negb (expired_at token (now w))
          | None => false
          end)
  /\ sent (snd (AuthService.isAuthenticated w)) = sent w.
Proof.
  unfold AuthService.isAuthenticated, TokenManager.getToken, getItem, bind.
  destruct (localStorage w !! TokenManager.TOKEN_KEY) as [token|]; [|split; reflexivity].
  destruct (isTokenExpired_expired_at token w) as (w1 & -> & _ & _ & Hl & _).
  split; [reflexivity | exact Hl].
Qed.

(** [getUserOrganization] never throws. *)
Lemma getUserOrganization_returns (w : World) :
  exists v w', AuthService.getUserOrganization w = (Return v, w').
Proof.
  unfold AuthService.getUserOrganization. unfold try_catch.
  match goal with |- context [match ?m w with _ => _ end] => destruct (m w) as [[v|t] w1] end;
    eauto.
Qed.

Lemma getUser_world (w : World) : snd (TokenManager.getUser w) = w.
Proof.
  unfold TokenManager.getUser, getItem, bind. cbv beta iota.
  destruct (localStorage w !! TokenManager.USER_KEY) as [[|c s]|];
    unfold or_throw, ret, throw; try reflexivity.
  destruct (JSON_parse (c :: s)); reflexivity.
Qed.

(** C10. When the request that [getUserOrganization] makes for the
    organisation of the stored user throws, whatever the error, the call
    returns [null]. *)
Theorem C10_getUserOrganization_swallows_errors
    (w w1 : World) (user organisation_id : value) (id : jsstring) (t : thrown) :
  TokenManager.getUser w = (Return user, w) ->
  truthy user = true ->
  Get user (js "organisation_id") = Some organisation_id ->
  truthy organisation_id = true ->
  ToString organisation_id = Some id ->
  HttpClient.get (js "/organisations/" ++ id) None w = (Throw t, w1) ->
  AuthService.getUserOrganization w = (Return VNull, w1).
Proof.
  intros Hu Htu Ho Hto Hid Hget.
  unfold AuthService.getUserOrganization, AuthService.getStoredUser.
  unfold try_catch. unfold bind at 1. rewrite Hu.
  unfold bind at 1. rewrite Htu, Ho. cbn [or_throw ret].
  rewrite Hto. cbn [negb orb].
  unfold bind at 1. rewrite Hid. cbn [or_throw ret].
  unfold bind at 1. rewrite Hget. reflexivity.
Qed.

(** C10 at a stored user of organisation 42, the network being down. *)
Lemma C10_witness :
  AuthService.getUserOrganization world_offline
  = (Return VNull, snd (HttpClient.get (js "/organisations/42") None world_offline)).
Proof.
  apply (C10_getUserOrganization_swallows_errors world_offline
           (snd (HttpClient.get (js "/organisations/42") None world_offline))
           (VObj [(js "id", VNum (Dec 7 0)); (js "organisation_id", VNum (Dec 42 0))])
           (VNum (Dec 42 0)) (js "42") JsTypeError);
    vm_compute; reflexivity.
Defined.

(** The same answer is given when there is no stored user, so the caller
    cannot tell a failed lookup from the absence of an organisation. *)
Example getUserOrganization_no_user :
  AuthService.getUserOrganization (world_of ∅ (clock_at 1600000000000) offline)
  = (Return VNull, world_of ∅ (clock_at 1600000000000) offline).
Proof. vm_compute. reflexivity. Qed.

(** ** Further properties of [TokenManager] *)

(** The storage that [clearTokens] leaves. *)
Lemma cleared_lookup (m : gmap jsstring jsstring) (k : jsstring) :
  cleared m !! k = if bool_decide (k ∈ session_keys) then None else m !! k.
Proof.
  unfold cleared, session_keys. rewrite !lookup_delete.
  case_bool_decide as Hk.
  - repeat case_decide; try reflexivity. exfalso.
    apply list_elem_of_In in Hk. simpl in Hk. intuition congruence.
  - repeat case_decide; try reflexivity; exfalso; apply Hk; subst k;
      apply list_elem_of_In; simpl; tauto.
Qed.

Lemma cleared_idem (m : gmap jsstring jsstring) : cleared (cleared m) = cleared m.
Proof.
  apply map_eq. intros k. rewrite !cleared_lookup. case_bool_decide; reflexivity.
Qed.

Lemma clear_session_storage (w : World) :
  localStorage (clear_session w) = cleared (localStorage w).
Proof. reflexivity. Qed.

(** X1. [isTokenExpired] never throws, whatever string it is given, and it
    leaves storage, the network and the record of requests as they are. *)
Theorem X1_isTokenExpired_is_safe (token : jsstring) (w : World) :
  exists b w',
    TokenManager.isTokenExpired token w = (Return b, w')
    /\ localStorage w' = localStorage w
    /\ sent w' = sent w
    /\ network w' = network w.
Proof.
  destruct (isTokenExpired_expired_at token w) as (w' & H & Hs & Hn & Hl & _).
  eauto 10.
Qed.

(** X2. A token that is reported expired at some time is reported expired
    at every later time: expiry is never undone by the passing of time. *)
Theorem X2_isTokenExpired_stays_expired (token : jsstring) (w w' : World) :
  (now w <= now w')%Z ->
  fst (TokenManager.isTokenExpired token w) = Return true ->
  fst (TokenManager.isTokenExpired token w') = Return true.
Proof.
  intros Hle.
  destruct (isTokenExpired_expired_at token w) as (w1 & -> & _).
  destruct (isTokenExpired_expired_at token w') as (w2 & -> & _).
  cbn [fst]. intros [= H]. f_equal.
  exact (expired_at_mono token (now w) (now w') Hle H).
Qed.

(** X2 at the token with [exp] 1700000000, one and two milliseconds later. *)
Lemma X2_witness :
  fst (TokenManager.isTokenExpired token_exp_1700000000
         (world_of ∅ (clock_at 1700000000002) offline)) = Return true.
Proof.
  apply (X2_isTokenExpired_stays_expired token_exp_1700000000
           (world_of ∅ (clock_at 1700000000001) offline)
           (world_of ∅ (clock_at 1700000000002) offline)).
  - vm_compute. discriminate.
  - vm_compute. reflexivity.
Defined.

(** X3. [clearTokens] removes the four entries of the session and nothing
    else: every other entry of storage keeps its value; clearing twice is
    clearing once. *)
Theorem X3_clearTokens_frame (w : World) :
  fst (TokenManager.clearTokens w) = Return tt
  /\ session_empty (snd (TokenManager.clearTokens w))
  /\ (forall k, k ∉ session_keys ->
        localStorage (snd (TokenManager.clearTokens w)) !! k = localStorage w !! k)
  /\ localStorage (snd (TokenManager.clearTokens (snd (TokenManager.clearTokens w))))
     = localStorage (snd (TokenManager.clearTokens w)).
Proof.
  rewrite !clearTokens_eq. cbn [fst snd].
  split; [reflexivity|]. split; [apply session_empty_clear|].
  split; [intros k Hk; apply clear_session_other; exact Hk|].
  rewrite !clear_session_storage. apply cleared_idem.
Qed.

(** X4. The first-time-login marker round-trips: what [setFirstTimeLogin]
    stores, [getFirstTimeLogin] reads back; without a marker, as after
    [clearTokens], the answer is [false]. *)
Theorem X4_first_time_login_round_trip (b : bool) (w : World) :
  fst (TokenManager.getFirstTimeLogin (snd (TokenManager.setFirstTimeLogin b w)))
    = Return b
  /\ fst (TokenManager.getFirstTimeLogin (snd (TokenManager.clearTokens w)))
    = Return false.
Proof.
  split.
  - unfold TokenManager.getFirstTimeLogin, TokenManager.setFirstTimeLogin,
      getItem, setItem, bind, ret, with_storage. cbn [fst snd localStorage].
    rewrite lookup_insert_eq. destruct b; reflexivity.
  - rewrite clearTokens_eq.
    unfold TokenManager.getFirstTimeLogin, getItem, bind, ret. cbn [fst snd].
    rewrite clear_session_storage, cleared_lookup.
    case_bool_decide as Hk; [reflexivity|].
    exfalso. apply Hk. apply list_elem_of_In. simpl. tauto.
Qed.

(** ** Further properties of [HttpClient] *)

(** The choice of the headers leaves storage alone or clears the session. *)
Lemma auth_headers_storage (token : option jsstring)
    (headers : gmap jsstring jsstring) (w : World) :
  localStorage (snd (auth_headers token headers w)) = localStorage w \/
  localStorage (snd (auth_headers token headers w)) = cleared (localStorage w).
Proof.
  destruct (auth_headers_world token headers w) as (h & w1 & -> & _ & _ & _ & H).
  exact H.
Qed.

Lemma request_storage (endpoint : jsstring) (options : RequestInit) (w : World) :
  localStorage (snd (HttpClient.request endpoint options w)) = localStorage w \/
  localStorage (snd (HttpClient.request endpoint options w)) = cleared (localStorage w).
Proof.
  destruct (request_run endpoint options w) as (h & w1 & -> & Ha & _ & _).
  pose proof (auth_headers_storage (localStorage w !! TokenManager.TOKEN_KEY)
                (init_headers options ∪ HttpClient.defaultHeaders) w) as Hs.
  rewrite Ha in Hs. cbn [snd] in Hs.
  match goal with |- context [exchange ?req w1] =>
    destruct (exchange_world req w1) as [-> | ->] end.
  - exact Hs.
  - rewrite clear_session_storage. cbn [record_sent localStorage].
    destruct Hs as [-> | ->]; [right; reflexivity|].
    right. apply cleared_idem.
Qed.

(** X5. A request sends exactly one [fetch], to the base URL followed by
    the endpoint, with a signal that times out after 30000 milliseconds. *)
Theorem X5_request_sends_once (endpoint : jsstring) (options : RequestInit) (w : World) :
  exists req,
    sent (snd (HttpClient.request endpoint options w)) = req :: sent w
    /\ url req = API_CONFIG.BASE_URL w ++ endpoint
    /\ req_method req = method options
    /\ req_body req = init_body options
    /\ signal_timeout req = 30000.
Proof.
  destruct (request_run endpoint options w) as (h & w1 & -> & _ & _ & Hl).
  eexists. rewrite exchange_sent, Hl. repeat split; reflexivity.
Qed.

(** X6. A request never writes to storage: afterwards every entry outside
    the session has the value it had, and the session is either as it was
    or removed as a whole. *)
Theorem X6_request_never_writes (endpoint : jsstring) (options : RequestInit)
    (w : World) :
  (localStorage (snd (HttpClient.request endpoint options w)) = localStorage w
   \/ localStorage (snd (HttpClient.request endpoint options w))
      = cleared (localStorage w))
  /\ forall k, k ∉ session_keys ->
       localStorage (snd (HttpClient.request endpoint options w)) !! k
       = localStorage w !! k.
Proof.
  pose proof (request_storage endpoint options w) as H.
  split; [exact H|]. intros k Hk.
  destruct H as [-> | ->]; [reflexivity|].
  rewrite cleared_lookup. case_bool_decide; [contradiction | reflexivity].
Qed.

(** What the exchange returns, when it returns. *)
Lemma exchange_returns (req : Request) (w : World) (v : value) :
  fst (exchange req w) = Return v ->
  exists response data wrapped,
    network w req = Resolved response
    /\ ok response = true
    /\ body_value response = Return data
    /\ hasOwnProperty data (js "success") = Some wrapped
    /\ v = if wrapped then data
           else VObj [(js "success", VBool true); (js "data", data)].
Proof.
  unfold exchange, fetch. unfold_monad.
  destruct (network w req) as [response|t] eqn:Hn.
  2:{ rewrite on_error_eq. discriminate. }
  fold (record_sent req w). rewrite read_body_eq.
  destruct (body_value response) as [data|t] eqn:Hb.
  2:{ rewrite on_error_eq. discriminate. }
  destruct (status response =? 401).
  { rewrite clearTokens_eq, on_error_eq. discriminate. }
  destruct (ok response) eqn:Hok; cbn [negb].
  2:{ destruct (Get data (js "message")); [|rewrite on_error_eq; discriminate].
      match goal with |- context [ToString ?m] => destruct (ToString m) end;
        rewrite on_error_eq; discriminate. }
  destruct (hasOwnProperty data (js "success")) as [wrapped|] eqn:Hw.
  2:{ rewrite on_error_eq. discriminate. }
  destruct wrapped; cbn [negb fst]; intros H; inversion H; subst;
    eexists response, _, _; repeat split; eauto.
Qed.

Lemma hasOwnProperty_true (data : value) (k : jsstring) :
  hasOwnProperty data k = Some true ->
  exists props, data = VObj props /\ has_prop k props = true.
Proof.
  destruct data; try discriminate. unfold hasOwnProperty.
  destruct (has_prop (js "hasOwnProperty") props); [discriminate|].
  intros [= H]. eauto.
Qed.

(** X7. Whatever a request resolves to is an envelope: an object with a
    [success] property of its own.  The callers read [response.success]
    without a check, and this is what makes it safe. *)
Theorem X7_request_resolves_to_envelope (endpoint : jsstring) (options : RequestInit)
    (w : World) (v : value) :
  fst (HttpClient.request endpoint options w) = Return v ->
  exists props, v = VObj props /\ has_prop (js "success") props = true.
Proof.
  destruct (request_run endpoint options w) as (h & w1 & -> & _).
  intros H. apply exchange_returns in H.
  destruct H as (response & data & wrapped & _ & _ & _ & Hw & ->).
  destruct wrapped.
  - apply hasOwnProperty_true. exact Hw.
  - eexists. split; reflexivity.
Qed.

(** X7 at a 200 response whose body is a JSON array. *)
Lemma X7_witness :
  exists props,
    VObj [(js "success", VBool true); (js "data", VArr [VNum (Dec 1 0)])] = VObj props
    /\ has_prop (js "success") props = true.
Proof.
  apply (X7_request_resolves_to_envelope (js "/organisations")
           (mkRequestInit (Some (js "GET")) None ∅)
           (world_of ∅ (clock_at 1700000000000)
              (answering (mkResponse 200 (js "OK") (Some (js "application/json"))
                            (BodyText (js "[1]")))))).
  vm_compute. reflexivity.
Defined.

(** The result of a request that is answered with a success status. *)
Lemma exchange_ok (req : Request) (w : World) (response : Response)
    (data : value) (wrapped : bool) :
  network w req = Resolved response ->
  ok response = true ->
  body_value response = Return data ->
  hasOwnProperty data (js "success") = Some wrapped ->
  exchange req w =
    (Return (if wrapped then data
             else VObj [(js "success", VBool true); (js "data", data)]),
     record_sent req w).
Proof.
  intros Hn Hok Hb Hw. unfold exchange, fetch. unfold_monad. rewrite Hn.
  fold (record_sent req w). rewrite read_body_eq, Hb.
  assert (Hs : (status response =? 401) = false).
  { unfold ok in Hok. apply andb_true_iff in Hok as [_ H].
    apply N.leb_le in H. apply N.eqb_neq. lia. }
  rewrite Hs, Hok, Hw. cbn [negb]. destruct wrapped; reflexivity.
Qed.

(** X8. On a success status, a JSON body that has a [success] property of
    its own is returned as it is, and any other body is wrapped as
    [{success: true, data: body}]; a body that is not declared as JSON
    gives [{success: true, message: "Success"}]. *)
Theorem X8_request_success (endpoint : jsstring) (options : RequestInit)
    (w : World) (response : Response) (data : value) (wrapped : bool) :
  (forall req, network w req = Resolved response) ->
  ok response = true ->
  body_value response = Return data ->
  hasOwnProperty data (js "success") = Some wrapped ->
  fst (HttpClient.request endpoint options w)
    = Return (if wrapped then data
              else VObj [(js "success", VBool true); (js "data", data)])
  /\ (declares_json response = false ->
      fst (HttpClient.request endpoint options w)
        = Return (VObj [(js "success", VBool true);
                        (js "message", VStr (js "Success"))])).
Proof.
  intros Hn Hok Hb Hw.
  destruct (request_run endpoint options w) as (h & w1 & -> & _ & Hn1 & _).
  rewrite (exchange_ok _ w1 response data wrapped); auto.
  2:{ rewrite Hn1. apply Hn. }
  split; [reflexivity|]. intros Hj. cbn [fst].
  unfold body_value in Hb. rewrite Hj in Hb. injection Hb as <-.
  unfold HttpClient.plain_envelope in *. rewrite Hok in *.
  cbn in Hw. injection Hw as <-. reflexivity.
Qed.

(** X8 at a 200 response whose body is the JSON object [{"id":42}]. *)
Lemma X8_witness :
  fst (HttpClient.get (js "/organisations/42") None
         (world_of ∅ (clock_at 1700000000000)
            (answering (mkResponse 200 (js "OK") (Some (js "application/json"))
                          (BodyText (jsq "{'id':42}"))))))
  = Return (VObj [(js "success", VBool true);
                  (js "data", VObj [(js "id", VNum (Dec 42 0))])]).
Proof.
  apply (proj1 (X8_request_success (js "/organisations/42")
                  (mkRequestInit (Some (js "GET")) None ∅)
                  (world_of ∅ (clock_at 1700000000000)
                     (answering (mkResponse 200 (js "OK") (Some (js "application/json"))
                                   (BodyText (jsq "{'id':42}")))))
                  (mkResponse 200 (js "OK") (Some (js "application/json"))
                     (BodyText (jsq "{'id':42}")))
                  (VObj [(js "id", VNum (Dec 42 0))]) false
                  (fun req => eq_refl) eq_refl eq_refl eq_refl)).
Defined.

(** X9. When the stored token is not empty and is reported valid, the
    request carries [Authorization: Bearer <token>]; the header replaces
    one that the caller supplied, and the headers of the caller replace the
    default ones. *)
Theorem X9_request_attaches_valid_token (endpoint : jsstring) (options : RequestInit)
    (w : World) (c : N) (t : jsstring) :
  localStorage w !! TokenManager.TOKEN_KEY = Some (c :: t) ->
  expired_at (c :: t) (now w) = false ->
  exists req,
    sent (snd (HttpClient.request endpoint options w)) = req :: sent w
    /\ headers req !! HttpClient.AUTHORIZATION = Some (js "Bearer " ++ c :: t)
    /\ forall k, k <> HttpClient.AUTHORIZATION ->
         headers req !! k
         = match init_headers options !! k with
           | Some v => Some v
           | None => API_CONFIG.DEFAULT_HEADERS !! k
           end.
Proof.
  intros Ht Hv.
  destruct (request_with_valid_token endpoint options w c t Ht Hv) as (req & Hs & Hh).
  exists req. split; [exact Hs|]. rewrite Hh. split.
  - apply lookup_insert_eq.
  - intros k Hk. rewrite lookup_insert_ne by congruence.
    rewrite lookup_union. unfold HttpClient.defaultHeaders.
    destruct (init_headers options !! k), (API_CONFIG.DEFAULT_HEADERS !! k); reflexivity.
Qed.

(** X9 with the session of a login in storage, before the token expires. *)
Lemma X9_witness :
  exists req,
    sent (snd (HttpClient.request (js "/user") (mkRequestInit (Some (js "GET")) None ∅)
                 (world_of (stored_session token_exp_1700000000)
                           (clock_at 1600000000000) offline)))
      = req :: []
    /\ headers req !! HttpClient.AUTHORIZATION
       = Some (js "Bearer " ++ token_exp_1700000000).
Proof.
  destruct (X9_request_attaches_valid_token (js "/user")
              (mkRequestInit (Some (js "GET")) None ∅)
              (world_of (stored_session token_exp_1700000000)
                        (clock_at 1600000000000) offline)
              104 (js ".eyJleHAiOjE3MDAwMDAwMDB9.s"))
    as (req & Hs & Ha & _).
  - vm_compute. reflexivity.
  - vm_compute. reflexivity.
  - exists req. split; [exact Hs | exact Ha].
Defined.

(** The headers that [request] chooses differ from those it starts from in
    the Authorization header at most. *)
Lemma auth_headers_other (token : option jsstring)
    (headers : gmap jsstring jsstring) (w : World) (h : gmap jsstring jsstring)
    (w1 : World) (k : jsstring) :
  auth_headers token headers w = (Return h, w1) ->
  k <> HttpClient.AUTHORIZATION ->
  h !! k = headers !! k.
Proof.
  unfold auth_headers. destruct token as [[|c t]|]; try (intros [= <- _]; reflexivity).
  unfold_monad.
  destruct (isTokenExpired_expired_at (c :: t) w) as (w2 & -> & _).
  destruct (expired_at (c :: t) (now w)); cbn [negb].
  - destruct (isTokenExpired_expired_at (c :: t) w2) as (w3 & -> & _).
    destruct (expired_at (c :: t) (now w2)).
    + rewrite clearTokens_eq. intros [= <- _]. reflexivity.
    + intros [= <- _]. reflexivity.
  - intros [= <- _] Hk. apply lookup_insert_ne. congruence.
Qed.

(** X10. Without a stored token, and with the empty string in its place,
    the request goes out with the headers of the caller over the default
    ones, the clock is not read, and nothing is cleared before the request
    is sent. *)
Theorem X10_request_without_token (endpoint : jsstring) (options : RequestInit)
    (w : World) :
  localStorage w !! TokenManager.TOKEN_KEY = None \/
  localStorage w !! TokenManager.TOKEN_KEY = Some [] ->
  HttpClient.request endpoint options w
    = exchange (mkRequest (API_CONFIG.BASE_URL w ++ endpoint) (method options)
                  (init_body options)
                  (init_headers options ∪ API_CONFIG.DEFAULT_HEADERS)
                  API_CONFIG.TIMEOUT) w
  /\ reads (snd (HttpClient.request endpoint options w)) = reads w.
Proof.
  intros Ht.
  assert (H : HttpClient.request endpoint options w
              = exchange (mkRequest (API_CONFIG.BASE_URL w ++ endpoint) (method options)
                            (init_body options)
                            (init_headers options ∪ API_CONFIG.DEFAULT_HEADERS)
                            API_CONFIG.TIMEOUT) w).
  { destruct (request_run endpoint options w) as (h & w1 & -> & Ha & _).
    destruct Ht as [Ht|Ht]; rewrite Ht in Ha; injection Ha as <- <-; reflexivity. }
  split; [exact H|]. rewrite H.
  match goal with |- context [exchange ?req w] =>
    destruct (exchange_world req w) as [-> | ->] end; reflexivity.
Qed.

(** X10 with empty storage. *)
Lemma X10_witness :
  reads (snd (HttpClient.request (js "/user") (mkRequestInit (Some (js "GET")) None ∅)
                (world_of ∅ (clock_at 1600000000000) offline))) = 0%nat.
Proof.
  destruct (X10_request_without_token (js "/user")
              (mkRequestInit (Some (js "GET")) None ∅)
              (world_of ∅ (clock_at 1600000000000) offline)) as [_ H].
  - left. vm_compute. reflexivity.
  - exact H.
Defined.

(** X11. What the caller sees when [fetch] rejects: a value that is not an
    Error becomes [Error("Network error occurred")], an [AbortError]
    becomes [Error("Request timeout")], and every other Error, the
    TypeError of a network failure among them, is rethrown as it is. *)
Theorem X11_request_rejection
    (storage : gmap jsstring jsstring) (clk : nat -> Z) (n : nat)
    (base : option jsstring) (log : list Request)
    (endpoint : jsstring) (options : RequestInit) (v : value) :
  let run t :=
    fst (HttpClient.request endpoint options
           (mkWorld storage clk n base (fun _ => Rejected t) log)) in
  run (NotAnError v) = Throw (JsError (js "Network error occurred"))
  /\ run (JsDOMException (js "AbortError")) = Throw (JsError (js "Request timeout"))
  /\ run JsTypeError = Throw JsTypeError
  /\ forall m, run (JsError m) = Throw (JsError m).
Proof.
  cbv beta zeta.
  assert (H : forall t,
             fst (HttpClient.request endpoint options
                    (mkWorld storage clk n base (fun _ => Rejected t) log))
             = Throw (rethrown t)).
  { intros t.
    destruct (request_rejected endpoint options
                (mkWorld storage clk n base (fun _ => Rejected t) log) t)
      as (w' & ->); reflexivity. }
  rewrite !H. repeat split. intros m. rewrite H. reflexivity.
Qed.

(** The part of [upload] that follows the making of the form. *)
Lemma upload_send (endpoint : jsstring) (formData : list (jsstring * form_entry))
    (w : World) :
  exists req,
    sent (snd ((token <- TokenManager.getToken ;;
                headers <-
                  match token with
                  | Some (c :: t) =>
                      let token := c :: t in
                      expired <- TokenManager.isTokenExpired token ;;
                      if negb expired
                      then ret (<[HttpClient.AUTHORIZATION := HttpClient.bearer token]> ∅)
                      else ret ∅
                  | _ => ret ∅
                  end ;;
                HttpClient.request endpoint
                  (mkRequestInit (Some (js "POST")) (Some (FormData formData)) headers)) w))
      = req :: sent w
    /\ req_method req = Some (js "POST")
    /\ req_body req = Some (FormData formData)
    /\ headers req !! js "Content-Type" = Some (js "application/json").
Proof.
  assert (Hfin : forall (hs : gmap jsstring jsstring) w1,
             sent w1 = sent w -> hs !! js "Content-Type" = None ->
             exists req,
               sent (snd (HttpClient.request endpoint
                            (mkRequestInit (Some (js "POST")) (Some (FormData formData)) hs)
                            w1)) = req :: sent w
               /\ req_method req = Some (js "POST")
               /\ req_body req = Some (FormData formData)
               /\ headers req !! js "Content-Type" = Some (js "application/json")).
  { intros hs w1 Hl Hct.
    match goal with |- context [HttpClient.request endpoint ?o w1] =>
      destruct (request_run endpoint o w1) as (h & w2 & -> & Ha & _ & Hl2) end.
    eexists. rewrite exchange_sent, Hl2, Hl.
    split; [reflexivity|]. split; [reflexivity|]. split; [reflexivity|].
    cbn [headers].
    rewrite (auth_headers_other _ _ _ _ _ (js "Content-Type") Ha)
      by (vm_compute; discriminate).
    cbn [init_headers]. rewrite lookup_union, Hct. vm_compute. reflexivity. }
  unfold bind at 1. unfold TokenManager.getToken, getItem.
  unfold bind at 1.
  destruct (localStorage w !! TokenManager.TOKEN_KEY) as [[|c t]|];
    try (cbn [ret]; apply Hfin; [reflexivity | apply lookup_empty]).
  cbv zeta. unfold bind at 1.
  destruct (isTokenExpired_expired_at (c :: t) w) as (w2 & -> & _ & _ & Hl & _).
  destruct (expired_at (c :: t) (now w)); cbn [negb ret]; apply Hfin; try exact Hl.
  - apply lookup_empty.
  - rewrite lookup_insert_ne by (vm_compute; discriminate). apply lookup_empty.
Qed.

(** X12. [upload] sends the file as the first entry of a form, by POST,
    and the request still carries the default [Content-Type:
    application/json]: the header that announces a multipart body is never
    set.  A field that cannot be converted to a string stops the call
    before anything is sent. *)
Theorem X12_upload_request (endpoint : jsstring) (file : File)
    (additionalData : option (list (jsstring * value))) (w : World) :
  (fst (HttpClient.upload endpoint file additionalData w) = Throw JsTypeError
   /\ snd (HttpClient.upload endpoint file additionalData w) = w)
  \/ exists req extra,
       sent (snd (HttpClient.upload endpoint file additionalData w)) = req :: sent w
       /\ req_method req = Some (js "POST")
       /\ req_body req = Some (FormData ((js "file", FileEntry file) :: extra))
       /\ headers req !! js "Content-Type" = Some (js "application/json").
Proof.
  unfold HttpClient.upload. unfold bind at 1.
  destruct additionalData as [props|].
  - match goal with |- context [or_throw _ ?o] => destruct o as [extra|] end;
      cbn [or_throw ret throw].
    + right.
      destruct (upload_send endpoint ((js "file", FileEntry file) :: extra) w)
        as (req & H).
      exists req, extra. exact H.
    + left. split; reflexivity.
  - right. cbn [ret].
    destruct (upload_send endpoint [(js "file", FileEntry file)] w) as (req & H).
    exists req, []. exact H.
Qed.

(** ** Further properties of [AuthService] *)

Lemma error_of_eq {A} (message : value) (fallback : jsstring) (w : World) :
  (e <- AuthService.error_of message fallback ;; throw e) w
  = (Throw (envelope_error message fallback), w) :> outcome A * World.
Proof.
  unfold AuthService.error_of, envelope_error. unfold_monad.
  destruct (truthy message); [|reflexivity].
  destruct (ToString message); reflexivity.
Qed.

Lemma setUser_eq (user : value) (w : World) :
  TokenManager.setUser user w
  = (Return tt, with_storage (insert TokenManager.USER_KEY (user_text user)) w).
Proof. reflexivity. Qed.

(** X13. Without a stored refresh token, and with the empty string in its
    place, [refreshToken] fails with "No refresh token available" before
    any request is made, and the session is cleared. *)
Theorem X13_refreshToken_without_refresh_token (w : World) :
  localStorage w !! TokenManager.REFRESH_TOKEN_KEY = None \/
  localStorage w !! TokenManager.REFRESH_TOKEN_KEY = Some [] ->
  AuthService.refreshToken w
    = (Throw (JsError (js "No refresh token available")), clear_session w)
  /\ sent (snd (AuthService.refreshToken w)) = sent w
  /\ session_empty (snd (AuthService.refreshToken w)).
Proof.
  intros H.
  assert (E : AuthService.refreshToken w
              = (Throw (JsError (js "No refresh token available")), clear_session w)).
  { unfold AuthService.refreshToken, TokenManager.getRefreshToken, getItem.
    unfold try_catch, bind at 1.
    destruct H as [-> | ->]; cbn [throw]; unfold bind; rewrite clearTokens_eq;
      reflexivity. }
  rewrite E. split; [reflexivity|]. split; [reflexivity|]. apply session_empty_clear.
Qed.

(** X13 with a token in storage but no refresh token. *)
Lemma X13_witness :
  AuthService.refreshToken
      (world_of (<[TokenManager.TOKEN_KEY := token_exp_1700000000]> ∅)
                (clock_at 1600000000000) offline)
    = (Throw (JsError (js "No refresh token available")),
       clear_session
         (world_of (<[TokenManager.TOKEN_KEY := token_exp_1700000000]> ∅)
                   (clock_at 1600000000000) offline)).
Proof.
  destruct (X13_refreshToken_without_refresh_token
              (world_of (<[TokenManager.TOKEN_KEY := token_exp_1700000000]> ∅)
                        (clock_at 1600000000000) offline)) as [H _].
  - left. vm_compute. reflexivity.
  - exact H.
Defined.

(** X14. A failed [refreshToken] leaves no session behind, whatever made it
    fail. *)
Theorem X14_refreshToken_failure_clears (w w' : World) (t : thrown) :
  AuthService.refreshToken w = (Throw t, w') -> session_empty w'.
Proof.
  unfold AuthService.refreshToken. unfold try_catch at 1.
  match goal with |- context [match ?m w with _ => _ end] =>
    destruct (m w) as [[v|t0] w1] end.
  - discriminate.
  - unfold bind. rewrite clearTokens_eq. intros [= _ <-]. apply session_empty_clear.
Qed.

(** X14 with a session in storage and the network down. *)
Lemma X14_witness : session_empty (snd (AuthService.refreshToken world_offline)).
Proof.
  apply (X14_refreshToken_failure_clears world_offline
           (snd (AuthService.refreshToken world_offline)) JsTypeError).
  vm_compute. reflexivity.
Defined.

(** X15. On an envelope with [success] and [data], [refreshToken] stores
    the string forms of [data.token] and [data.refreshToken] and the JSON
    text of [data.user] as they come, without checking that they are
    present, and leaves the first-time-login marker alone. *)
Theorem X15_refreshToken_success
    (w w1 : World) (c : N) (t : jsstring)
    (response success data token newRefreshToken user : value)
    (tokenText refreshText : jsstring) :
  localStorage w !! TokenManager.REFRESH_TOKEN_KEY = Some (c :: t) ->
  HttpClient.post (js "/token/refresh") (VObj [(js "refresh_token", VStr (c :: t))]) w
    = (Return response, w1) ->
  Get response (js "success") = Some success -> truthy success = true ->
  Get response (js "data") = Some data -> truthy data = true ->
  Get data (js "token") = Some token -> ToString token = Some tokenText ->
  Get data (js "refreshToken") = Some newRefreshToken ->
  ToString newRefreshToken = Some refreshText ->
  Get data (js "user") = Some user ->
  AuthService.refreshToken w
    = (Return data,
       with_storage
         (fun m => <[TokenManager.USER_KEY := user_text user]>
                     (<[TokenManager.REFRESH_TOKEN_KEY := refreshText]>
                        (<[TokenManager.TOKEN_KEY := tokenText]> m))) w1).
Proof.
  intros Hr Hp Hs Hts Hd Htd Ht Htt Hn Hnt Hu.
  unfold AuthService.refreshToken, TokenManager.getRefreshToken, getItem.
  unfold try_catch, bind at 1. rewrite Hr.
  unfold bind at 1. rewrite Hp.
  unfold bind at 1. rewrite Hs. cbn [or_throw ret].
  unfold bind at 1. rewrite Hd. cbn [or_throw ret].
  rewrite Hts, Htd. cbn [andb].
  unfold bind at 1. rewrite Ht. cbn [or_throw ret].
  unfold TokenManager.setToken, TokenManager.setRefreshToken.
  unfold bind at 1. unfold bind at 1. rewrite Htt. cbn [or_throw ret setItem].
  unfold bind at 1. rewrite Hn. cbn [or_throw ret].
  unfold bind at 1. unfold bind at 1. rewrite Hnt. cbn [or_throw ret setItem].
  unfold bind at 1. rewrite Hu. cbn [or_throw ret].
  unfold bind at 1. rewrite setUser_eq. reflexivity.
Qed.

(** X15 at a response whose data has no token: the string ["undefined"]
    becomes the stored token and the stored refresh token. *)
Lemma X15_witness :
  localStorage (snd (AuthService.refreshToken world_refresh_without_token))
    !! TokenManager.TOKEN_KEY = Some (js "undefined")
  /\ localStorage (snd (AuthService.refreshToken world_refresh_without_token))
    !! TokenManager.REFRESH_TOKEN_KEY = Some (js "undefined").
Proof.
  rewrite (X15_refreshToken_success world_refresh_without_token
             (snd (HttpClient.post (js "/token/refresh")
                     (VObj [(js "refresh_token", VStr (js "r1"))])
                     world_refresh_without_token))
             114 (js "1")
             (VObj [(js "success", VBool true);
                    (js "data", VObj [(js "user", VObj [(js "id", VNum (Dec 7 0))])])])
             (VBool true)
             (VObj [(js "user", VObj [(js "id", VNum (Dec 7 0))])])
             VUndefined VUndefined (VObj [(js "id", VNum (Dec 7 0))])
             (js "undefined") (js "undefined"));
    try (vm_compute; reflexivity).
  split; vm_compute; reflexivity.
Defined.

(** [getCurrentUser] answers from storage when a user is cached there:
    no request is made and nothing changes, so a stale copy is never
    refreshed by this call. *)
Lemma getCurrentUser_cached (w : World) (user : value) :
  TokenManager.getUser w = (Return user, w) ->
  truthy user = true ->
  AuthService.getCurrentUser w = (Return user, w).
Proof.
  intros Hu Ht. unfold AuthService.getCurrentUser, try_catch, bind.
  rewrite Hu, Ht. reflexivity.
Qed.

(** The shape shared by the operations that store the data of a successful
    envelope as the cached user. *)
Lemma store_user_data (response : value) (fallback : jsstring) (w : World) :
  (success <- or_throw JsTypeError (Get response (js "success")) ;;
   data <- or_throw JsTypeError (Get response (js "data")) ;;
   if truthy success && truthy data then TokenManager.setUser data ;;; ret data
   else
     message <- or_throw JsTypeError (Get response (js "message")) ;;
     e <- AuthService.error_of message fallback ;;
     throw e) w
  = match Get response (js "success"), Get response (js "data"),
          Get response (js "message") with
    | Some success, Some data, Some message =>
        if truthy success && truthy data then
          (Return data,
           with_storage (insert TokenManager.USER_KEY (user_text data)) w)
        else (Throw (envelope_error message fallback), w)
    | _, _, _ => (Throw JsTypeError, w)
    end.
Proof.
  unfold bind at 1.
  destruct response; cbn [Get or_throw ret throw]; try reflexivity.
  all: unfold bind at 1; cbn [or_throw ret].
  all: match goal with |- context [if ?b then _ else _] => destruct b end.
  all: try (unfold bind at 1; cbn [or_throw ret]; apply error_of_eq).
  all: unfold bind; rewrite setUser_eq; reflexivity.
Qed.

(** X16. Without a cached user, [getCurrentUser] asks the server; the data
    of an envelope with [success] and [data] is returned and becomes the
    cached user, and any other envelope is an error that leaves storage as
    the request left it. *)
Theorem X16_getCurrentUser_fetch
    (w w1 : World) (user response success data message : value) :
  TokenManager.getUser w = (Return user, w) ->
  truthy user = false ->
  HttpClient.get (js "/user") None w = (Return response, w1) ->
  Get response (js "success") = Some success ->
  Get response (js "data") = Some data ->
  Get response (js "message") = Some message ->
  AuthService.getCurrentUser w
  = if truthy success && truthy data then
      (Return data, with_storage (insert TokenManager.USER_KEY (user_text data)) w1)
    else (Throw (envelope_error message (js "Failed to get user profile")), w1).
Proof.
  intros Hu Ht Hg Hs Hd Hm.
  unfold AuthService.getCurrentUser. unfold try_catch, bind at 1.
  rewrite Hu, Ht. unfold bind at 1. rewrite Hg.
  rewrite store_user_data, Hs, Hd, Hm.
  destruct (truthy success && truthy data); reflexivity.
Qed.

(** X16 with empty storage and a server that answers with a user. *)
Lemma X16_witness :
  localStorage (snd (AuthService.getCurrentUser world_user_response))
    !! TokenManager.USER_KEY = Some (jsq "{'id':7,'name':'Ann Lee'}").
Proof.
  rewrite (X16_getCurrentUser_fetch world_user_response
             (snd (HttpClient.get (js "/user") None world_user_response))
             VNull
             (VObj [(js "success", VBool true);
                    (js "data", VObj [(js "id", VNum (Dec 7 0));
                                      (js "name", VStr (js "Ann Lee"))])])
             (VBool true)
             (VObj [(js "id", VNum (Dec 7 0)); (js "name", VStr (js "Ann Lee"))])
             VUndefined);
    vm_compute; reflexivity.
Defined.

(** X17. [updateProfile] and [uploadAvatar] replace the cached user by the
    data of a successful envelope, and leave storage as the request left it
    on any other envelope. *)
Theorem X17_profile_updates_refresh_cache
    (w w1 : World) (input : value) (file : File)
    (response success data message : value) :
  Get response (js "success") = Some success ->
  Get response (js "data") = Some data ->
  Get response (js "message") = Some message ->
  (HttpClient.put (js "/user/profile") input w = (Return response, w1) ->
   AuthService.updateProfile input w
   = if truthy success && truthy data then
       (Return data, with_storage (insert TokenManager.USER_KEY (user_text data)) w1)
     else (Throw (envelope_error message (js "Failed to update profile")), w1))
  /\
  (HttpClient.upload (js "/user/avatar") file None w = (Return response, w1) ->
   AuthService.uploadAvatar file w
   = if truthy success && truthy data then
       (Return data, with_storage (insert TokenManager.USER_KEY (user_text data)) w1)
     else (Throw (envelope_error message (js "Failed to upload avatar")), w1)).
Proof.
  intros Hs Hd Hm. split; intros Hr.
  - unfold AuthService.updateProfile. unfold try_catch, bind at 1. rewrite Hr.
    rewrite store_user_data, Hs, Hd, Hm.
    destruct (truthy success && truthy data); reflexivity.
  - unfold AuthService.uploadAvatar. unfold try_catch, bind at 1. rewrite Hr.
    rewrite store_user_data, Hs, Hd, Hm.
    destruct (truthy success && truthy data); reflexivity.
Qed.

(** X17 with a server that answers with the updated user. *)
Lemma X17_witness :
  localStorage (snd (AuthService.updateProfile
                       (VObj [(js "name", VStr (js "Ann Lee"))]) world_user_response))
    !! TokenManager.USER_KEY = Some (jsq "{'id':7,'name':'Ann Lee'}").
Proof.
  rewrite (proj1 (X17_profile_updates_refresh_cache world_user_response
             (snd (HttpClient.put (js "/user/profile")
                     (VObj [(js "name", VStr (js "Ann Lee"))]) world_user_response))
             (VObj [(js "name", VStr (js "Ann Lee"))]) avatar
             (VObj [(js "success", VBool true);
                    (js "data", VObj [(js "id", VNum (Dec 7 0));
                                      (js "name", VStr (js "Ann Lee"))])])
             (VBool true)
             (VObj [(js "id", VNum (Dec 7 0)); (js "name", VStr (js "Ann Lee"))])
             VUndefined eq_refl eq_refl eq_refl));
    vm_compute; reflexivity.
Defined.

Lemma post_sent (endpoint : jsstring) (data : value) (w : World) :
  exists req,
    sent (snd (HttpClient.post endpoint data w)) = req :: sent w
    /\ url req = API_CONFIG.BASE_URL w ++ endpoint
    /\ req_method req = Some (js "POST").
Proof.
  unfold HttpClient.post.
  destruct (request_run endpoint
              (mkRequestInit (Some (js "POST")) (HttpClient.json_body data) ∅) w)
    as (h & w1 & -> & _ & _ & Hl).
  eexists. rewrite exchange_sent, Hl. repeat split; reflexivity.
Qed.

(** An operation that posts and checks the envelope leaves the world as
    the request left it. *)
Lemma post_and_check_world (endpoint : jsstring) (data : value)
    (fallback : jsstring) (w : World) :
  snd (AuthService.post_and_check endpoint data fallback w)
  = snd (HttpClient.post endpoint data w).
Proof.
  unfold AuthService.post_and_check. unfold try_catch, bind at 1.
  destruct (HttpClient.post endpoint data w) as [[response|t] w1]; [|reflexivity].
  unfold bind at 1.
  destruct (Get response (js "success")) as [success|]; cbn [or_throw ret throw];
    [|reflexivity].
  destruct (truthy success); cbn [negb]; [reflexivity|].
  unfold bind at 1.
  destruct (Get response (js "message")) as [message|]; cbn [or_throw ret throw];
    [|reflexivity].
  rewrite error_of_eq. reflexivity.
Qed.

(** [requestPasswordReset] on [data] that has properties. *)
Lemma requestPasswordReset_eq (data email : value) (w : World) :
  Get data (js "email") = Some email ->
  AuthService.requestPasswordReset data w
  = AuthService.post_and_check (js "/password/forgot") data
                               (js "Failed to request password reset") w.
Proof.
  intros He. unfold AuthService.requestPasswordReset, AuthService.post_and_check.
  unfold try_catch. unfold bind at 1. rewrite He. reflexivity.
Qed.

(** X18. [changePassword], [resetPassword], [verifyEmail] and
    [resendEmailVerification] send one POST each and never write to storage:
    afterwards the session is as it was, or removed as a whole by the
    request.  So does [requestPasswordReset], except that on [null] and
    [undefined] it throws a TypeError before anything is sent. *)
Theorem X18_single_request_operations (input : value) (w : World) :
  let one_post (op : M unit) :=
    (exists req, sent (snd (op w)) = req :: sent w
                 /\ req_method req = Some (js "POST"))
    /\ (localStorage (snd (op w)) = localStorage w
        \/ localStorage (snd (op w)) = cleared (localStorage w)) in
  Forall one_post
    [AuthService.changePassword input; AuthService.resetPassword input;
     AuthService.verifyEmail input; AuthService.resendEmailVerification]
  /\ match Get input (js "email") with
     | Some _ => one_post (AuthService.requestPasswordReset input)
     | None => AuthService.requestPasswordReset input w = (Throw JsTypeError, w)
     end.
Proof.
  assert (H : forall endpoint data fallback,
             (exists req,
                 sent (snd (AuthService.post_and_check endpoint data fallback w))
                 = req :: sent w /\ req_method req = Some (js "POST"))
             /\ (localStorage (snd (AuthService.post_and_check endpoint data fallback w))
                 = localStorage w
                 \/ localStorage (snd (AuthService.post_and_check endpoint data fallback w))
                    = cleared (localStorage w))).
  { intros endpoint data fallback. rewrite post_and_check_world. split.
    - destruct (post_sent endpoint data w) as (req & Hs & _ & Hm). eauto.
    - apply request_storage. }
  cbv zeta. split.
  - repeat (apply List.Forall_cons; [apply H|]). apply List.Forall_nil.
  - destruct (Get input (js "email")) as [email|] eqn:He.
    + rewrite (requestPasswordReset_eq input email w He). apply H.
    + unfold AuthService.requestPasswordReset, try_catch. unfold bind at 1.
      rewrite He. reflexivity.
Qed.

(** What such an operation answers. *)
Lemma post_and_check_result (endpoint : jsstring) (data : value)
    (fallback : jsstring) (w w1 : World) (response success message : value) :
  HttpClient.post endpoint data w = (Return response, w1) ->
  Get response (js "success") = Some success ->
  Get response (js "message") = Some message ->
  AuthService.post_and_check endpoint data fallback w
  = (if truthy success then Return tt else Throw (envelope_error message fallback), w1).
Proof.
  intros Hp Hs Hm. unfold AuthService.post_and_check. unfold try_catch, bind at 1.
  rewrite Hp. unfold bind at 1. rewrite Hs. cbn [or_throw ret].
  destruct (truthy success); cbn [negb]; [reflexivity|].
  unfold bind at 1. rewrite Hm. cbn [or_throw ret]. rewrite error_of_eq. reflexivity.
Qed.

(** [changePassword] returns normally exactly when the envelope
    reports success; otherwise it throws an error that carries the message
    of the envelope, or "Failed to change password" when the envelope has
    none.  An error of the request itself passes through. *)
Lemma changePassword_result
    (passwordData : value) (w w1 : World) (response success message : value) :
  HttpClient.post (js "/user/change-password") passwordData w = (Return response, w1) ->
  Get response (js "success") = Some success ->
  Get response (js "message") = Some message ->
  AuthService.changePassword passwordData w
  = (if truthy success then Return tt
     else Throw (envelope_error message (js "Failed to change password")), w1).
Proof.
  intros Hp Hs Hm.
  exact (post_and_check_result _ _ _ w w1 response success message Hp Hs Hm).
Qed.

(** X19. [isAuthenticated] holds exactly when a token is stored and is not
    reported expired.  It makes no request, and it leaves an expired
    session in storage. *)
Theorem X19_isAuthenticated (w : World) :
  fst (AuthService.isAuthenticated w)
    = Return (match localStorage w !! TokenManager.TOKEN_KEY with
              | Some token => negb (expired_at token (now w))
              | None => false
              end)
  /\ sent (snd (AuthService.isAuthenticated w)) = sent w
  /\ localStorage (snd (AuthService.isAuthenticated w)) = localStorage w.
Proof.
  unfold AuthService.isAuthenticated, TokenManager.getToken, getItem, bind.
  destruct (localStorage w !! TokenManager.TOKEN_KEY) as [token|];
    [|repeat split; reflexivity].
  destruct (isTokenExpired_expired_at token w) as (w1 & -> & Hs & _ & Hl & _).
  repeat split; assumption.
Qed.

(** X20. The display name is never empty: [getUserDisplayName] answers the
    name of the stored user, or else the email, or else ["User"], and what
    it answers is always truthy. *)
Theorem X20_getUserDisplayName_truthy (w : World) (v : value) :
  fst (AuthService.getUserDisplayName w) = Return v -> truthy v = true.
Proof.
  unfold AuthService.getUserDisplayName, AuthService.getStoredUser.
  unfold bind at 1.
  destruct (TokenManager.getUser w) as [[user|t] w1]; [|discriminate].
  destruct (truthy user) eqn:Hu; cbn [negb].
  2:{ intros [= <-]. reflexivity. }
  unfold bind at 1.
  destruct (Get user (js "name")) as [name|]; cbn [or_throw ret throw]; [|discriminate].
  destruct (truthy name) eqn:Hn.
  { intros [= <-]. exact Hn. }
  unfold bind at 1.
  destruct (Get user (js "email")) as [email|]; cbn [or_throw ret throw]; [|discriminate].
  destruct (truthy email) eqn:He; intros [= <-]; [exact He | reflexivity].
Qed.

(** X20 with a stored user that has no name and no email. *)
Lemma X20_witness : truthy (VStr (js "User")) = true.
Proof.
  apply (X20_getUserDisplayName_truthy world_offline (VStr (js "User"))).
  vm_compute. reflexivity.
Defined.

(** X21. The initials of a user with a name are at most two code units,
    whatever the case mapping of [toUpperCase]; without a stored user they
    are ["U"]; and a stored user with neither a name nor an email that is
    a string makes [getUserInitials] throw a TypeError. *)
Theorem X21_getUserInitials
    (toUpperCase : jsstring -> jsstring) (w : World) (user : value) :
  TokenManager.getUser w = (Return user, w) ->
  (truthy user = false ->
   AuthService.getUserInitials toUpperCase w = (Return (js "U"), w))
  /\ (forall c s, truthy user = true -> Get user (js "name") = Some (VStr (c :: s)) ->
      exists initials,
        AuthService.getUserInitials toUpperCase w = (Return initials, w)
        /\ (length initials <= 2)%nat)
  /\ (forall name email,
        truthy user = true ->
        Get user (js "name") = Some name -> truthy name = false ->
        Get user (js "email") = Some email -> (forall s, email <> VStr s) ->
        AuthService.getUserInitials toUpperCase w = (Throw JsTypeError, w)).
Proof.
  intros Hu. unfold AuthService.getUserInitials, AuthService.getStoredUser.
  repeat split.
  - intros Ht. unfold bind at 1. rewrite Hu, Ht. reflexivity.
  - intros c s Ht Hn. unfold bind at 1. rewrite Hu, Ht. cbn [negb].
    unfold bind at 1. rewrite Hn.
    cbn [or_throw ret truthy]. eexists. split; [reflexivity|].
    rewrite length_take. lia.
  - intros name email Ht Hn Hfn He Hne. unfold bind at 1. rewrite Hu, Ht. cbn [negb].
    unfold bind at 1. rewrite Hn.
    cbn [or_throw ret]. rewrite Hfn. unfold bind at 1. rewrite He.
    cbn [or_throw ret]. destruct email; try reflexivity. destruct (Hne s eq_refl).
Qed.

(** X21 with the user that a login stored, who has an identifier and an
    organisation but no name and no email. *)
Lemma X21_witness :
  AuthService.getUserInitials ascii_upper world_offline = (Throw JsTypeError, world_offline).
Proof.
  apply (proj2 (proj2 (X21_getUserInitials ascii_upper world_offline
           (VObj [(js "id", VNum (Dec 7 0)); (js "organisation_id", VNum (Dec 42 0))])
           ltac:(vm_compute; reflexivity)))
           VUndefined VUndefined); try reflexivity.
  intros s. discriminate.
Defined.

(** ** [URLSearchParams] and [OrganizationService] *)

Lemma urlencode_byte_no_delimiter (b : N) :
  Forall (fun c => is_url_delimiter c = false) (urlencode_byte b).
Proof.
  unfold urlencode_byte.
  destruct (is_url_safe b) eqn:Hs.
  - apply List.Forall_cons; [|apply List.Forall_nil].
    unfold is_url_safe in Hs. unfold is_url_delimiter.
    repeat match goal with |- context [?x =? ?y] => destruct (N.eqb_spec x y) end;
      try reflexivity; subst b; vm_compute in Hs; discriminate.
  - destruct (b =? 32); [repeat constructor|].
    assert (Hd : forall d, is_url_delimiter (upper_hex_digit d) = false).
    { intros d. unfold upper_hex_digit, is_url_delimiter.
      destruct (N.ltb_spec d 10);
        repeat match goal with |- context [?x =? ?y] => destruct (N.eqb_spec x y) end;
        try reflexivity; lia. }
    repeat (apply List.Forall_cons; [first [apply Hd | reflexivity]|]).
    apply List.Forall_nil.
Qed.

Lemma urlencode_no_delimiter (s : jsstring) :
  Forall (fun c => is_url_delimiter c = false) (urlencode s).
Proof.
  unfold urlencode. induction (flat_map utf8_encode (scalar_values s)) as [|b l IH].
  - apply List.Forall_nil.
  - cbn [flat_map]. apply Forall_app. split; [apply urlencode_byte_no_delimiter | exact IH].
Qed.

Lemma get_sent (endpoint : jsstring) (params : option jsstring) (w : World) :
  exists req,
    sent (snd (HttpClient.get endpoint params w)) = req :: sent w
    /\ url req = API_CONFIG.BASE_URL w
                 ++ match params with
                    | Some q => endpoint ++ [63] ++ q
                    | None => endpoint
                    end
    /\ req_method req = Some (js "GET")
    /\ req_body req = None.
Proof.
  unfold HttpClient.get.
  match goal with |- context [HttpClient.request ?e ?o w] =>
    destruct (request_run e o w) as (h & w1 & -> & _ & _ & Hl) end.
  eexists. rewrite exchange_sent, Hl. repeat split; reflexivity.
Qed.

Lemma data_or_throw_eq (response : value) (fallback : jsstring) (w : World) :
  OrganizationService.data_or_throw response fallback w
  = (match Get response (js "success"), Get response (js "data"),
           Get response (js "message") with
     | Some success, Some data, Some message =>
         if truthy success && truthy data then Return data
         else Throw (envelope_error message fallback)
     | _, _, _ => Throw JsTypeError
     end, w).
Proof.
  unfold OrganizationService.data_or_throw.
  unfold bind at 1.
  destruct response; cbn [Get or_throw ret throw]; try reflexivity;
    unfold bind at 1; cbn [or_throw ret throw];
    (destruct (_ && _); [reflexivity|]);
    unfold bind at 1; cbn [or_throw ret throw]; apply error_of_eq.
Qed.

Lemma rethrow_eq {A} (m : M A) (w : World) :
  try_catch m (fun error => throw error) w = m w.
Proof. unfold try_catch, throw. destruct (m w) as [[a|t] w1]; reflexivity. Qed.

Lemma search_query_text (query limit : jsstring) :
  URLSearchParams_toString [(js "q", VStr query); (js "limit", VStr limit)]
  = Some (js "q=" ++ urlencode query ++ js "&limit=" ++ urlencode limit).
Proof. reflexivity. Qed.

(** X22. [searchOrganizations] sends one GET without a body whose URL is
    the search endpoint with exactly the two parameters [q] and [limit]
    (10 when no limit is given): the query is percent-encoded, so no text in
    it can end the parameter, start another one or reach another part of
    the URL. *)
Theorem X22_searchOrganizations_url
    (query : jsstring) (limit : option number) (w : World) :
  exists req,
    sent (snd (OrganizationService.searchOrganizations query limit w)) = req :: sent w
    /\ req_method req = Some (js "GET")
    /\ req_body req = None
    /\ url req = API_CONFIG.BASE_URL w ++ js "/organisations/search?q="
                 ++ urlencode query ++ js "&limit="
                 ++ urlencode (num_to_string (match limit with
                                              | Some n => n
                                              | None => Dec 10 0
                                              end))
    /\ Forall (fun c => is_url_delimiter c = false) (urlencode query).
Proof.
  unfold OrganizationService.searchOrganizations. rewrite rethrow_eq.
  cbv zeta. unfold bind at 1. rewrite search_query_text. cbn [or_throw ret].
  unfold bind at 1.
  match goal with |- context [HttpClient.get ?e ?p w] =>
    destruct (get_sent e p w) as (req & Hs & Hu & Hm & Hb);
    destruct (HttpClient.get e p w) as [[response|t] w1] end;
    cbn [snd] in Hs |- *.
  - rewrite data_or_throw_eq. cbn [snd]. exists req. rewrite Hu.
    repeat split; auto using urlencode_no_delimiter.
  - exists req. rewrite Hu. repeat split; auto using urlencode_no_delimiter.
Qed.

Lemma getCurrentUserOrganization_run (w : World) :
  exists v,
    OrganizationService.getCurrentUserOrganization w
    = (Return v, snd (HttpClient.get (js "/user/organisation") None w))
    /\ (v = VNull \/ truthy v = true).
Proof.
  unfold OrganizationService.getCurrentUserOrganization.
  unfold try_catch, bind at 1.
  destruct (HttpClient.get (js "/user/organisation") None w) as [[response|t] w1];
    cbn [snd]; [|exists VNull; auto].
  unfold bind at 1.
  destruct (Get response (js "success")) as [success|]; cbn [or_throw ret throw];
    [|exists VNull; auto].
  unfold bind at 1.
  destruct (Get response (js "data")) as [data|]; cbn [or_throw ret throw];
    [|exists VNull; auto].
  destruct (truthy success); cbn [andb]; [|exists VNull; auto].
  destruct (truthy data) eqn:Hd; [exists data; auto | exists VNull; auto].
Qed.

(** X23. [getCurrentUserOrganization] never throws: it sends one GET and
    answers the data of a successful envelope, and [null] in every other
    case, a failed request included. *)
Theorem X23_getCurrentUserOrganization_total (w : World) :
  (exists v,
      fst (OrganizationService.getCurrentUserOrganization w) = Return v
      /\ (v = VNull \/ truthy v = true))
  /\ (exists req,
         sent (snd (OrganizationService.getCurrentUserOrganization w)) = req :: sent w
         /\ url req = API_CONFIG.BASE_URL w ++ js "/user/organisation"
         /\ req_method req = Some (js "GET")).
Proof.
  destruct (getCurrentUserOrganization_run w) as (v & -> & Hv).
  split; [exists v; auto|].
  destruct (get_sent (js "/user/organisation") None w) as (req & Hs & Hu & Hm & _).
  exists req. auto.
Qed.

(** A result of [data_or_throw] is truthy. *)
Lemma data_or_throw_truthy (response : value) (fallback : jsstring)
    (w : World) (v : value) :
  fst (OrganizationService.data_or_throw response fallback w) = Return v ->
  truthy v = true.
Proof.
  rewrite data_or_throw_eq. cbn [fst].
  destruct (Get response (js "success")) as [success|]; [|discriminate].
  destruct (Get response (js "data")) as [data|]; [|discriminate].
  destruct (Get response (js "message")) as [message|]; [|discriminate].
  destruct (truthy success); cbn [andb]; [|discriminate].
  destruct (truthy data) eqn:Hd; [|discriminate].
  intros [= <-]. exact Hd.
Qed.

Lemma then_data_or_throw_truthy (m : M value) (fallback : jsstring)
    (w : World) (v : value) :
  fst (try_catch (response <- m ;; OrganizationService.data_or_throw response fallback)
                 (fun error => throw error) w) = Return v ->
  truthy v = true.
Proof.
  rewrite rethrow_eq. unfold bind at 1.
  destruct (m w) as [[response|t] w1]; [|discriminate].
  apply data_or_throw_truthy.
Qed.

(** X24. [getOrganization], [createOrganization], [updateOrganization] and
    [searchOrganizations] never resolve to a falsy value: an envelope that
    reports success but carries no data makes them throw. *)
Theorem X24_organization_results_truthy
    (id : number) (organizationData : value) (query : jsstring)
    (limit : option number) (op : M value) (w : World) (v : value) :
  In op [OrganizationService.getOrganization id;
         OrganizationService.createOrganization organizationData;
         OrganizationService.updateOrganization id organizationData;
         OrganizationService.searchOrganizations query limit] ->
  fst (op w) = Return v ->
  truthy v = true.
Proof.
  intros Hin.
  repeat (destruct Hin as [<- | Hin]; [apply then_data_or_throw_truthy|]).
  destruct Hin.
Qed.

(** X24 for a search that is answered with a user. *)
Lemma X24_witness :
  truthy (VObj [(js "id", VNum (Dec 7 0)); (js "name", VStr (js "Ann Lee"))]) = true.
Proof.
  apply (X24_organization_results_truthy (Dec 1 0) VNull (js "ann") None
           (OrganizationService.searchOrganizations (js "ann") None)
           world_user_response).
  - right. right. right. left. reflexivity.
  - vm_compute. reflexivity.
Defined.

Lemma getOrganizations_without_filters (p l : number) :
  OrganizationService.getOrganizations (VNum p) (VNum l) VUndefined
  = try_catch
      (response <- HttpClient.get (js "/organisations")
                     (Some (js "page=" ++ urlencode (num_to_string p)
                            ++ js "&limit=" ++ urlencode (num_to_string l))) ;;
       success <- or_throw JsTypeError (Get response (js "success")) ;;
       if truthy success then ret response
       else
         message <- or_throw JsTypeError (Get response (js "message")) ;;
         e <- AuthService.error_of message (js "Failed to fetch organizations") ;;
         throw e)
      (fun error => throw error).
Proof. reflexivity. Qed.

(** X25. Without filters [getOrganizations] sends one GET whose query has
    exactly the parameters [page] and [limit], written as the numbers
    print; when they are left out, the page is 1 and the limit is 20. *)
Theorem X25_getOrganizations_query (w : World) :
  (forall p l : number,
      exists req,
        sent (snd (OrganizationService.getOrganizations (VNum p) (VNum l) VUndefined w))
        = req :: sent w
        /\ req_method req = Some (js "GET")
        /\ url req = API_CONFIG.BASE_URL w ++ js "/organisations?page="
                     ++ urlencode (num_to_string p) ++ js "&limit="
                     ++ urlencode (num_to_string l))
  /\ OrganizationService.getOrganizations VUndefined VUndefined VUndefined w
     = OrganizationService.getOrganizations (VNum (Dec 1 0)) (VNum (Dec 20 0)) VUndefined w.
Proof.
  split; [|reflexivity]. intros p l.
  rewrite getOrganizations_without_filters, rethrow_eq.
  unfold bind at 1.
  match goal with |- context [HttpClient.get ?e ?q w] =>
    destruct (get_sent e q w) as (req & Hs & Hu & Hm & _);
    destruct (HttpClient.get e q w) as [[response|t] w1] end;
    cbn [snd] in Hs.
  - exists req. rewrite Hu. split; [|split; [exact Hm | reflexivity]].
    unfold bind at 1.
    destruct (Get response (js "success")) as [success|]; cbn [or_throw ret throw];
      [|exact Hs].
    destruct (truthy success); [exact Hs|].
    unfold bind at 1.
    destruct (Get response (js "message")) as [message|]; cbn [or_throw ret throw];
      [|exact Hs].
    rewrite error_of_eq. exact Hs.
  - exists req. rewrite Hu. split; [exact Hs | split; [exact Hm | reflexivity]].
Qed.

(** ** [apiUtils.formatParams] *)

Lemma insert_by_index_In {A} (i : N) (x : A) (l : list (N * A)) (q : N * A) :
  In q (insert_by_index i x l) <-> q = (i, x) \/ In q l.
Proof.
  induction l as [|[j y] l IH]; cbn [insert_by_index In].
  - intuition.
  - destruct (i <? j); cbn [In]; [intuition|]. rewrite IH. intuition.
Qed.

(** The keys of an object are visited once each: the visit is a
    rearrangement of the properties. *)
Lemma ordered_props_In {A} (props : list (jsstring * A)) (p : jsstring * A) :
  In p (ordered_props props) <-> In p props.
Proof.
  unfold ordered_props. rewrite in_app_iff, filter_In, in_map_iff.
  assert (H : forall acc q,
             In q (fold_left (fun acc p => match array_index (fst p) with
                                           | Some i => insert_by_index i p acc
                                           | None => acc
                                           end) props acc)
             <-> In q acc
                 \/ (In (snd q) props /\ array_index (fst (snd q)) = Some (fst q))).
  { induction props as [|e props IH]; intros acc q; cbn [fold_left In].
    - intuition.
    - rewrite IH. destruct (array_index (fst e)) as [i|] eqn:Hi.
      + rewrite insert_by_index_In. split.
        * intros [[-> | H] | [H1 H2]]; cbn [fst snd]; auto.
        * intros [H | [[-> | H1] H2]]; auto.
          left. left. destruct q as [j x]. cbn [fst snd] in *. congruence.
      + split.
        * intros [H | [H1 H2]]; auto.
        * intros [H | [[-> | H1] H2]]; auto. congruence. }
  split.
  - intros [(q & <- & Hq) | [Hp _]]; [|exact Hp].
    apply H in Hq. destruct Hq as [[] | [Hq _]]. exact Hq.
  - intros Hp. destruct (array_index (fst p)) as [i|] eqn:Hi; [left | right; auto].
    exists (i, p). split; [reflexivity|]. apply H. right. auto.
Qed.

Lemma set_prop_In (k : jsstring) (v : value) (props : list (jsstring * value))
    (e : jsstring * value) :
  In e (set_prop k v props) -> In e props \/ e = (k, v).
Proof.
  induction props as [|[k' v'] props IH]; cbn [set_prop In].
  - intros [<- | []]. right. reflexivity.
  - destruct (str_eqb k k') eqn:Hk; cbn [In].
    + apply str_eqb_eq in Hk. subst k'. intros [<- | H]; auto.
    + intros [<- | H]; auto. destruct (IH H); auto.
Qed.

Lemma set_prop_keys (k : jsstring) (v : value) (props : list (jsstring * value)) :
  List.NoDup (map fst props) -> List.NoDup (map fst (set_prop k v props)).
Proof.
  assert (Hin : forall props k', In k' (map fst (set_prop k v props))
                                 -> In k' (map fst props) \/ k' = k).
  { intros ps k' H. apply in_map_iff in H. destruct H as (e & <- & He).
    apply set_prop_In in He. destruct He as [He | ->]; [left | right; reflexivity].
    apply in_map. exact He. }
  induction props as [|[k' v'] props IH]; cbn [set_prop map fst]; intros Hnd.
  - repeat constructor. intros [].
  - apply List.NoDup_cons_iff in Hnd. destruct Hnd as [Hk' Hnd].
    destruct (str_eqb k k') eqn:Hk; cbn [map fst].
    + apply List.NoDup_cons; assumption.
    + apply List.NoDup_cons; [|apply IH; exact Hnd].
      intros H. apply Hin in H. destruct H as [H | ->]; [exact (Hk' H)|].
      rewrite (proj2 (str_eqb_eq k k) eq_refl) in Hk. discriminate.
Qed.

(** One step of [formatParams]. *)
Lemma formatParams_eq (params : list (jsstring * value)) :
  apiUtils.formatParams params
  = fold_left
      (fun formatted p =>
         match formatted with
         | None => None
         | Some acc =>
             if apiUtils.is_given (snd p) then
               option_map (fun text => apiUtils.assign (fst p) text acc) (ToString (snd p))
             else Some acc
         end)
      (ordered_props params) (Some []).
Proof. reflexivity. Qed.

(** X26. What [formatParams] returns is made of the parameters it was
    given: every entry has a string for value, the text of a parameter with
    the same key that is not [null], [undefined] or the empty string; no
    key occurs twice and the key [__proto__] never occurs. *)
Theorem X26_formatParams_entries (params formatted : list (jsstring * value)) :
  apiUtils.formatParams params = Some formatted ->
  Forall (fun e => exists x text,
              In (fst e, x) params /\ apiUtils.is_given x = true
              /\ ToString x = Some text /\ snd e = VStr text
              /\ fst e <> js "__proto__") formatted
  /\ List.NoDup (map fst formatted).
Proof.
  rewrite formatParams_eq.
  assert (Hin : forall p, In p (ordered_props params) -> In p params)
    by (intros p; apply ordered_props_In).
  assert (H0 : Forall (fun e : jsstring * value => exists x text,
              In (fst e, x) params /\ apiUtils.is_given x = true
              /\ ToString x = Some text /\ snd e = VStr text
              /\ fst e <> js "__proto__") [] /\ List.NoDup (map fst (@nil (jsstring * value))))
    by (split; constructor).
  revert Hin H0. generalize (@nil (jsstring * value)) as acc.
  induction (ordered_props params) as [|[k x] l IH]; intros acc Hin [Hacc Hnd];
    cbn [fold_left fst snd].
  - intros [= <-]. split; assumption.
  - destruct (apiUtils.is_given x) eqn:Hg.
    2:{ apply IH; [intros p Hp; apply Hin; right; exact Hp | split; assumption]. }
    destruct (ToString x) as [text|] eqn:Ht; cbn [option_map].
    2:{ intros H. exfalso. revert H. clear. induction l as [|p l IH]; [discriminate|].
        exact IH. }
    apply IH; [intros p Hp; apply Hin; right; exact Hp|].
    unfold apiUtils.assign. destruct (str_eqb k (js "__proto__")) eqn:Hk;
      [split; assumption|].
    split; [|apply set_prop_keys; exact Hnd].
    apply List.Forall_forall. intros e He. apply set_prop_In in He.
    destruct He as [He | ->].
    + exact (proj1 (List.Forall_forall _ _) Hacc e He).
    + exists x, text. cbn [fst snd]. repeat split; auto.
      * apply Hin. left. reflexivity.
      * intros ->. vm_compute in Hk. discriminate.
Qed.

(** X26 on parameters of which one is empty and one is a number. *)
Lemma X26_witness :
  Forall (fun e => exists x text,
              In (fst e, x) [(js "page", VNum (Dec 2 0)); (js "search", VStr [])]
              /\ apiUtils.is_given x = true
              /\ ToString x = Some text /\ snd e = VStr text
              /\ fst e <> js "__proto__") [(js "page", VStr (js "2"))]
  /\ List.NoDup (map fst [(js "page", VStr (js "2"))]).
Proof.
  apply (X26_formatParams_entries
           [(js "page", VNum (Dec 2 0)); (js "search", VStr [])]
           [(js "page", VStr (js "2"))]).
  vm_compute. reflexivity.
Defined.

(** X27. [formatParams] throws exactly when a parameter that it keeps
    cannot be converted to a string; the parameters that are [null],
    [undefined] or the empty string are never converted. *)
Theorem X27_formatParams_throws (params : list (jsstring * value)) :
  apiUtils.formatParams params = None
  <-> exists p, In p params /\ apiUtils.is_given (snd p) = true
                /\ ToString (snd p) = None.
Proof.
  rewrite formatParams_eq.
  assert (H : (exists p, In p params /\ apiUtils.is_given (snd p) = true
                         /\ ToString (snd p) = None)
              <-> (exists p, In p (ordered_props params)
                             /\ apiUtils.is_given (snd p) = true
                             /\ ToString (snd p) = None)).
  { split; intros (p & Hp & H); exists p; split; auto; apply ordered_props_In; exact Hp. }
  rewrite H. clear H.
  generalize (@nil (jsstring * value)) as acc.
  induction (ordered_props params) as [|[k x] l IH]; intros acc; cbn [fold_left fst snd].
  - split; [discriminate | intros (p & [] & _)].
  - destruct (apiUtils.is_given x) eqn:Hg.
    2:{ rewrite IH. split; intros (p & Hp & H).
        - exists p. split; [right; exact Hp | exact H].
        - destruct Hp as [<- | Hp]; [|exists p; auto].
          cbn [snd] in H. destruct H as [H _]. congruence. }
    destruct (ToString x) as [text|] eqn:Ht; cbn [option_map].
    + rewrite IH. split; intros (p & Hp & H).
      * exists p. split; [right; exact Hp | exact H].
      * destruct Hp as [<- | Hp]; [|exists p; auto].
        cbn [snd] in H. destruct H as [_ H]. congruence.
    + split; [intros _; exists (k, x); cbn; auto|].
      intros _. clear. induction l as [|p l IH]; [reflexivity | exact IH].
Qed.

(** ** A successful [login] or [register] *)

(** The steps of [login] and [register] between the checks of the token and
    of the user and the answer. *)
Ltac store_session Htt Hr :=
  unfold TokenManager.setToken, TokenManager.setRefreshToken;
  unfold bind at 1; unfold bind at 1; rewrite Htt; cbn [or_throw ret setItem];
  unfold bind at 1;
  match goal with
  | |- context [truthy ?refreshToken] =>
      destruct (truthy refreshToken) eqn:Htr;
      [unfold bind at 1; rewrite (Hr eq_refl); cbn [or_throw ret setItem] | cbn [ret]]
  end;
  (unfold bind at 1; cbn [TokenManager.setFirstTimeLogin setItem];
   unfold bind at 1; rewrite setUser_eq;
   unfold bind at 1; unfold TokenManager.getToken at 1; cbn [getItem];
   unfold bind at 1; unfold TokenManager.getUser, bind at 1; cbn [getItem];
   cbn [localStorage with_storage];
   rewrite lookup_insert_eq).

(** X28. A successful [login]: when the envelope reports success and its
    data carries a truthy token whose string form is not empty and a truthy
    user, [login] answers the data and stores the token, the user as JSON
    text and the first-time-login mark, which is ["1"] only for the number
    1.  The refresh token is stored when the data carries one; otherwise
    the refresh token of an earlier session stays in storage. *)
Theorem X28_login_success
    (credentials email : value) (w w1 : World)
    (response success data token refreshToken user first_time_login stored : value)
    (c : N) (t refreshText : jsstring) :
  Get credentials (js "email") = Some email ->
  HttpClient.post (js "/login") credentials w = (Return response, w1) ->
  Get response (js "success") = Some success -> truthy success = true ->
  Get response (js "data") = Some data -> truthy data = true ->
  Get data (js "token") = Some token -> truthy token = true ->
  ToString token = Some (c :: t) ->
  Get data (js "refreshToken") = Some refreshToken ->
  (truthy refreshToken = true -> ToString refreshToken = Some refreshText) ->
  Get data (js "user") = Some user -> truthy user = true ->
  Get data (js "first_time_login") = Some first_time_login ->
  JSON_parse (user_text user) = Some stored ->
  AuthService.login credentials w
  = (Return data,
     with_storage
       (fun m =>
          <[TokenManager.USER_KEY := user_text user]>
            (<[TokenManager.FIRST_TIME_LOGIN_KEY :=
                 if AuthService.is_one first_time_login then js "1" else js "0"]>
               (let m' := <[TokenManager.TOKEN_KEY := c :: t]> m in
                if truthy refreshToken
                then <[TokenManager.REFRESH_TOKEN_KEY := refreshText]> m' else m'))) w1).
Proof.
  intros He Hp Hs Hts Hd Htd Ht Htt Hst Hn Hnt Hu Htu Hf Hparse.
  unfold AuthService.login. unfold try_catch, bind at 1.
  rewrite He. cbn [or_throw ret].
  unfold bind at 1. rewrite Hp.
  unfold bind at 1. rewrite Hs. cbn [or_throw ret].
  unfold bind at 1. rewrite Hd. cbn [or_throw ret].
  rewrite Hts, Htd. cbn [andb].
  unfold bind at 1. rewrite Ht. cbn [or_throw ret].
  unfold bind at 1. rewrite Hn. cbn [or_throw ret].
  unfold bind at 1. rewrite Hu. cbn [or_throw ret].
  unfold bind at 1. rewrite Hf. cbn [or_throw ret].
  rewrite Htt, Htu. cbn [negb].
  store_session Hst Hnt.
  all: rewrite !lookup_insert_ne by (vm_compute; discriminate).
  all: rewrite ?lookup_insert_ne by (vm_compute; discriminate).
  all: rewrite lookup_insert_eq.
  all: destruct (user_text user) as [|u us] eqn:Hut;
    [|rewrite Hparse]; reflexivity.
Qed.

(** X28 at a response without a refresh token: the refresh token of the
    earlier session is still stored beside the new token. *)
Lemma X28_witness :
  localStorage (snd (AuthService.login credentials_example world_login_ok))
    !! TokenManager.TOKEN_KEY = Some (js "t2")
  /\ localStorage (snd (AuthService.login credentials_example world_login_ok))
       !! TokenManager.REFRESH_TOKEN_KEY = Some (js "r1")
  /\ localStorage (snd (AuthService.login credentials_example world_login_ok))
       !! TokenManager.FIRST_TIME_LOGIN_KEY = Some (js "1").
Proof.
  rewrite (X28_login_success credentials_example (VStr (js "a@b.com")) world_login_ok
             (snd (HttpClient.post (js "/login") credentials_example world_login_ok))
             (VObj [(js "success", VBool true);
                    (js "data", VObj [(js "token", VStr (js "t2"));
                                      (js "user", VObj [(js "id", VNum (Dec 8 0))]);
                                      (js "first_time_login", VNum (Dec 1 0))])])
             (VBool true)
             (VObj [(js "token", VStr (js "t2"));
                    (js "user", VObj [(js "id", VNum (Dec 8 0))]);
                    (js "first_time_login", VNum (Dec 1 0))])
             (VStr (js "t2")) VUndefined (VObj [(js "id", VNum (Dec 8 0))])
             (VNum (Dec 1 0)) (VObj [(js "id", VNum (Dec 8 0))])
             116 (js "2") []);
    try (vm_compute; reflexivity).
  - repeat split; vm_compute; reflexivity.
  - discriminate.
Defined.

(** X29. A successful [register] stores the session as [login] does, but
    does not check what it stored: a truthy token whose string form is
    empty is accepted. *)
Theorem X29_register_success
    (userData email : value) (w w1 : World)
    (response success data token refreshToken user first_time_login stored : value)
    (tokenText refreshText : jsstring) :
  Get userData (js "email") = Some email ->
  HttpClient.post (js "/register") userData w = (Return response, w1) ->
  Get response (js "success") = Some success -> truthy success = true ->
  Get response (js "data") = Some data -> truthy data = true ->
  Get data (js "token") = Some token -> truthy token = true ->
  ToString token = Some tokenText ->
  Get data (js "refreshToken") = Some refreshToken ->
  (truthy refreshToken = true -> ToString refreshToken = Some refreshText) ->
  Get data (js "user") = Some user -> truthy user = true ->
  Get data (js "first_time_login") = Some first_time_login ->
  JSON_parse (user_text user) = Some stored ->
  AuthService.register userData w
  = (Return data,
     with_storage
       (fun m =>
          <[TokenManager.USER_KEY := user_text user]>
            (<[TokenManager.FIRST_TIME_LOGIN_KEY :=
                 if AuthService.is_one first_time_login then js "1" else js "0"]>
               (let m' := <[TokenManager.TOKEN_KEY := tokenText]> m in
                if truthy refreshToken
                then <[TokenManager.REFRESH_TOKEN_KEY := refreshText]> m' else m'))) w1).
Proof.
  intros He Hp Hs Hts Hd Htd Ht Htt Hst Hn Hnt Hu Htu Hf Hparse.
  destruct (Get_defined userData email (js "email") (js "firstName") He) as [x1 H1].
  destruct (Get_defined userData email (js "email") (js "lastName") He) as [x2 H2].
  destruct (Get_defined userData email (js "email") (js "company") He) as [x3 H3].
  unfold AuthService.register. unfold try_catch, bind at 1.
  rewrite He. cbn [or_throw ret].
  unfold bind at 1. rewrite H1. cbn [or_throw ret].
  unfold bind at 1. rewrite H2. cbn [or_throw ret].
  unfold bind at 1. rewrite H3. cbn [or_throw ret].
  unfold bind at 1. rewrite Hp.
  unfold bind at 1. rewrite Hs. cbn [or_throw ret].
  unfold bind at 1. rewrite Hd. cbn [or_throw ret].
  rewrite Hts, Htd. cbn [andb].
  unfold bind at 1. rewrite Ht. cbn [or_throw ret].
  unfold bind at 1. rewrite Hn. cbn [or_throw ret].
  unfold bind at 1. rewrite Hu. cbn [or_throw ret].
  unfold bind at 1. rewrite Hf. cbn [or_throw ret].
  rewrite Htt, Htu. cbn [negb].
  store_session Hst Hnt.
  all: destruct (user_text user) as [|u us] eqn:Hut;
    [|rewrite Hparse]; reflexivity.
Qed.

(** X29 at a response whose token is the empty array: the empty string is
    stored as the token. *)
Lemma X29_witness :
  localStorage (snd (AuthService.register credentials_example world_empty_array_token))
    !! TokenManager.TOKEN_KEY = Some [].
Proof.
  rewrite (X29_register_success credentials_example (VStr (js "a@b.com"))
             world_empty_array_token
             (snd (HttpClient.post (js "/register") credentials_example
                     world_empty_array_token))
             (VObj [(js "success", VBool true);
                    (js "data", VObj [(js "token", VArr []);
                                      (js "user", VObj [(js "id", VNum (Dec 8 0))])])])
             (VBool true)
             (VObj [(js "token", VArr []);
                    (js "user", VObj [(js "id", VNum (Dec 8 0))])])
             (VArr []) VUndefined (VObj [(js "id", VNum (Dec 8 0))])
             VUndefined (VObj [(js "id", VNum (Dec 8 0))]) [] []);
    try (vm_compute; reflexivity).
  discriminate.
Defined.



(** [setUser] does not round-trip a user that has no JSON text: the
    string ["undefined"] is stored in its place, and the next [getUser]
    throws a SyntaxError. *)
Lemma setUser_without_json_text (user : value) (w : World) :
  JSON_stringify user = None ->
  (TokenManager.setUser user ;;; TokenManager.getUser) w
  = (Throw JsSyntaxError,
     with_storage (insert TokenManager.USER_KEY (js "undefined")) w).
Proof.
  intros Hj. unfold bind at 1. rewrite setUser_eq. unfold user_text. rewrite Hj.
  unfold TokenManager.getUser, bind, getItem. cbn [localStorage with_storage].
  rewrite lookup_insert_eq. reflexivity.
Qed.
